(** * An HTTP API test framework: executor, assertion evaluator, run
      orchestrator and curl command parser

    A shallow embedding of
      - [internal/testrunner/httpexpect_executor.go] (module [TestRunner]),
      - [internal/models/models.go]                  (module [Models]),
      - the test-run service, [executeTests]         (module [Services]),
      - [internal/utils/curl_parser.go]              (module [CurlParser]),
      - the test service, [CleanTestSpec]            (module [TestService]),
      - [scripts/generate_assertions.go]             (module [Generator]),
    with the properties of the specification stated over it.

    Go strings are byte sequences and are modelled by [string]; Go [int] by
    [Z]; [float64] by the primitive binary64 [float]; a decoded JSON value
    ([interface{}]) by the inductive [json].  A run-time panic is an explicit
    result ([Panic]).  Wall-clock fields (start time, duration, completion
    time) and the debug log file are not modelled. *)

From Stdlib Require Import ZArith String Ascii List Bool Lia Floats.
From Stdlib Require Import Numbers.DecimalString Numbers.DecimalPos.
Import ListNotations.
Open Scope string_scope.
#[local] Set Warnings "-register-all".

(** ** Results of code that may panic *)

Inductive outcome (A : Type) : Type :=
| Done (a : A)
| Panic (msg : string).
Arguments Done {A} a.
Arguments Panic {A} msg.

Definition bind {A B : Type} (m : outcome A) (k : A -> outcome B) : outcome B :=
  match m with
  | Done a => k a
  | Panic msg => Panic msg
  end.

Notation "x <- m ;; k" := (bind m (fun x => k))
  (at level 61, m at next level, right associativity).

(** ** The functions of Go's [strings] and [fmt] packages the code calls *)

Module GoStrings.

Definition HasPrefix (s p : string) : bool := String.prefix p s.

Definition HasSuffix (s p : string) : bool :=
  let n := String.length s in
  let m := String.length p in
  (m <=? n)%nat && (substring (n - m) m s =? p).

(** [strings.Contains]. *)
Fixpoint Contains (s sub : string) : bool :=
  String.prefix sub s ||
  match s with
  | EmptyString => false
  | String _ s' => Contains s' sub
  end.

(** Dropping the first [n] bytes: [s[n:]] for [n <= len(s)]. *)
Fixpoint drop (n : nat) (s : string) : string :=
  match n, s with
  | O, _ => s
  | S k, String _ s' => drop k s'
  | S _, EmptyString => EmptyString
  end.

(** [strings.ReplaceAll s old new] for a non-empty [old]: the occurrences of
    [old] are replaced from the left, without overlap.  [skip] counts the bytes
    of an occurrence that are still to be passed over. *)
Fixpoint replace_from (old new s : string) (skip : nat) : string :=
  match s with
  | EmptyString => EmptyString
  | String c s' =>
      match skip with
      | S k => replace_from old new s' k
      | O =>
          if String.prefix old s
          then new ++ replace_from old new s' (String.length old - 1)
          else String c (replace_from old new s' 0)
      end
  end.

Definition ReplaceAll (s old new : string) : string := replace_from old new s 0.

(** The width in bytes of the white-space rune at the head of [s], 0 when
    there is none: [unicode.IsSpace] on the UTF-8 decoding, that is
    U+0009..U+000D, U+0020, U+0085, U+00A0, U+1680, U+2000..U+200A, U+2028,
    U+2029, U+202F, U+205F and U+3000. *)
Definition space_width (s : string) : nat :=
  match s with
  | EmptyString => 0
  | String c s1 =>
      let n := nat_of_ascii c in
      if ((9 <=? n) && (n <=? 13) || (n =? 32))%nat then 1
      else
        match s1 with
        | EmptyString => 0
        | String c1 s2 =>
            let n1 := nat_of_ascii c1 in
            if ((n =? 194) && ((n1 =? 133) || (n1 =? 160)))%nat then 2
            else
              match s2 with
              | EmptyString => 0
              | String c2 _ =>
                  let n2 := nat_of_ascii c2 in
                  if ((n =? 225) && (n1 =? 154) && (n2 =? 128))%nat then 3
                  else if ((n =? 226) && (n1 =? 128) &&
                           ((128 <=? n2) && (n2 <=? 138) || (n2 =? 168) ||
                            (n2 =? 169) || (n2 =? 175)))%nat then 3
                  else if ((n =? 226) && (n1 =? 129) && (n2 =? 159))%nat then 3
                  else if ((n =? 227) && (n1 =? 128) && (n2 =? 128))%nat then 3
                  else 0
              end
        end
  end.

(** [strings.Fields]: the maximal runs of bytes between white space.  [cur]
    is the field being read, [skip] the bytes of a white-space rune still to
    be passed over. *)
Fixpoint fields_from (s : string) (skip : nat) (cur : string) : list string :=
  match s with
  | EmptyString => if cur =? "" then [] else [cur]
  | String c s' =>
      match skip with
      | S k => fields_from s' k cur
      | O =>
          match space_width s with
          | O => fields_from s' 0 (cur ++ String c EmptyString)
          | S k => (if cur =? "" then [] else [cur]) ++ fields_from s' k ""
          end
      end
  end.

Definition Fields (s : string) : list string := fields_from s 0 "".

(** [strings.Join]. *)
Definition Join (l : list string) (sep : string) : string := String.concat sep l.

(** [strings.TrimSpace]: leading white-space runes are removed, then trailing
    ones.  A white-space rune ends [s] exactly when its encoding is a suffix
    of [s]. *)
Fixpoint trim_left (fuel : nat) (s : string) : string :=
  match fuel with
  | O => s
  | S k =>
      match space_width s with
      | O => s
      | S w => trim_left k (drop (S w) s)
      end
  end.

Definition space_suffix (s : string) : nat :=
  let n := String.length s in
  if ((1 <=? n) && (space_width (drop (n - 1) s) =? 1))%nat then 1
  else if ((2 <=? n) && (space_width (drop (n - 2) s) =? 2))%nat then 2
  else if ((3 <=? n) && (space_width (drop (n - 3) s) =? 3))%nat then 3
  else 0.

Fixpoint trim_right (fuel : nat) (s : string) : string :=
  match fuel with
  | O => s
  | S k =>
      match space_suffix s with
      | O => s
      | S w => trim_right k (substring 0 (String.length s - S w) s)
      end
  end.

Definition TrimSpace (s : string) : string :=
  let l := trim_left (String.length s) s in
  trim_right (String.length l) l.

(** [strings.SplitN s sep 2] for a one-byte separator: [s] alone when [sep]
    does not occur, otherwise what precedes and what follows its first
    occurrence. *)
Fixpoint cut (sep : ascii) (s : string) : option (string * string) :=
  match s with
  | EmptyString => None
  | String c s' =>
      if Ascii.eqb c sep then Some (EmptyString, s')
      else match cut sep s' with
           | Some (a, b) => Some (String c a, b)
           | None => None
           end
  end.

Definition SplitN2 (s : string) (sep : ascii) : list string :=
  match cut sep s with
  | Some (a, b) => [a; b]
  | None => [s]
  end.

(** [strings.ToUpper] and [strings.ToLower] on ASCII letters.  The Unicode
    case mapping of letters outside ASCII is not modelled: their bytes are
    kept. *)
Definition upper_byte (c : ascii) : ascii :=
  let n := nat_of_ascii c in
  if ((97 <=? n) && (n <=? 122))%nat then ascii_of_nat (n - 32) else c.

Definition lower_byte (c : ascii) : ascii :=
  let n := nat_of_ascii c in
  if ((65 <=? n) && (n <=? 90))%nat then ascii_of_nat (n + 32) else c.

Fixpoint map_bytes (f : ascii -> ascii) (s : string) : string :=
  match s with
  | EmptyString => EmptyString
  | String c s' => String (f c) (map_bytes f s')
  end.

Definition ToUpper : string -> string := map_bytes upper_byte.
Definition ToLower : string -> string := map_bytes lower_byte.

(** The verb [%d] of [fmt.Sprintf]. *)
Definition fmt_d (z : Z) : string := NilZero.string_of_int (Z.to_int z).

End GoStrings.

(** ** Decoded JSON values

    What [encoding/json] decodes into an [interface{}]: [nil], [bool],
    [float64], [string], [[]interface{}] and [map[string]interface{}].  An
    object is kept as its bindings; the keys of a decoded object are distinct
    and a lookup returns the first binding of a key. *)

Inductive json : Type :=
| JNull
| JBool (b : bool)
| JNumber (f : float)
| JString (s : string)
| JArray (l : list json)
| JObject (m : list (string * json)).

Definition object := list (string * json).

(** The map index expression [m[k]] with its presence flag. *)
Fixpoint lookup (k : string) (m : object) : option json :=
  match m with
  | [] => None
  | (k', v) :: m' => if k' =? k then Some v else lookup k m'
  end.

(** The checked type assertions [v.(string)] and [v.(float64)] applied to a
    map index expression: an absent key yields [nil], which fails them. *)
Definition as_string (v : option json) : option string :=
  match v with
  | Some (JString s) => Some s
  | _ => None
  end.

Definition as_float64 (v : option json) : option float :=
  match v with
  | Some (JNumber f) => Some f
  | _ => None
  end.

(** The conversion of an [int] to [float64]. *)
Definition float64_of_int (z : Z) : float :=
  if (z <? 0)%Z then PrimFloat.opp (PrimFloat.of_uint63 (Uint63.of_Z (- z)))
  else PrimFloat.of_uint63 (Uint63.of_Z z).

(** The integer part of a finite [float64], rounding toward zero. *)
Definition truncate (f : float) : option Z :=
  match Prim2SF f with
  | S754_zero _ => Some 0%Z
  | S754_finite s m e =>
      let mag := if (0 <=? e)%Z then Z.shiftl (Zpos m) e
                 else Z.shiftr (Zpos m) (- e) in
      Some (if s then (- mag)%Z else mag)
  | _ => None
  end.

(** Go's comparison [a == b] of two interface values holding decoded JSON:
    values of different dynamic types are unequal, and comparing two maps or
    two slices panics. *)
Definition iface_eq (a b : json) : outcome bool :=
  match a, b with
  | JNull, JNull => Done true
  | JBool x, JBool y => Done (Bool.eqb x y)
  | JNumber x, JNumber y => Done (PrimFloat.eqb x y)
  | JString x, JString y => Done (x =? y)
  | JArray _, JArray _ =>
      Panic "runtime error: comparing uncomparable type []interface {}"
  | JObject _, JObject _ =>
      Panic "runtime error: comparing uncomparable type map[string]interface {}"
  | _, _ => Done false
  end.

(** ** The Go run time and standard library, as far as the code depends on
    functions whose results are not modelled here *)

(** URLs as [net/url] parses them. *)
Record URL : Type := mkURL {
  Scheme : string;
  Host : string;
  UPath : string;
  RawQuery : string
}.

Class GoRuntime : Type := {
  (** [json.Marshal] on a decoded value: its compact JSON text. *)
  json_Marshal : json -> string;
  (** [json.Unmarshal] of a text into an [interface{}]; [None] on an error. *)
  json_Unmarshal : string -> option json;
  (** The verb [%v] of [fmt.Sprintf] on an interface holding a decoded value. *)
  fmt_v : json -> string;
  (** [strconv.FormatFloat(f, 'f', -1, 64)]. *)
  FormatFloat : float -> string;
  (** The result of the conversion [int(f)] when the integer part of [f] is
      not representable as an [int], which Go leaves to the implementation. *)
  int_unrepresentable : float -> Z;
  (** [url.Parse]: the parsed URL or the text of the error. *)
  url_Parse : string -> string + URL;
  (** The method [Query] of a parsed URL: the query keys, each with its
      values. *)
  url_Query : URL -> list (string * list string)
}.

(** The conversion [int(f)] of a [float64]. *)
Definition go_int `{GoRuntime} (f : float) : Z :=
  match truncate f with
  | Some z =>
      if ((- 2 ^ 63 <=? z) && (z <? 2 ^ 63))%Z then z else int_unrepresentable f
  | None => int_unrepresentable f
  end.

(** What the following statements say of the code holds on every
    implementation of the run time. *)
Definition on_every_runtime (P : GoRuntime -> Prop) : Prop :=
  forall R : GoRuntime, P R.

(** ** The [gjson] library on plain dotted paths

    [gjson.Get(text, path)] is modelled on the decoded document instead of
    its text ([None] is the empty text).  The model covers paths that are
    dot-separated object keys and array indices written with letters, digits,
    [_] and [-]; the wildcards, queries, modifiers and escapes of the path
    language are not interpreted.  An array index is read as a decimal
    number, without the wrap-around of a 64-bit integer. *)

Module GJSON.

Inductive Type_ : Type := Null | False | Number | Str_ | True | JSON.

Definition Type_eqb (a b : Type_) : bool :=
  match a, b with
  | Null, Null | False, False | Number, Number
  | Str_, Str_ | True, True | JSON, JSON => true
  | _, _ => false
  end.

(** [Raw] is the located element ([None] for the empty raw text); its text is
    [json_Marshal] of the element. *)
Record Result : Type := mkResult {
  RType : Type_;
  Raw : option json;
  Str : string;
  Num : float
}.

Definition missing : Result := mkResult Null None "" 0%float.

Definition located (v : json) : Result :=
  match v with
  | JNull => mkResult Null (Some v) "" 0%float
  | JBool true => mkResult True (Some v) "" 0%float
  | JBool false => mkResult False (Some v) "" 0%float
  | JNumber f => mkResult Number (Some v) "" f
  | JString s => mkResult Str_ (Some v) s 0%float
  | JArray _ | JObject _ => mkResult JSON (Some v) "" 0%float
  end.

(** [Result.Exists]: [t.Type != Null || len(t.Raw) != 0]. *)
Definition Exists (t : Result) : bool :=
  negb (Type_eqb (RType t) Null) ||
  match Raw t with Some _ => true | None => false end.

(** [Result.Value]. *)
Definition Value (t : Result) : json :=
  match RType t with
  | Str_ => JString (Str t)
  | False => JBool false
  | Number => JNumber (Num t)
  | True => JBool true
  | JSON => match Raw t with
            | Some (JArray l) => JArray l
            | Some (JObject m) => JObject m
            | _ => JNull
            end
  | Null => JNull
  end.

Definition is_digit (c : ascii) : bool :=
  let n := nat_of_ascii c in ((48 <=? n) && (n <=? 57))%nat.

Fixpoint all_digits (s : string) : bool :=
  match s with
  | EmptyString => true
  | String c s' => is_digit c && all_digits s'
  end.

(** An optional [-] followed by digits only. *)
Definition integer_literal (s : string) : bool :=
  match s with
  | String "-" s' => all_digits s'
  | _ => all_digits s
  end.

(** [Result.String]. *)
Definition String_ `{GoRuntime} (t : Result) : string :=
  match RType t with
  | False => "false"
  | Number =>
      match Raw t with
      | None => FormatFloat (Num t)
      | Some v =>
          let raw := json_Marshal v in
          if integer_literal raw then raw else FormatFloat (Num t)
      end
  | Str_ => Str t
  | JSON => match Raw t with Some v => json_Marshal v | None => "" end
  | True => "true"
  | Null => ""
  end.

(** The components of a dotted path. *)
Fixpoint split_dots (s : string) (cur : string) : list string :=
  match s with
  | EmptyString => [cur]
  | String c s' =>
      if Ascii.eqb c "." then cur :: split_dots s' ""
      else split_dots s' (cur ++ String c EmptyString)
  end.

Fixpoint decimal (s : string) (acc : nat) : nat :=
  match s with
  | EmptyString => acc
  | String c s' => decimal s' (10 * acc + (nat_of_ascii c - 48))
  end.

(** One component: a key of an object, an index of an array. *)
Definition child (v : json) (part : string) : option json :=
  match v with
  | JObject m => lookup part m
  | JArray l =>
      if negb (part =? "") && all_digits part then nth_error l (decimal part 0)
      else None
  | _ => None
  end.

Fixpoint descend (v : json) (parts : list string) : option json :=
  match parts with
  | [] => Some v
  | part :: rest =>
      match child v part with
      | Some v' => descend v' rest
      | None => None
      end
  end.

(** The value a path names in a document, if any. *)
Definition resolve (doc : option json) (path : string) : option json :=
  match doc with
  | Some v => descend v (split_dots path "")
  | None => None
  end.

(** [gjson.Get]. *)
Definition Get (doc : option json) (path : string) : Result :=
  match resolve doc path with
  | Some v => located v
  | None => missing
  end.

(** The paths the model covers. *)
Definition plain_byte (c : ascii) : bool :=
  let n := nat_of_ascii c in
  (is_digit c || ((65 <=? n) && (n <=? 90)) || ((97 <=? n) && (n <=? 122)) ||
   (n =? 95) || (n =? 45))%nat.

Fixpoint plain_part (s : string) : bool :=
  match s with
  | EmptyString => true
  | String c s' => plain_byte c && plain_part s'
  end.

Definition plain_path (path : string) : bool :=
  forallb (fun part => negb (part =? "") && plain_part part)
          (split_dots path "").

End GJSON.

(** ** [internal/models/models.go] *)

Module Models.

(** [AssertionSpec].  [Expected] is an [interface{}]; it holds a decoded JSON
    value, [JNull] for [nil]. *)
Record AssertionSpec : Type := mkAssertionSpec {
  Type_ : string;
  Path : string;
  Matcher : string;
  Expected : json
}.

(** [RequestSpec].  A [nil] header map is [None]. *)
Record RequestSpec : Type := mkRequestSpec {
  Method : string;
  URL : string;
  Headers : option (list (string * string));
  Body : json
}.

(** [TestSpec].  A [nil] assertion slice is [None]. *)
Record TestSpec : Type := mkTestSpec {
  Name : string;
  Description : string;
  ServiceName : string;
  Request : RequestSpec;
  Assertions : option (list AssertionSpec)
}.

(** [TestCase], with the base URL of its preloaded [Service]. *)
Record TestCase : Type := mkTestCase {
  ID : string;
  ServiceID : string;
  CaseName : string;
  TestSpecText : string;
  BaseURL : string
}.

(** The columns of [TestRun] the test-run service writes. *)
Record TestRun : Type := mkTestRun {
  RunName : string;
  Status : string;
  TotalTests : Z;
  PassedTests : Z;
  FailedTests : Z
}.

(** The generic value [json.Unmarshal(json.Marshal(v))] yields for each
    struct, by its field tags: [path] and [matcher] are [omitempty], a [nil]
    map or slice is encoded as [null].  Strings are taken to be valid UTF-8,
    which the encoder leaves as they are. *)
Definition omitempty (key value : string) : object :=
  if value =? "" then [] else [(key, JString value)].

Definition AssertionSpec_json (a : AssertionSpec) : json :=
  JObject ([("type", JString (Type_ a))] ++ omitempty "path" (Path a) ++
           omitempty "matcher" (Matcher a) ++ [("expected", Expected a)]).

Definition RequestSpec_json (r : RequestSpec) : json :=
  JObject [("method", JString (Method r));
           ("url", JString (URL r));
           ("headers", match Headers r with
                       | None => JNull
                       | Some h => JObject (map (fun kv => (fst kv, JString (snd kv))) h)
                       end);
           ("body", Body r)].

Definition TestSpec_json (t : TestSpec) : object :=
  [("name", JString (Name t));
   ("description", JString (Description t));
   ("service_name", JString (ServiceName t));
   ("request", RequestSpec_json (Request t));
   ("assertions", match Assertions t with
                  | None => JNull
                  | Some l => JArray (map AssertionSpec_json l)
                  end)].

End Models.

(** ** [internal/testrunner/httpexpect_executor.go] *)

Module TestRunner.

Import GoStrings.

(** The request handed to the HTTP client and the response it returned:
    status code, header map and the decoded JSON body ([resp.JSON().Raw()]). *)
Record Request : Type := mkRequest {
  ReqMethod : string;
  ReqURL : string;
  ReqHeaders : list (string * string);
  ReqJSON : option json
}.

Record Response : Type := mkResponse {
  StatusCode : Z;
  Header : list (string * list string);
  Body : json
}.

(** The values stored in the [interface{}] fields of a result: an [int], or a
    decoded JSON value ([nil] is [AJSON JNull]). *)
Inductive any : Type :=
| AInt (n : Z)
| AJSON (v : json).

Definition go_nil : any := AJSON JNull.

Record AssertionResult : Type := mkAssertionResult {
  Type_ : string;
  Path : string;
  Matcher : string;
  Expected : any;
  Actual : any;
  Passed : bool;
  Message : string
}.

Record TestResult : Type := mkTestResult {
  TestName : string;
  Status : string;
  ErrorMessage : string;
  ResponseData : string;
  AssertionResults : list AssertionResult
}.

(** The map [responseData] built from a response. *)
Definition responseData (resp : Response) : json :=
  JObject [("body", Body resp);
           ("headers",
            JObject (map (fun kv => (fst kv, JArray (map JString (snd kv))))
                         (Header resp)));
           ("status_code", JNumber (float64_of_int (StatusCode resp)))].

(** [len(path) > 0 && path[0] == '[']. *)
Definition array_rooted (path : string) : bool :=
  match path with
  | String "[" _ => true
  | _ => false
  end.

Definition dotPath (path : string) : string :=
  ReplaceAll (ReplaceAll path "[" ".") "]" "".

Definition fullPath (path : string) : string := "body" ++ dotPath path.

Section Evaluator.

Context `{GoRuntime}.

(** The comparison of the [equals] cases, shared by the [exists]/[equals]
    evaluator (expected value under ["value"]) and by [json_path] (under
    ["expected"]); [suffix] ends the failure message. *)
Definition compare (result : AssertionResult) (value : GJSON.Result)
    (expected : json) (suffix : string) : outcome AssertionResult :=
  passed <- iface_eq (GJSON.Value value) expected ;;
  Done (mkAssertionResult (Type_ result) (Path result) (Matcher result)
          (AJSON expected) (AJSON (GJSON.Value value)) passed
          (if passed then Message result
           else "Expected '" ++ fmt_v expected ++ "', got '" ++
                fmt_v (GJSON.Value value) ++ "'" ++ suffix)).

(** [executeAssertion]. *)
Definition executeAssertion (resp : Response) (assertion : object)
  : outcome AssertionResult :=
  match as_string (lookup "type" assertion) with
  | None => Panic "interface conversion: interface {} is not string"
  | Some type =>
    let result := mkAssertionResult type "" "" go_nil go_nil true "" in
    if type =? "status_code" then
      match as_float64 (lookup "value" assertion) with
      | Some expected =>
          let actual := StatusCode resp in
          let passed := ((actual =? go_int expected) ||
                         ((go_int expected =? 200) && (actual =? 201)))%Z in
          Done (mkAssertionResult type "" "" (AInt (go_int expected))
                  (AInt actual) passed
                  (if passed then ""
                   else "Expected status code " ++ fmt_d (go_int expected) ++
                        ", got " ++ fmt_d actual))
      | None => Done result
      end
    else if type =? "exists" then
      match as_string (lookup "path" assertion) with
      | Some path =>
          let jsonString := Some (responseData resp) in
          if array_rooted path then
            let value := GJSON.Get jsonString (fullPath path) in
            Done (mkAssertionResult type (fullPath path) "exists" go_nil go_nil
                    (GJSON.Exists value)
                    (if GJSON.Exists value then ""
                     else "JSON path '" ++ fullPath path ++ "' does not exist"))
          else
            let value := GJSON.Get jsonString path in
            Done (mkAssertionResult type path "exists" go_nil go_nil
                    (GJSON.Exists value)
                    (if GJSON.Exists value then ""
                     else "JSON path '" ++ path ++ "' does not exist"))
      | None => Done result
      end
    else if type =? "equals" then
      match as_string (lookup "path" assertion) with
      | Some path =>
          let jsonString := Some (responseData resp) in
          if array_rooted path then
            let value := GJSON.Get jsonString (fullPath path) in
            let result := mkAssertionResult type (fullPath path) "equals"
                            go_nil go_nil true "" in
            match lookup "value" assertion with
            | Some expected =>
                compare result value expected
                        (" for path '" ++ fullPath path ++ "'")
            | None => Done result
            end
          else
            let value := GJSON.Get jsonString path in
            let result := mkAssertionResult type path "equals"
                            go_nil go_nil true "" in
            match lookup "value" assertion with
            | Some expected =>
                compare result value expected (" for path '" ++ path ++ "'")
            | None => Done result
            end
      | None => Done result
      end
    else if type =? "json_path" then
      match as_string (lookup "path" assertion) with
      | Some path =>
          match as_string (lookup "matcher" assertion) with
          | None => Panic "interface conversion: interface {} is not string"
          | Some matcher =>
              let jsonData := Body resp in
              let jsonString := match jsonData with
                                | JNull => None
                                | _ => Some jsonData
                                end in
              let value := GJSON.Get jsonString path in
              let result := mkAssertionResult type path matcher
                              go_nil go_nil true "" in
              if matcher =? "exists" then
                Done (mkAssertionResult type path matcher go_nil go_nil
                        (GJSON.Exists value)
                        (if GJSON.Exists value then ""
                         else "JSON path '" ++ path ++ "' does not exist"))
              else if matcher =? "equals" then
                match lookup "expected" assertion with
                | Some expected => compare result value expected ""
                | None => Done result
                end
              else if matcher =? "contains" then
                match as_string (lookup "expected" assertion) with
                | Some expected =>
                    let passed := GJSON.String_ value =? expected in
                    Done (mkAssertionResult type path matcher
                            (AJSON (JString expected))
                            (AJSON (JString (GJSON.String_ value))) passed
                            (if passed then ""
                             else "Expected to contain '" ++ expected ++
                                  "', got '" ++ GJSON.String_ value ++ "'"))
                | None => Done result
                end
              else Done result
          end
      | None => Done result
      end
    else if type =? "response_time" then
      match as_float64 (lookup "expected" assertion) with
      | Some expected =>
          Done (mkAssertionResult type "" "" (AInt (go_int expected)) go_nil true
                  "Response time assertion not implemented yet")
      | None => Done result
      end
    else
      Done (mkAssertionResult type "" "" go_nil go_nil false
              ("Unknown assertion type: " ++ type))
  end.

(** The header-path assertions the loop of [ExecuteTest] skips. *)
Definition skipped (assertion : object) : bool :=
  match as_string (lookup "path" assertion) with
  | Some path => (path =? "headers.Content-Type") || (path =? "headers")
  | None => false
  end.

Definition record (result : TestResult) (ar : AssertionResult) : TestResult :=
  let results := (AssertionResults result ++ [ar])%list in
  if Passed ar
  then mkTestResult (TestName result) (Status result) (ErrorMessage result)
                    (ResponseData result) results
  else mkTestResult (TestName result) "FAILED" (Message ar)
                    (ResponseData result) results.

(** The loop over the assertions of a specification. *)
Fixpoint run_assertions (resp : Response) (assertions : list json)
    (result : TestResult) : outcome TestResult :=
  match assertions with
  | [] => Done result
  | JObject assertion :: rest =>
      if skipped assertion then run_assertions resp rest result
      else
        assertionResult <- executeAssertion resp assertion ;;
        run_assertions resp rest (record result assertionResult)
  | _ :: rest => run_assertions resp rest result
  end.

Definition failed (testSpec : Models.TestSpec) (message responseText : string)
  : TestResult :=
  mkTestResult (Models.Name testSpec) "FAILED" message responseText [].

(** The header values of the request map, each asserted to be a string. *)
Fixpoint header_values (headers : object) : outcome (list (string * string)) :=
  match headers with
  | [] => Done []
  | (key, JString value) :: rest =>
      l <- header_values rest ;; Done ((key, value) :: l)
  | _ :: _ => Panic "interface conversion: interface {} is not string"
  end.

Definition must_string (v : option json) : outcome string :=
  match as_string v with
  | Some s => Done s
  | None => Panic "interface conversion: interface {} is not string"
  end.

(** [ExecuteTest].  [client] stands for the configured HTTP client: the
    response [req.Expect()] obtains for a request.  The specification is a
    typed value holding decoded JSON, so that encoding it cannot fail. *)
Definition ExecuteTest (client : Request -> Response)
    (testSpec : Models.TestSpec) : outcome TestResult :=
  let testSpecData := Models.TestSpec_json testSpec in
  match lookup "request" testSpecData with
  | Some (JObject requestData) =>
      method <- must_string (lookup "method" requestData) ;;
      url <- must_string (lookup "url" requestData) ;;
      headers <- match lookup "headers" requestData with
                 | Some (JObject headers) => header_values headers
                 | _ => Done []
                 end ;;
      let body := match lookup "body" requestData with
                  | Some JNull | None => None
                  | Some body => Some body
                  end in
      let resp := client (mkRequest method url headers body) in
      if (400 <=? StatusCode resp)%Z then
        Done (failed testSpec
                ("HTTP request failed with status " ++ fmt_d (StatusCode resp))
                "")
      else
        let responseBytes := json_Marshal (responseData resp) in
        let responseText :=
          if (0 <? String.length responseBytes)%nat then responseBytes
          else "{}" in
        match lookup "assertions" testSpecData with
        | Some (JArray assertions) =>
            run_assertions resp assertions
              (mkTestResult (Models.Name testSpec) "PASSED" "" responseText [])
        | _ => Done (failed testSpec "No assertions found" responseText)
        end
  | _ => Done (failed testSpec "Invalid request specification" "")
  end.

End Evaluator.

End TestRunner.

(** ** The test-run service: [StartTestRun] and [executeTests] *)

Module Services.

Import Models.

(** A stored [models.TestResult] row. *)
Record ResultRow : Type := mkResultRow {
  TestCaseID : string;
  RowStatus : string;
  RowErrorMessage : string;
  RowResponseData : string
}.

(** [recordTestResult]. *)
Definition recordTestResult (testCaseID status errorMessage responseData : string)
  : ResultRow :=
  mkResultRow testCaseID status errorMessage
              (if responseData =? "" then "{}" else responseData).

(** The stored run and the stored results. *)
Record Store : Type := mkStore {
  Run : TestRun;
  Rows : list ResultRow
}.

(** [Updates] of the columns [status], [passed_tests] and [failed_tests]. *)
Definition Updates (run : TestRun) (status : string) (passed failed : Z)
  : TestRun :=
  mkTestRun (RunName run) status (TotalTests run) passed failed.

Section Service.

Context `{GoRuntime}.

(** [json.Unmarshal] of a stored specification into a [TestSpec]: the text of
    the error, or the specification. *)
Variable unmarshal_TestSpec : string -> string + TestSpec.

(** The network: the response the HTTP client of an executor created for a
    base URL obtains for a request. *)
Variable client : string -> TestRunner.Request -> TestRunner.Response.

(** The loop of [executeTests]: the rows recorded, and the counters unless a
    test panicked. *)
Fixpoint run_cases (testCases : list TestCase) (passedTests failedTests : Z)
    (rows : list ResultRow) : list ResultRow * outcome (Z * Z) :=
  match testCases with
  | [] => (rows, Done (passedTests, failedTests))
  | testCase :: rest =>
      match unmarshal_TestSpec (TestSpecText testCase) with
      | inl err =>
          run_cases rest passedTests (failedTests + 1)
            (rows ++ [recordTestResult (ID testCase) "failed" err ""])
      | inr testSpec =>
          match TestRunner.ExecuteTest (client (BaseURL testCase)) testSpec with
          | Panic msg => (rows, Panic msg)
          | Done result =>
              if TestRunner.Status result =? "FAILED" then
                run_cases rest passedTests (failedTests + 1)
                  (rows ++ [recordTestResult (ID testCase) "failed"
                              (TestRunner.ErrorMessage result)
                              (TestRunner.ResponseData result)])
              else
                run_cases rest (passedTests + 1) failedTests
                  (rows ++ [recordTestResult (ID testCase) "passed"
                              (TestRunner.ErrorMessage result)
                              (TestRunner.ResponseData result)])
          end
      end
  end.

(** [executeTests]: an empty batch and a recovered panic both store a failed
    run with zero counts. *)
Definition executeTests (store : Store) (testCases : list TestCase) : Store :=
  match testCases with
  | [] => mkStore (Updates (Run store) "failed" 0 0) (Rows store)
  | _ :: _ =>
      match run_cases testCases 0 0 (Rows store) with
      | (rows, Panic _) => mkStore (Updates (Run store) "failed" 0 0) rows
      | (rows, Done (passedTests, failedTests)) =>
          let status := if (0 <? failedTests)%Z then "failed" else "completed" in
          mkStore (Updates (Run store) status passedTests failedTests) rows
      end
  end.

(** [StartTestRun] up to the launch of the batch: the run is created as
    running and its total is set to the number of test cases found.
    [testCases] is the result of the query; database errors are not
    modelled. *)
Definition StartTestRun (name : string) (testCases : list TestCase) : Store :=
  mkStore (mkTestRun name "running" (Z.of_nat (List.length testCases)) 0 0) [].

(** The run as stored once the batch launched by [StartTestRun] has
    finished within the time limit (the race with the five-minute limit is
    not modelled). *)
Definition completed_run (name : string) (testCases : list TestCase) : Store :=
  executeTests (StartTestRun name testCases) testCases.

(** The verdict on one test case: [Done true] passed, [Done false] failed. *)
Definition verdict (testCase : TestCase) : outcome bool :=
  match unmarshal_TestSpec (TestSpecText testCase) with
  | inl _ => Done false
  | inr testSpec =>
      match TestRunner.ExecuteTest (client (BaseURL testCase)) testSpec with
      | Panic msg => Panic msg
      | Done result => Done (negb (TestRunner.Status result =? "FAILED"))
      end
  end.

Definition passed (testCase : TestCase) : bool :=
  match verdict testCase with Done true => true | _ => false end.

Definition failed (testCase : TestCase) : bool :=
  match verdict testCase with Done false => true | _ => false end.

End Service.

End Services.

(** ** [internal/utils/curl_parser.go] *)

Module CurlParser.

Import GoStrings.

Definition map_string := list (string * string).

(** The map assignment [m[k] = v]. *)
Fixpoint set (m : map_string) (k v : string) : map_string :=
  match m with
  | [] => [(k, v)]
  | (k', v') :: m' => if k' =? k then (k, v) :: m' else (k', v') :: set m' k v
  end.

Record CurlRequest : Type := mkCurlRequest {
  Method : string;
  URL : string;
  Headers : map_string;
  Body : string;
  QueryParams : map_string;
  PathVariables : map_string;
  RequestType : string;
  RawCommand : string
}.

Definition with_Method (r : CurlRequest) (v : string) : CurlRequest :=
  mkCurlRequest v (URL r) (Headers r) (Body r) (QueryParams r)
                (PathVariables r) (RequestType r) (RawCommand r).

Definition with_URL (r : CurlRequest) (v : string) : CurlRequest :=
  mkCurlRequest (Method r) v (Headers r) (Body r) (QueryParams r)
                (PathVariables r) (RequestType r) (RawCommand r).

Definition with_Headers (r : CurlRequest) (v : map_string) : CurlRequest :=
  mkCurlRequest (Method r) (URL r) v (Body r) (QueryParams r)
                (PathVariables r) (RequestType r) (RawCommand r).

Definition with_Body (r : CurlRequest) (v : string) : CurlRequest :=
  mkCurlRequest (Method r) (URL r) (Headers r) v (QueryParams r)
                (PathVariables r) (RequestType r) (RawCommand r).

Definition with_QueryParams (r : CurlRequest) (v : map_string) : CurlRequest :=
  mkCurlRequest (Method r) (URL r) (Headers r) (Body r) v
                (PathVariables r) (RequestType r) (RawCommand r).

Definition with_PathVariables (r : CurlRequest) (v : map_string) : CurlRequest :=
  mkCurlRequest (Method r) (URL r) (Headers r) (Body r) (QueryParams r)
                v (RequestType r) (RawCommand r).

Definition with_RequestType (r : CurlRequest) (v : string) : CurlRequest :=
  mkCurlRequest (Method r) (URL r) (Headers r) (Body r) (QueryParams r)
                (PathVariables r) v (RawCommand r).

Definition backslash : ascii := ascii_of_nat 92.
Definition newline : ascii := ascii_of_nat 10.
Definition quote : ascii := ascii_of_nat 39.
Definition dquote : ascii := ascii_of_nat 34.

Definition str (c : ascii) : string := String c EmptyString.

(** The class [\s] of Go regular expressions: tab, line feed, form feed,
    carriage return and space. *)
Definition regexp_space (c : ascii) : bool :=
  let n := nat_of_ascii c in
  ((n =? 9) || (n =? 10) || (n =? 12) || (n =? 13) || (n =? 32))%nat.

Fixpoint has_byte (c : ascii) (s : string) : bool :=
  match s with
  | EmptyString => false
  | String c' s' => Ascii.eqb c' c || has_byte c s'
  end.

(** [FindAllString] for the token expression, a single-quoted span, else a
    double-quoted span, else a run of non-space bytes: the leftmost match
    with the first alternative that matches, then on from its end. *)
Inductive lexer : Type :=
| Outside
| InQuoted (q : ascii) (acc : string)
| InWord (acc : string).

Fixpoint tokens_from (s : string) (st : lexer) : list string :=
  match s with
  | EmptyString =>
      match st with
      | InWord acc => [acc]
      | _ => []
      end
  | String c s' =>
      match st with
      | Outside =>
          if regexp_space c then tokens_from s' Outside
          else if (Ascii.eqb c quote || Ascii.eqb c dquote) && has_byte c s'
          then tokens_from s' (InQuoted c (str c))
          else tokens_from s' (InWord (str c))
      | InQuoted q acc =>
          if Ascii.eqb c q then (acc ++ str c) :: tokens_from s' Outside
          else tokens_from s' (InQuoted q (acc ++ str c))
      | InWord acc =>
          if regexp_space c then acc :: tokens_from s' Outside
          else tokens_from s' (InWord (acc ++ str c))
      end
  end.

Definition FindAllTokens (command : string) : list string :=
  tokens_from command Outside.

(** [stripQuotes].  The slice [s[1 : len(s)-1]] is out of range when [s] is a
    single quote character. *)
Definition stripQuotes (s : string) : outcome string :=
  let s := TrimSpace s in
  if (HasPrefix s (str quote) && HasSuffix s (str quote)) ||
     (HasPrefix s (str dquote) && HasSuffix s (str dquote))
  then
    if (String.length s <? 2)%nat
    then Panic "runtime error: slice bounds out of range [1:0]"
    else Done (substring 1 (String.length s - 2) s)
  else Done s.

Definition error (A : Type) (msg : string) : outcome (string + A) :=
  Done (inl msg).
Arguments error {A} msg.

(** The token loop of [ParseCurlCommand]. *)
Fixpoint walk (tokens : list string) (result : CurlRequest)
  : outcome (string + CurlRequest) :=
  match tokens with
  | [] => Done (inr result)
  | t :: rest =>
      token <- stripQuotes t ;;
      if token =? "curl" then walk rest result
      else if (token =? "-X") || (token =? "--request") then
        match rest with
        | [] => error "missing method after -X/--request"
        | a :: rest' =>
            method <- stripQuotes a ;;
            walk rest' (with_Method result (ToUpper method))
        end
      else if (token =? "-H") || (token =? "--header") then
        match rest with
        | [] => error "missing header value after -H/--header"
        | a :: rest' =>
            header <- stripQuotes a ;;
            match SplitN2 header ":" with
            | [key; value] =>
                walk rest' (with_Headers result
                              (set (Headers result) (TrimSpace key)
                                   (TrimSpace value)))
            | _ => error ("invalid header format: " ++ header)
            end
        end
      else if (token =? "--location") || (token =? "-L") then walk rest result
      else if (token =? "--data") || (token =? "--data-raw") ||
              (token =? "--data-binary") || (token =? "-d") then
        let result := if Method result =? "GET" then with_Method result "POST"
                      else result in
        match rest with
        | [] => error "missing data after --data/-d"
        | a :: rest' =>
            data <- stripQuotes a ;;
            walk rest' (with_Body result data)
        end
      else if (token =? "--form") || (token =? "-F") then
        let result := if Method result =? "GET" then with_Method result "POST"
                      else result in
        match rest with
        | [] => error "missing form data after --form/-F"
        | a :: rest' =>
            formData <- stripQuotes a ;;
            match SplitN2 formData "=" with
            | [key; value] =>
                if Body result =? ""
                then walk rest' (with_Body result (key ++ "=" ++ value))
                else walk rest' (with_Body result
                                   (Body result ++ "&" ++ key ++ "=" ++ value))
            | _ => walk rest' result
            end
        end
      else if (token =? "--user") || (token =? "-u") then
        match rest with
        | [] => error "missing credentials after --user/-u"
        | a :: rest' =>
            credentials <- stripQuotes a ;;
            match SplitN2 credentials ":" with
            | [_; _] =>
                walk rest' (with_Headers result
                              (set (Headers result) "Authorization"
                                   ("Basic " ++ credentials)))
            | _ => walk rest' result
            end
        end
      else if (token =? "--cookie") || (token =? "-b") then
        match rest with
        | [] => error "missing cookie value after --cookie/-b"
        | a :: rest' =>
            cookie <- stripQuotes a ;;
            walk rest' (with_Headers result
                          (set (Headers result) "Cookie" cookie))
        end
      else if (token =? "--compressed") || (token =? "-C") then walk rest result
      else if (token =? "--insecure") || (token =? "-k") then walk rest result
      else if (token =? "--silent") || (token =? "-s") then walk rest result
      else if (token =? "--verbose") || (token =? "-v") then walk rest result
      else if HasPrefix token "http://" || HasPrefix token "https://" then
        walk rest (with_URL result token)
      else if HasPrefix token "localhost:" || HasPrefix token "127.0.0.1:" then
        walk rest (with_URL result ("http://" ++ token))
      else walk rest result
  end.

(** [FindAllStringSubmatch] for the placeholder expression, a brace, one or
    more bytes other than a closing brace, a closing brace: the names
    between the braces. *)
Definition lbrace : ascii := ascii_of_nat 123.
Definition rbrace : ascii := ascii_of_nat 125.

Fixpoint names_from (s : string) (name : option string) : list string :=
  match s with
  | EmptyString => []
  | String c s' =>
      match name with
      | None =>
          if Ascii.eqb c lbrace && has_byte rbrace s' &&
             negb (HasPrefix s' (str rbrace))
          then names_from s' (Some EmptyString)
          else names_from s' None
      | Some acc =>
          if Ascii.eqb c rbrace then acc :: names_from s' None
          else names_from s' (Some (acc ++ str c))
      end
  end.

(** [classifyRequest]. *)
Definition classifyRequest (req : CurlRequest) : string :=
  let urlLower := ToLower (URL req) in
  let method := ToUpper (Method req) in
  if Contains urlLower "/$export" then "FHIR Bulk Export"
  else if Contains urlLower "/fhir/" && (method =? "GET") then "FHIR Read"
  else if Contains urlLower "/fhir/" && (method =? "POST") then "FHIR Create/Action"
  else if Contains urlLower "/fhir/" && (method =? "PUT") then "FHIR Update"
  else if Contains urlLower "/fhir/" && (method =? "DELETE") then "FHIR Delete"
  else if method =? "GET" then "Fetch"
  else if method =? "POST" then "Submit"
  else if method =? "PUT" then "Update"
  else if method =? "DELETE" then "Delete"
  else if method =? "PATCH" then "Patch"
  else "Other".

(** Step 1 of [ParseCurlCommand]: line continuations are joined, the
    remaining backslashes removed, and white space collapsed. *)
Definition normalize (curlCmd : string) : string :=
  let command := ReplaceAll curlCmd (String backslash (str newline)) " " in
  let command := ReplaceAll command (str backslash) "" in
  Join (Fields command) " ".

(** The default URL detection of the token loop. *)
Definition url_like (token : string) : bool :=
  HasPrefix token "http://" || HasPrefix token "https://" ||
  HasPrefix token "localhost:" || HasPrefix token "127.0.0.1:".

Section Parser.

Context `{GoRuntime}.

(** Steps 4 to 6 of [ParseCurlCommand]: query parameters, path variables,
    request type. *)
Definition finish (result : CurlRequest) : outcome (string + CurlRequest) :=
  let withQuery :=
    if Contains (URL result) "?" then
      match url_Parse (URL result) with
      | inl err => inl ("invalid URL: " ++ err)
      | inr parsedURL =>
          inr (with_QueryParams
                 (with_URL result
                    (Scheme parsedURL ++ "://" ++ Host parsedURL ++
                     UPath parsedURL))
                 (fold_left
                    (fun m kv => set m (fst kv) (hd "" (snd kv)))
                    (url_Query parsedURL) (QueryParams result)))
      end
    else inr result in
  match withQuery with
  | inl err => error err
  | inr result =>
      let result :=
        with_PathVariables result
          (fold_left (fun m name => set m name "")
                     (names_from (URL result) None) (PathVariables result)) in
      Done (inr (with_RequestType result (classifyRequest result)))
  end.

(** [ParseCurlCommand]: the request, or the text of the error. *)
Definition ParseCurlCommand (curlCmd : string) : outcome (string + CurlRequest) :=
  if curlCmd =? "" then error "curl command cannot be empty"
  else
    let command := normalize curlCmd in
    let result := mkCurlRequest "GET" "" [] "" [] [] "" curlCmd in
    let tokens := FindAllTokens command in
    match tokens with
    | [] => error "invalid curl command"
    | _ :: _ =>
        walked <- walk tokens result ;;
        match walked with
        | inl err => error err
        | inr result =>
            if URL result =? "" then error "no URL found in curl command"
            else finish result
        end
    end.

(** [ToTestSpec].  The query parameters are joined in the order of the
    list, where Go ranges over the map in an unspecified order. *)
Definition ToTestSpec (c : CurlRequest) (name description : string) : object :=
  let fullURL :=
    match QueryParams c with
    | [] => URL c
    | _ :: _ =>
        URL c ++ "?" ++
        Join (map (fun kv => if snd kv =? "" then fst kv
                             else fst kv ++ "=" ++ snd kv)
                  (QueryParams c)) "&"
    end in
  let body :=
    if Body c =? "" then JNull
    else match json_Unmarshal (Body c) with
         | Some v => v
         | None => JString (Body c)
         end in
  [("name", JString name);
   ("description", JString description);
   ("service_name", JString "curl-service");
   ("request",
    JObject [("method", JString (Method c));
             ("url", JString fullURL);
             ("headers",
              JObject (map (fun kv => (fst kv, JString (snd kv))) (Headers c)));
             ("body", body)]);
   ("assertions",
    JArray [JObject [("type", JString "status_code");
                     ("expected", JNumber 200%float)]])].

End Parser.

End CurlParser.

(** ** The test service: [CleanTestSpec] *)

Module TestService.

(** The header-path assertions [CleanTestSpec] drops: maps whose ["path"] is
    the string [headers.Content-Type] or [headers]. *)
Definition header_assertion (assertion : json) : bool :=
  match assertion with
  | JObject assertionMap =>
      match as_string (lookup "path" assertionMap) with
      | Some path => (path =? "headers.Content-Type") || (path =? "headers")
      | None => false
      end
  | _ => false
  end.

(** The slice [cleanedAssertions] after the loop. *)
Definition cleanedAssertions (assertions : list json) : list json :=
  filter (fun assertion => negb (header_assertion assertion)) assertions.

(** The map assignment [m[k] = v] on a decoded object. *)
Fixpoint assign (m : object) (k : string) (v : json) : object :=
  match m with
  | [] => [(k, v)]
  | (k', v') :: m' =>
      if k' =? k then (k, v) :: m' else (k', v') :: assign m' k v
  end.

(** The specification map after [testSpec["assertions"] = cleanedAssertions]:
    [cleanedAssertions] is a nil slice when nothing was appended to it, and
    a nil slice is encoded as [null]. *)
Definition cleaned (testSpec : object) : object :=
  match lookup "assertions" testSpec with
  | Some (JArray assertions) =>
      assign testSpec "assertions"
        (match cleanedAssertions assertions with
         | [] => JNull
         | kept => JArray kept
         end)
  | _ => testSpec
  end.

(** [CleanTestSpec]: the text returned, and whether an error is returned
    with it.  Decoding into a map fails on a text that is not JSON and on a
    JSON value that is neither an object nor [null]; [null] gives a nil map. *)
Definition CleanTestSpec `{GoRuntime} (testSpecJSON : string) : string * bool :=
  match json_Unmarshal testSpecJSON with
  | None => (testSpecJSON, true)
  | Some (JObject testSpec) =>
      match lookup "assertions" testSpec with
      | Some (JArray _) => (json_Marshal (JObject (cleaned testSpec)), false)
      | _ => (testSpecJSON, false)
      end
  | Some JNull => (testSpecJSON, false)
  | Some _ => (testSpecJSON, true)
  end.

End TestService.

(** ** [scripts/generate_assertions.go] *)

Module Generator.

(** [Assertion].  [Value] is an [interface{}], [JNull] for [nil]. *)
Record Assertion : Type := mkAssertion {
  Type_ : string;
  Path : string;
  Value : json
}.

Record AssertionGenerator : Type := mkAssertionGenerator {
  MaxDepth : Z;
  MaxArraySize : Z;
  IncludeNulls : bool
}.

(** [NewAssertionGenerator]. *)
Definition NewAssertionGenerator : AssertionGenerator :=
  mkAssertionGenerator 5 3 false.

Definition exists_at (path : string) : Assertion :=
  mkAssertion "exists" path JNull.

Definition equals_at (path : string) (value : json) : Assertion :=
  mkAssertion "equals" path value.

(** The elements of a slice with their indices, from index [i]. *)
Fixpoint indexed (i : Z) (l : list json) : list (Z * json) :=
  match l with
  | [] => []
  | x :: l' => (i, x) :: indexed (i + 1) l'
  end.

(** One call of [GenerateAssertions]; [nested] stands for the recursive
    call, which is made only while [MaxDepth] is positive. *)
Definition level (nested : json -> string -> list Assertion)
    (maxArraySize : Z) (includeNulls : bool) (data : json) (path : string)
  : list Assertion :=
  match data with
  | JObject v =>
      (if path =? "" then [] else [exists_at path]) ++
      flat_map (fun kv =>
                  let currentPath := if path =? "" then fst kv
                                     else path ++ "." ++ fst kv in
                  exists_at currentPath :: nested (snd kv) currentPath) v
  | JArray v =>
      (if path =? "" then [] else [exists_at path]) ++
      flat_map (fun iv =>
                  let currentPath := path ++ "[" ++ GoStrings.fmt_d (fst iv) ++ "]" in
                  exists_at currentPath :: nested (snd iv) currentPath)
               (firstn (Z.to_nat maxArraySize) (indexed 0 v))
  | JString _ | JNumber _ | JBool _ =>
      if path =? "" then [] else [equals_at path data]
  | JNull =>
      if includeNulls && negb (path =? "") then [equals_at path JNull] else []
  end.

(** [GenerateAssertions] with [MaxDepth] equal to [depth]: the field is
    decremented around each recursive call and restored after it, so the
    calls at nesting [k] run with [MaxDepth - k]. *)
Fixpoint generate (depth : nat) (maxArraySize : Z) (includeNulls : bool)
    (data : json) (path : string) : list Assertion :=
  level (fun value currentPath =>
           match depth with
           | S d => generate d maxArraySize includeNulls value currentPath
           | O => []
           end)
        maxArraySize includeNulls data path.

Definition GenerateAssertions (ag : AssertionGenerator) (data : json)
    (path : string) : list Assertion :=
  generate (Z.to_nat (MaxDepth ag)) (MaxArraySize ag) (IncludeNulls ag)
           data path.

(** The map an [Assertion] is encoded as, by its field tags: [value] is
    [omitempty]. *)
Definition Assertion_json (a : Assertion) : object :=
  ([("type", JString (Type_ a)); ("path", JString (Path a))] ++
   match Value a with
   | JNull => []
   | v => [("value", v)]
   end)%list.

(** [GenerateCommonAssertions]. *)
Definition GenerateCommonAssertions : list Assertion :=
  [exists_at "data"; exists_at "message"; exists_at "status"].

(** The loop of [main] that removes duplicates while preserving order;
    [seen] holds the keys of the map. *)
Fixpoint unique_from (formatted : list string) (seen : list string)
  : list string :=
  match formatted with
  | [] => []
  | assertion :: rest =>
      if existsb (String.eqb assertion) seen then unique_from rest seen
      else assertion :: unique_from rest (assertion :: seen)
  end.

Definition uniqueAssertions (formattedAssertions : list string) : list string :=
  unique_from formattedAssertions [].

End Generator.
(** * The vocabulary of the properties

    Sample assertions, responses and specifications, and the notions the
    statements below are written with. *)

Import TestRunner.

(** Assertion maps as the evaluator receives them. *)
Definition status_code_assertion (value : float) : object :=
  [("type", JString "status_code"); ("value", JNumber value)].

Definition equals_assertion (path : string) (value : json) : object :=
  [("type", JString "equals"); ("path", JString path); ("value", value)].

(** A response with status 200 and the body [{"name": name}]. *)
Definition body_name (name : json) : Response :=
  mkResponse 200 [] (JObject [("name", name)]).

(** The assertion map the executor obtains from a typed assertion. *)
Definition serialized (a : Models.AssertionSpec) : object :=
  match Models.AssertionSpec_json a with
  | JObject m => m
  | _ => []
  end.

(** The path the [exists] and [equals] cases resolve against the envelope:
    both cases hold the same lines. *)
Definition normalizePath (path : string) : string :=
  if array_rooted path then fullPath path else path.

(** A path written as index segments and the text between them. *)
Inductive segment : Type :=
| Index (i : string)
| Text (s : string).

Definition bracket_free (s : string) : bool :=
  negb (CurlParser.has_byte "[" s) && negb (CurlParser.has_byte "]" s).

Definition segment_ok (g : segment) : bool :=
  match g with
  | Index i => bracket_free i
  | Text s => bracket_free s
  end.

Fixpoint bracketed (l : list segment) : string :=
  match l with
  | [] => ""
  | Index i :: l' => "[" ++ i ++ "]" ++ bracketed l'
  | Text s :: l' => s ++ bracketed l'
  end.

Fixpoint dotted (l : list segment) : string :=
  match l with
  | [] => ""
  | Index i :: l' => "." ++ i ++ dotted l'
  | Text s :: l' => s ++ dotted l'
  end.

Definition exists_assertion (path : string) : object :=
  [("type", JString "exists"); ("path", JString path)].

(** A response with status 200 and the body [[{"name": name}]]. *)
Definition first_name (name : json) : Response :=
  mkResponse 200 [] (JArray [JObject [("name", name)]]).

Definition contains_assertion (path expected : string) : object :=
  [("type", JString "json_path"); ("path", JString path);
   ("matcher", JString "contains"); ("expected", JString expected)].

(** The request [ExecuteTest] builds from a typed specification. *)
Definition request_of (testSpec : Models.TestSpec) : Request :=
  let r := Models.Request testSpec in
  mkRequest (Models.Method r) (Models.URL r)
            (match Models.Headers r with Some h => h | None => [] end)
            (match Models.Body r with JNull => None | b => Some b end).

(** The last failing result of a list, in declaration order. *)
Definition last_failing (l : list AssertionResult) : option AssertionResult :=
  find (fun ar => negb (Passed ar)) (rev l).

(** The results of the assertions that are evaluated, in declaration
    order: header-path assertions are skipped. *)
Fixpoint evaluate_all `{GoRuntime} (resp : Response) (l : list object)
  : outcome (list AssertionResult) :=
  match l with
  | [] => Done []
  | assertion :: rest =>
      if skipped assertion then evaluate_all resp rest
      else
        ar <- executeAssertion resp assertion ;;
        rs <- evaluate_all resp rest ;;
        Done (ar :: rs)
  end.

(** A client that answers every request with status 200 and the body
    [{}], and the specification of the executor's own test with a given
    assertion list. *)
Definition empty_body_client : Request -> Response :=
  fun _ => mkResponse 200 [] (JObject []).

Definition get_spec (assertions : option (list Models.AssertionSpec))
  : Models.TestSpec :=
  Models.mkTestSpec "Test Get User" "" "user-service"
    (Models.mkRequestSpec "GET" "/users/1"
       (Some [("Content-Type", "application/json")]) JNull)
    assertions.

Definition three_exists : list Models.AssertionSpec :=
  [Models.mkAssertionSpec "exists" "body.a" "" JNull;
   Models.mkAssertionSpec "exists" "headers" "" JNull;
   Models.mkAssertionSpec "exists" "body.b" "" JNull].

(** The number of test cases that satisfy [f]. *)
Definition count (f : Models.TestCase -> bool) (l : list Models.TestCase) : Z :=
  Z.of_nat (List.length (filter f l)).

(** Three stored test cases, the second with a text that does not
    decode. *)
Definition three_cases : list Models.TestCase :=
  [Models.mkTestCase "1" "s" "first" "ok" "http://svc";
   Models.mkTestCase "2" "s" "second" "{" "http://svc";
   Models.mkTestCase "3" "s" "third" "ok" "http://svc"].

Definition decode_ok (text : string) : string + Models.TestSpec :=
  if text =? "ok" then inr (get_spec (Some []))
  else inl "unexpected end of JSON input".

(** The data and form flags and the method flags of the token loop. *)
Definition data_flag (token : string) : bool :=
  (token =? "--data") || (token =? "--data-raw") ||
  (token =? "--data-binary") || (token =? "-d") ||
  (token =? "--form") || (token =? "-F").

Definition method_flag (token : string) : bool :=
  (token =? "-X") || (token =? "--request").

(** No token of the list reads as a method flag. *)
Definition no_method_flag (tokens : list string) : Prop :=
  forall t s,
    In t tokens -> CurlParser.stripQuotes t = Done s -> method_flag s = false.

(** The token loop, if it ends with a request, ends with the method [m], or
    with POST when [m] is GET. *)
Definition method_kept (o : outcome (string + CurlParser.CurlRequest))
    (m : string) : Prop :=
  match o with
  | Done (inr r) =>
      CurlParser.Method r = m \/ (m = "GET" /\ CurlParser.Method r = "POST")
  | _ => True
  end.

(** The errors the token loop returns. *)
Definition flag_error (e : string) : Prop :=
  In e ["missing method after -X/--request";
        "missing header value after -H/--header";
        "missing data after --data/-d";
        "missing form data after --form/-F";
        "missing credentials after --user/-u";
        "missing cookie value after --cookie/-b"]
  \/ exists header, e = "invalid header format: " ++ header.

(** The token loop ended without a panic, on a flag error or with the URL
    [url]. *)
Definition walk_ends (o : outcome (string + CurlParser.CurlRequest))
    (url : string) : Prop :=
  match o with
  | Done (inl e) => flag_error e
  | Done (inr r) => CurlParser.URL r = url
  | Panic _ => False
  end.

(** A token that is a single quote character once trimmed. *)
Definition lone_quote (t : string) : bool :=
  (GoStrings.TrimSpace t =? CurlParser.str CurlParser.quote) ||
  (GoStrings.TrimSpace t =? CurlParser.str CurlParser.dquote).

(** No token is a lone quote character. *)
Definition strippable (tokens : list string) : Prop :=
  forall t, In t tokens -> lone_quote t = false.

(** No token is an absolute http(s) URL or a bare localhost/127.0.0.1
    form. *)
Definition no_url_token (tokens : list string) : Prop :=
  forall t s,
    In t tokens -> CurlParser.stripQuotes t = Done s ->
    CurlParser.url_like s = false.

Ltac flag_error_now :=
  cbn [walk_ends CurlParser.error]; left; cbn [In]; tauto.

Ltac continue_with H :=
  match goal with
  | |- walk_ends (CurlParser.walk _ ?r) _ => exact (H r)
  end.

Ltac next_condition :=
  match goal with
  | |- walk_ends (if ?b then _ else _) _ => destruct b eqn:?
  | |- method_kept (if ?b then _ else _) _ => destruct b eqn:?
  end.

Definition headers_only : string := "curl -X POST -H 'Accept: text/plain'".


(** The assertion types [executeAssertion] knows. *)
Definition known_types : list string :=
  ["status_code"; "exists"; "equals"; "json_path"; "response_time"].

(** The document the [exists] and [equals] cases resolve paths in, and the
    one [json_path] resolves paths in: the body, or the empty text when the
    body is [null]. *)
Definition envelope (resp : Response) : option json :=
  Some (responseData resp).


(** Values that are not arrays or objects. *)
Definition scalar (v : json) : bool :=
  match v with
  | JArray _ | JObject _ => false
  | _ => true
  end.

(** A typed assertion whose path is one of the two header paths. *)
Definition header_path (a : Models.AssertionSpec) : bool :=
  (Models.Path a =? "headers.Content-Type") || (Models.Path a =? "headers").

(** A specification with another assertion list. *)
Definition with_assertions (testSpec : Models.TestSpec)
    (assertions : list Models.AssertionSpec) : Models.TestSpec :=
  Models.mkTestSpec (Models.Name testSpec) (Models.Description testSpec)
    (Models.ServiceName testSpec) (Models.Request testSpec) (Some assertions).

(** Typed assertions that cannot make the executor panic: every type but
    [json_path], and [json_path] without a path or with the matcher
    [exists] or [contains]. *)
Definition panic_free (a : Models.AssertionSpec) : bool :=
  negb (Models.Type_ a =? "json_path") || (Models.Path a =? "") ||
  (Models.Matcher a =? "exists") || (Models.Matcher a =? "contains").

(** Typed assertions that compare nothing. *)
Definition never_compared (a : Models.AssertionSpec) : bool :=
  (Models.Type_ a =? "status_code") || (Models.Type_ a =? "equals") ||
  (Models.Type_ a =? "response_time").

(** The number of stored rows with a given status. *)
Definition rows_with (status : string) (rows : list Services.ResultRow) : Z :=
  Z.of_nat (List.length
              (filter (fun row => Services.RowStatus row =? status) rows)).

(** The lookup [m[k]] in a string map. *)
Fixpoint get (m : CurlParser.map_string) (k : string) : option string :=
  match m with
  | [] => None
  | (k', v) :: m' => if k' =? k then Some v else get m' k
  end.

Definition keys (m : CurlParser.map_string) : list string := map fst m.

(** A URL that starts with [http://] or [https://]. *)
Definition absolute (url : string) : bool :=
  GoStrings.HasPrefix url "http://" || GoStrings.HasPrefix url "https://".

(** The labels of [classifyRequest]. *)
Definition request_types : list string :=
  ["FHIR Bulk Export"; "FHIR Read"; "FHIR Create/Action"; "FHIR Update";
   "FHIR Delete"; "Fetch"; "Submit"; "Update"; "Delete"; "Patch"; "Other"].

(** What holds of the request the token loop ends with, if it ends with
    one. *)
Definition walk_result (P : CurlParser.CurlRequest -> Prop)
    (o : outcome (string + CurlParser.CurlRequest)) : Prop :=
  match o with
  | Done (inr r) => P r
  | _ => True
  end.

Definition returns {A : Type} (o : outcome A) : Prop :=
  match o with
  | Done _ => True
  | Panic _ => False
  end.

Ltac next_case :=
  match goal with
  | |- walk_result _ (if ?b then _ else _) => destruct b eqn:?
  | |- returns (if ?b then _ else _) => destruct b eqn:?
  end.

(** Words: non-empty runs of bytes without white space of the token
    expression that do not begin with a quote character. *)
Definition space_free (w : string) : bool :=
  negb (CurlParser.has_byte (ascii_of_nat 9) w) &&
  negb (CurlParser.has_byte (ascii_of_nat 10) w) &&
  negb (CurlParser.has_byte (ascii_of_nat 12) w) &&
  negb (CurlParser.has_byte (ascii_of_nat 13) w) &&
  negb (CurlParser.has_byte (ascii_of_nat 32) w).

Definition word (w : string) : bool :=
  match w with
  | EmptyString => false
  | String c _ =>
      negb (Ascii.eqb c CurlParser.quote) &&
      negb (Ascii.eqb c CurlParser.dquote) && space_free w
  end.

(** Decoded documents the path model covers: no number is a NaN, and the
    keys of every object are distinct, non-empty and plain. *)
Fixpoint distinct (keys : list string) : bool :=
  match keys with
  | [] => true
  | k :: rest => negb (existsb (String.eqb k) rest) && distinct rest
  end.

Fixpoint well_formed (v : json) : bool :=
  match v with
  | JNumber f => PrimFloat.eqb f f
  | JArray l => forallb well_formed l
  | JObject m =>
      distinct (map fst m) &&
      forallb (fun kv => negb (fst kv =? "") && GJSON.plain_part (fst kv) &&
                         well_formed (snd kv)) m
  | _ => true
  end.

(** An assertion object that carries a generated assertion: its type, its
    path and its value; a [nil] value may be left out. *)
Definition written (a : Generator.Assertion) (m : object) : Prop :=
  lookup "type" m = Some (JString (Generator.Type_ a)) /\
  lookup "path" m = Some (JString (Generator.Path a)) /\
  (lookup "value" m = Some (Generator.Value a) \/
   Generator.Value a = JNull /\ lookup "value" m = None).

(** The keys of the map the [exists] and [equals] cases resolve paths in. *)
Definition envelope_key (k : string) : bool :=
  (k =? "body") || (k =? "headers") || (k =? "status_code").

(** What a generated assertion states about a response: its path, taken as
    an array path, names a value, which for [equals] is the expected one. *)
Definition holds_in (resp : Response) (a : Generator.Assertion) : Prop :=
  array_rooted (Generator.Path a) = true /\
  exists v,
    GJSON.resolve (envelope resp) (fullPath (Generator.Path a)) = Some v /\
    (Generator.Type_ a = "exists" /\ Generator.Value a = JNull \/
     Generator.Type_ a = "equals" /\ Generator.Value a = v /\
     scalar v = true /\ well_formed v = true).

(** A response with a list body, and the default generator's assertions
    for it. *)
Definition list_response : Response :=
  mkResponse 200 []
    (JArray [JObject [("id", JNumber 1%float);
                      ("tags", JArray [JString "a"; JNull])];
             JString "x"]).

(** A client that answers every request with status 404. *)
Definition not_found_client : Request -> Response :=
  fun _ => mkResponse 404 [] JNull.

(** A command with a repeated header and a path variable. *)
Definition sample_command : string :=
  "curl -H 'Accept: a' -H 'Accept: b' http://localhost:8080/fhir/Patient/{id}".

(** A decoded specification whose only assertion is a header-path one. *)
Definition header_only_spec : object :=
  [("name", JString "t");
   ("assertions",
    JArray [JObject [("type", JString "exists");
                     ("path", JString "headers.Content-Type")]])].
(** * Properties of the library models *)

Example ReplaceAll_continuation :
  GoStrings.ReplaceAll "a[0][1]" "[" "." = "a.0].1]".
Proof. reflexivity. Qed.

Example Fields_spaces :
  GoStrings.Fields "  curl   -X  GET " = ["curl"; "-X"; "GET"].
Proof. reflexivity. Qed.

Example TrimSpace_both : GoStrings.TrimSpace "  a b  " = "a b".
Proof. reflexivity. Qed.

Example gjson_nested :
  GJSON.resolve
    (Some (JObject [("body", JArray [JObject [("id", JNumber 7%float)]])]))
    "body.0.id" = Some (JNumber 7%float).
Proof. reflexivity. Qed.

Example gjson_explicit_null_exists :
  GJSON.Exists (GJSON.Get (Some (JObject [("a", JNull)])) "a") = true
  /\ GJSON.Exists (GJSON.Get (Some (JObject [("a", JNull)])) "b") = false.
Proof. split; reflexivity. Qed.

(** * Properties of the assertion evaluator *)

Example go_int_whole : on_every_runtime (fun R => go_int 200%float = 200%Z).
Proof. intro R. reflexivity. Qed.

Example go_int_fraction : on_every_runtime (fun R => go_int 200.5%float = 200%Z).
Proof. intro R. reflexivity. Qed.

Example fmt_d_status : GoStrings.fmt_d 404 = "404".
Proof. reflexivity. Qed.

Example status_code_201_for_200 :
  on_every_runtime (fun R =>
    executeAssertion (mkResponse 201 [] JNull) (status_code_assertion 200%float)
    = Done (mkAssertionResult "status_code" "" "" (AInt 200) (AInt 201) true "")).
Proof. intro R. reflexivity. Qed.

Example status_code_404_for_200 :
  on_every_runtime (fun R =>
    executeAssertion (mkResponse 404 [] JNull) (status_code_assertion 200%float)
    = Done (mkAssertionResult "status_code" "" "" (AInt 200) (AInt 404) false
              "Expected status code 200, got 404")).
Proof. intro R. reflexivity. Qed.

(** The integer part of a status code held in a [float64] is the code. *)
Lemma truncate_status_code :
  forall n : Z, (0 <= n < 1000)%Z -> truncate (float64_of_int n) = Some n.
Proof.
  intros n Hn.
  assert (Hall : forallb
                   (fun k => match truncate (float64_of_int (Z.of_nat k)) with
                             | Some z => (z =? Z.of_nat k)%Z
                             | None => false
                             end) (seq 0 1000) = true)
    by (vm_compute; reflexivity).
  rewrite forallb_forall in Hall.
  assert (Hin : In (Z.to_nat n) (seq 0 1000)) by (apply in_seq; lia).
  specialize (Hall _ Hin). rewrite Z2Nat.id in Hall by lia.
  destruct (truncate (float64_of_int n)) as [z|]; [|discriminate].
  apply Z.eqb_eq in Hall. now subst.
Qed.

Section EvaluatorProperties.

Context {R : GoRuntime}.

(** C1.  A [status_code] assertion whose ["value"] is a number [e] is
    evaluated with the expected code [int(e)], the integer part of [e]: [e]
    itself when [e] is a whole status code, [e] without its fraction
    otherwise.  It passes exactly when the actual status equals the expected
    code, or the expected code is 200 and the actual status is 201; every
    other mismatch fails with the message
    "Expected status code <expected>, got <actual>". *)
Theorem status_code_tolerance :
  forall (resp : Response) (assertion : object) (e : float),
    lookup "type" assertion = Some (JString "status_code") ->
    lookup "value" assertion = Some (JNumber e) ->
    exists r,
      executeAssertion resp assertion = Done r
      /\ Expected r = AInt (go_int e)
      /\ Actual r = AInt (StatusCode resp)
      /\ (Passed r = true <->
          (StatusCode resp = go_int e
           \/ (go_int e = 200 /\ StatusCode resp = 201))%Z)
      /\ (Passed r = false ->
          Message r = "Expected status code " ++ GoStrings.fmt_d (go_int e) ++
                      ", got " ++ GoStrings.fmt_d (StatusCode resp))
      /\ (forall n : Z,
            truncate e = Some n -> (- 2 ^ 63 <= n < 2 ^ 63)%Z ->
            go_int e = n)
      /\ (forall n : Z,
            (0 <= n < 1000)%Z -> e = float64_of_int n -> go_int e = n).
Proof.
  intros resp assertion e Hty Hval.
  assert (Hint : forall n : Z,
            truncate e = Some n -> (- 2 ^ 63 <= n < 2 ^ 63)%Z ->
            go_int e = n).
  { intros n Htr [Hlo Hhi]. unfold go_int. rewrite Htr.
    apply Z.leb_le in Hlo. apply Z.ltb_lt in Hhi. now rewrite Hlo, Hhi. }
  unfold executeAssertion. rewrite Hty, Hval. cbn [as_string as_float64].
  change ("status_code" =? "status_code") with true. cbv iota.
  eexists. split; [reflexivity|]. cbn [Expected Actual Passed Message].
  split; [reflexivity|]. split; [reflexivity|].
  split; [|split; [|split]].
  - split.
    + intro Hp. apply orb_true_iff in Hp. destruct Hp as [Hp|Hp].
      * left. now apply Z.eqb_eq.
      * right. apply andb_true_iff in Hp. destruct Hp as [H1 H2].
        split; now apply Z.eqb_eq.
    + intros [Heq|[H1 H2]]; apply orb_true_iff.
      * left. now apply Z.eqb_eq.
      * right. apply andb_true_iff. split; now apply Z.eqb_eq.
  - intro Hp. now rewrite Hp.
  - exact Hint.
  - intros n Hn ->. apply Hint; [now apply truncate_status_code|].
    change (2 ^ 63)%Z with 9223372036854775808%Z. lia.
Qed.

End EvaluatorProperties.

(** Witness of C1: expected 200 with actual 201, and expected 404 with
    actual 200. *)
Lemma status_code_tolerance_witness :
  on_every_runtime (fun R =>
    (exists r,
       executeAssertion (mkResponse 201 [] JNull)
         (status_code_assertion 200%float) = Done r
       /\ Expected r = AInt 200 /\ Actual r = AInt 201
       /\ Passed r = true)
    /\ (exists r,
          executeAssertion (mkResponse 200 [] JNull)
            (status_code_assertion 404%float) = Done r
          /\ Expected r = AInt 404 /\ Actual r = AInt 200
          /\ Passed r = false
          /\ Message r = "Expected status code 404, got 200")).
Proof.
  intro R. split.
  - destruct (@status_code_tolerance R (mkResponse 201 [] JNull)
                (status_code_assertion 200%float) 200%float
                eq_refl eq_refl)
      as [r [Hr [He [Ha [Hp [_ [_ Hwhole]]]]]]].
    assert (Hcode : go_int 200%float = 200%Z)
      by (apply Hwhole; [lia|reflexivity]).
    rewrite Hcode in He, Hp.
    exists r. split; [exact Hr|]. split; [exact He|]. split; [exact Ha|].
    apply Hp. right. split; reflexivity.
  - destruct (@status_code_tolerance R (mkResponse 200 [] JNull)
                (status_code_assertion 404%float) 404%float
                eq_refl eq_refl)
      as [r [Hr [He [Ha [Hp [Hm [_ Hwhole]]]]]]].
    assert (Hcode : go_int 404%float = 404%Z)
      by (apply Hwhole; [lia|reflexivity]).
    rewrite Hcode in He, Hp, Hm.
    assert (Hfail : Passed r = false).
    { destruct (Passed r); [|reflexivity].
      destruct (proj1 Hp eq_refl) as [H|[H _]]; discriminate H. }
    exists r. split; [exact Hr|]. split; [exact He|]. split; [exact Ha|].
    split; [exact Hfail|]. exact (Hm Hfail).
Defined.

(** C1, counterexample to the claim as stated: with the expected value
    200.5 the assertion passes on the actual status 200, and on 201, though
    the actual status does not equal the expected value and the expected
    value is not 200. *)
Lemma fractional_status_counterexample :
  on_every_runtime (fun R =>
    (exists r,
       executeAssertion (mkResponse 200 [] JNull)
         (status_code_assertion 200.5%float) = Done r
       /\ Passed r = true)
    /\ (exists r,
          executeAssertion (mkResponse 201 [] JNull)
            (status_code_assertion 200.5%float) = Done r
          /\ Passed r = true)
    /\ PrimFloat.eqb (float64_of_int 200) 200.5%float = false
    /\ PrimFloat.eqb (float64_of_int 201) 200.5%float = false
    /\ PrimFloat.eqb 200.5%float 200%float = false).
Proof.
  intro R. split; [|split; [|split; [|split]]].
  - eexists. split; reflexivity.
  - eexists. split; reflexivity.
  - reflexivity.
  - reflexivity.
  - reflexivity.
Qed.

(** ** The field that holds the expected value *)

Example equals_string_value_compared :
  on_every_runtime (fun R =>
    executeAssertion (body_name (JString "b"))
                     (equals_assertion "body.name" (JString "b"))
    = Done (mkAssertionResult "equals" "body.name" "equals"
              (AJSON (JString "b")) (AJSON (JString "b")) true "")).
Proof. intro R. reflexivity. Qed.

(** The typed assertion never has a ["value"] key. *)
Lemma AssertionSpec_no_value :
  forall a : Models.AssertionSpec,
    match Models.AssertionSpec_json a with
    | JObject m => lookup "value" m = None /\
                   lookup "type" m = Some (JString (Models.Type_ a))
    | _ => False
    end.
Proof.
  intro a. unfold Models.AssertionSpec_json, Models.omitempty. cbn.
  destruct (Models.Path a =? ""); destruct (Models.Matcher a =? ""); cbn;
    split; reflexivity.
Qed.

Lemma AssertionSpec_json_serialized :
  forall a, Models.AssertionSpec_json a = JObject (serialized a).
Proof. intro a. reflexivity. Qed.

Section ExpectedValueField.

Context {R : GoRuntime}.

Lemma status_code_without_value :
  forall resp assertion,
    lookup "type" assertion = Some (JString "status_code") ->
    as_float64 (lookup "value" assertion) = None ->
    executeAssertion resp assertion
    = Done (mkAssertionResult "status_code" "" "" go_nil go_nil true "").
Proof.
  intros resp assertion Hty Hval. unfold executeAssertion.
  rewrite Hty. cbn [as_string]. change ("status_code" =? "status_code") with true.
  cbv iota. now rewrite Hval.
Qed.

Lemma equals_without_value :
  forall resp assertion,
    lookup "type" assertion = Some (JString "equals") ->
    lookup "value" assertion = None ->
    exists r,
      executeAssertion resp assertion = Done r
      /\ Passed r = true /\ Expected r = go_nil /\ Actual r = go_nil
      /\ Message r = "".
Proof.
  intros resp assertion Hty Hval. unfold executeAssertion.
  rewrite Hty. cbn [as_string].
  change ("equals" =? "status_code") with false.
  change ("equals" =? "exists") with false.
  change ("equals" =? "equals") with true. cbv iota.
  destruct (lookup "path" assertion) as [[| | |path| |]|]; cbn [as_string];
    try (eexists; split; [reflexivity|]; cbn; repeat split; reflexivity).
  rewrite Hval.
  destruct (array_rooted path);
    (eexists; split; [reflexivity|]; cbn; repeat split; reflexivity).
Qed.

(** C2 (as amended).  The evaluator reads the expected value of
    [status_code] and [equals] assertions from the key ["value"].  A
    [status_code] assertion without a numeric ["value"] and an [equals]
    assertion without any ["value"] pass with nothing compared (no expected
    or actual value, no message); so does every [status_code] or [equals]
    assertion serialized from the typed [AssertionSpec], and the default
    assertion [ToTestSpec] generates. *)
Theorem value_key_decides_comparison :
  (forall resp assertion,
      lookup "type" assertion = Some (JString "status_code") ->
      as_float64 (lookup "value" assertion) = None ->
      exists r, executeAssertion resp assertion = Done r /\ Passed r = true
                /\ Expected r = go_nil /\ Actual r = go_nil /\ Message r = "")
  /\ (forall resp assertion,
      lookup "type" assertion = Some (JString "equals") ->
      lookup "value" assertion = None ->
      exists r, executeAssertion resp assertion = Done r /\ Passed r = true
                /\ Expected r = go_nil /\ Actual r = go_nil /\ Message r = "")
  /\ (forall resp (a : Models.AssertionSpec),
      Models.Type_ a = "status_code" \/ Models.Type_ a = "equals" ->
      exists r, executeAssertion resp (serialized a) = Done r /\ Passed r = true
                /\ Expected r = go_nil /\ Actual r = go_nil /\ Message r = "")
  /\ (forall resp c name description,
      exists assertion r,
        lookup "assertions" (CurlParser.ToTestSpec c name description)
        = Some (JArray [JObject assertion])
        /\ lookup "expected" assertion = Some (JNumber 200%float)
        /\ executeAssertion resp assertion = Done r /\ Passed r = true
        /\ Expected r = go_nil /\ Actual r = go_nil /\ Message r = "").
Proof.
  split; [|split; [|split]].
  - intros resp assertion Hty Hval.
    rewrite (status_code_without_value resp assertion Hty Hval).
    eexists; split; [reflexivity|]. cbn. repeat split; reflexivity.
  - exact equals_without_value.
  - intros resp a Hty.
    pose proof (AssertionSpec_no_value a) as Hs. unfold serialized.
    destruct (Models.AssertionSpec_json a) as [| | | | |m]; try contradiction.
    destruct Hs as [Hval Htype].
    destruct Hty as [Hty|Hty]; rewrite Hty in Htype.
    + rewrite (status_code_without_value resp m Htype)
        by (now rewrite Hval).
      eexists; split; [reflexivity|]. cbn. repeat split; reflexivity.
    + now apply equals_without_value.
  - intros resp c name description.
    eexists. eexists. split; [reflexivity|]. split; [reflexivity|].
    split; [reflexivity|]. cbn. repeat split; reflexivity.
Qed.

End ExpectedValueField.

(** Witness of C2: the typed assertion of the executor's own test,
    [{Type: "status_code", Expected: 200}], on a response with status 204. *)
Lemma value_key_decides_comparison_witness :
  on_every_runtime (fun R =>
    exists r,
      executeAssertion (mkResponse 204 [] JNull)
        (serialized (Models.mkAssertionSpec "status_code" "" ""
                       (JNumber 200%float)))
      = Done r
      /\ Passed r = true /\ Expected r = go_nil /\ Actual r = go_nil
      /\ Message r = "").
Proof.
  intro R.
  exact (proj1 (proj2 (proj2 (@value_key_decides_comparison R)))
           (mkResponse 204 [] JNull)
           (Models.mkAssertionSpec "status_code" "" "" (JNumber 200%float))
           (or_introl eq_refl)).
Defined.

(** C2, counterexample to the claim as stated: an [equals] assertion whose
    ["value"] is a string has no numeric ["value"], yet it is compared and
    fails on a different actual value. *)
Lemma equals_string_value_counterexample :
  on_every_runtime (fun R =>
    as_float64 (lookup "value" (equals_assertion "body.name" (JString "a")))
    = None
    /\ exists r,
        executeAssertion (body_name (JString "b"))
                         (equals_assertion "body.name" (JString "a"))
        = Done r
        /\ Passed r = false
        /\ Expected r = AJSON (JString "a")
        /\ Actual r = AJSON (JString "b")).
Proof.
  intro R. split; [reflexivity|].
  eexists. split; [reflexivity|]. cbn. repeat split; reflexivity.
Qed.

(** ** Path normalization in the [exists] and [equals] cases *)

Lemma replace_byte_cons :
  forall (c x : ascii) (new s : string),
    GoStrings.ReplaceAll (String x s) (String c "") new
    = (if Ascii.eqb c x then new else String x "")
        ++ GoStrings.ReplaceAll s (String c "") new.
Proof.
  intros c x new s. unfold GoStrings.ReplaceAll. cbn.
  destruct (Ascii.eqb_spec c x) as [->|Hne].
  - destruct (ascii_dec x x) as [_|Hn]; [|contradiction].
    now destruct s.
  - destruct (ascii_dec c x) as [He|_]; [contradiction|]. reflexivity.
Qed.

Lemma append_assoc :
  forall a b c : string, (a ++ b) ++ c = a ++ (b ++ c).
Proof.
  induction a as [|x a IH]; intros b c; cbn; [reflexivity|]. now rewrite IH.
Qed.

Lemma replace_byte_app :
  forall (c : ascii) (new s t : string),
    GoStrings.ReplaceAll (s ++ t) (String c "") new
    = GoStrings.ReplaceAll s (String c "") new
        ++ GoStrings.ReplaceAll t (String c "") new.
Proof.
  intros c new s t. induction s as [|x s IH].
  - reflexivity.
  - change (String x s ++ t) with (String x (s ++ t)).
    rewrite !replace_byte_cons, IH. now rewrite append_assoc.
Qed.

Lemma replace_byte_absent :
  forall (c : ascii) (new s : string),
    CurlParser.has_byte c s = false ->
    GoStrings.ReplaceAll s (String c "") new = s.
Proof.
  intros c new s. induction s as [|x s IH]; intro Hs.
  - reflexivity.
  - cbn in Hs. apply orb_false_iff in Hs. destruct Hs as [Hx Hs].
    rewrite replace_byte_cons, (IH Hs).
    rewrite Ascii.eqb_sym in Hx. now rewrite Hx.
Qed.

Lemma bracket_free_split :
  forall s, bracket_free s = true ->
    CurlParser.has_byte "[" s = false /\ CurlParser.has_byte "]" s = false.
Proof.
  intros s Hs. unfold bracket_free in Hs. apply andb_true_iff in Hs.
  destruct Hs as [H1 H2]. split; now apply negb_true_iff.
Qed.

Lemma dotPath_app :
  forall s t, dotPath (s ++ t) = dotPath s ++ dotPath t.
Proof.
  intros s t. unfold dotPath. now rewrite !replace_byte_app.
Qed.

Lemma dotPath_bracket_free :
  forall s, bracket_free s = true -> dotPath s = s.
Proof.
  intros s Hs. apply bracket_free_split in Hs. destruct Hs as [Ho Hc].
  unfold dotPath. now rewrite (replace_byte_absent "[" "." s Ho),
                              (replace_byte_absent "]" "" s Hc).
Qed.

Lemma dotPath_bracketed :
  forall l, forallb segment_ok l = true -> dotPath (bracketed l) = dotted l.
Proof.
  induction l as [|g l IH]; intro Hl; [reflexivity|].
  cbn in Hl. apply andb_true_iff in Hl. destruct Hl as [Hg Hl].
  specialize (IH Hl). destruct g as [i|s]; cbn in Hg; cbn [bracketed dotted].
  - rewrite (dotPath_app "[" _), (dotPath_app i _), (dotPath_app "]" _).
    rewrite (dotPath_bracket_free i Hg), IH. reflexivity.
  - now rewrite dotPath_app, (dotPath_bracket_free s Hg), IH.
Qed.

Lemma exists_unfold :
  forall (R : GoRuntime) resp assertion path,
    lookup "type" assertion = Some (JString "exists") ->
    lookup "path" assertion = Some (JString path) ->
    executeAssertion resp assertion
    = let value := GJSON.Get (envelope resp) (normalizePath path) in
      Done (mkAssertionResult "exists" (normalizePath path) "exists"
              go_nil go_nil (GJSON.Exists value)
              (if GJSON.Exists value then ""
               else "JSON path '" ++ normalizePath path ++ "' does not exist")).
Proof.
  intros R resp assertion path Hty Hpath. unfold executeAssertion.
  rewrite Hty. cbn [as_string].
  change ("exists" =? "status_code") with false.
  change ("exists" =? "exists") with true. cbv iota.
  rewrite Hpath. cbn [as_string]. unfold normalizePath, envelope.
  destruct (array_rooted path); reflexivity.
Qed.

Section PathNormalization.

Context {R : GoRuntime}.

Lemma equals_unfold :
  forall resp assertion path,
    lookup "type" assertion = Some (JString "equals") ->
    lookup "path" assertion = Some (JString path) ->
    executeAssertion resp assertion
    = let value := GJSON.Get (envelope resp) (normalizePath path) in
      let result := mkAssertionResult "equals" (normalizePath path) "equals"
                      go_nil go_nil true "" in
      match lookup "value" assertion with
      | Some expected =>
          compare result value expected
                  (" for path '" ++ normalizePath path ++ "'")
      | None => Done result
      end.
Proof.
  intros resp assertion path Hty Hpath. unfold executeAssertion.
  rewrite Hty. cbn [as_string].
  change ("equals" =? "status_code") with false.
  change ("equals" =? "exists") with false.
  change ("equals" =? "equals") with true. cbv iota.
  rewrite Hpath. cbn [as_string]. unfold normalizePath, envelope.
  destruct (array_rooted path); reflexivity.
Qed.

Lemma normalizePath_twice :
  forall path, normalizePath (normalizePath path) = normalizePath path.
Proof.
  intro path. unfold normalizePath at 2 3.
  destruct (array_rooted path) eqn:Hr; unfold normalizePath.
  - reflexivity.
  - now rewrite Hr.
Qed.

(** C9.  Path normalization in the [exists] and [equals] cases is a function
    of the path and is idempotent.  Both cases record the normalized path
    and resolve it in the envelope, whatever the response; in it a path that
    begins with an index segment has every [[i]] rewritten to [.i] and
    [body] prepended, so that [[0].id] becomes [body.0.id], and any other
    path, [body.0.id] included, is used as it is; hence an assertion on the
    normalized path evaluates as the assertion on the path itself. *)
Theorem normalizePath_idempotent :
  forall (resp : Response) (assertion : object) (path : string),
    lookup "path" assertion = Some (JString path) ->
    (lookup "type" assertion = Some (JString "exists") ->
     executeAssertion resp assertion
     = Done (mkAssertionResult "exists" (normalizePath path) "exists"
               go_nil go_nil
               (GJSON.Exists (GJSON.Get (envelope resp) (normalizePath path)))
               (if GJSON.Exists
                     (GJSON.Get (envelope resp) (normalizePath path))
                then ""
                else "JSON path '" ++ normalizePath path ++
                     "' does not exist")))
    /\ (lookup "type" assertion = Some (JString "equals") ->
        executeAssertion resp assertion
        = match lookup "value" assertion with
          | Some expected =>
              compare (mkAssertionResult "equals" (normalizePath path)
                         "equals" go_nil go_nil true "")
                      (GJSON.Get (envelope resp) (normalizePath path))
                      expected
                      (" for path '" ++ normalizePath path ++ "'")
          | None =>
              Done (mkAssertionResult "equals" (normalizePath path) "equals"
                      go_nil go_nil true "")
          end)
    /\ normalizePath (normalizePath path) = normalizePath path
    /\ (array_rooted path = false -> normalizePath path = path)
    /\ (forall i l,
          path = bracketed (Index i :: l) ->
          forallb segment_ok (Index i :: l) = true ->
          normalizePath path = "body" ++ dotted (Index i :: l))
    /\ executeAssertion resp (exists_assertion (normalizePath path))
       = executeAssertion resp (exists_assertion path)
    /\ (forall value,
          executeAssertion resp (equals_assertion (normalizePath path) value)
          = executeAssertion resp (equals_assertion path value)).
Proof.
  intros resp assertion path Hpath.
  split; [|split; [|split; [|split; [|split; [|split]]]]].
  - intro Hty. now rewrite (exists_unfold R resp assertion path Hty Hpath).
  - intro Hty. now rewrite (equals_unfold resp assertion path Hty Hpath).
  - apply normalizePath_twice.
  - intro Hr. unfold normalizePath. now rewrite Hr.
  - intros i l -> Hl. unfold normalizePath, fullPath.
    change (array_rooted (bracketed (Index i :: l))) with true. cbv iota.
    now rewrite (dotPath_bracketed _ Hl).
  - rewrite (exists_unfold R resp (exists_assertion (normalizePath path))
               (normalizePath path) eq_refl eq_refl).
    rewrite (exists_unfold R resp (exists_assertion path) path
               eq_refl eq_refl).
    now rewrite normalizePath_twice.
  - intro value.
    rewrite (equals_unfold resp (equals_assertion (normalizePath path) value)
               (normalizePath path) eq_refl eq_refl).
    rewrite (equals_unfold resp (equals_assertion path value) path
               eq_refl eq_refl).
    now rewrite normalizePath_twice.
Qed.

End PathNormalization.

(** Witness of C9: the path [[0].name], evaluated on a response whose first
    element has a name, is recorded and resolved as [body.0.name], and the
    assertion on [body.0.name] evaluates to the same result. *)
Lemma normalizePath_idempotent_witness :
  on_every_runtime (fun R =>
    executeAssertion (first_name (JString "Ann")) (exists_assertion "[0].name")
    = Done (mkAssertionResult "exists" "body.0.name" "exists" go_nil go_nil
              true "")
    /\ executeAssertion (first_name (JString "Ann"))
         (exists_assertion "body.0.name")
       = executeAssertion (first_name (JString "Ann"))
           (exists_assertion "[0].name")
    /\ normalizePath "[0].items[2].id" = "body.0.items.2.id").
Proof.
  intro R.
  destruct (@normalizePath_idempotent R (first_name (JString "Ann"))
              (exists_assertion "[0].name") "[0].name" eq_refl)
    as [Hexists [_ [_ [_ [_ [Hsame _]]]]]].
  split; [exact (Hexists eq_refl)|]. split; [exact Hsame|].
  exact (proj1 (proj2 (proj2 (proj2 (proj2
           (@normalizePath_idempotent R (first_name (JString "Ann"))
              (exists_assertion "[0].items[2].id") "[0].items[2].id"
              eq_refl)))))
           "0" [Text ".items"; Index "2"; Text ".id"] eq_refl eq_refl).
Defined.

(** ** The [exists] case *)

Lemma Exists_Get :
  forall doc path,
    GJSON.Exists (GJSON.Get doc path) = true
    <-> exists v, GJSON.resolve doc path = Some v.
Proof.
  intros doc path. unfold GJSON.Get.
  destruct (GJSON.resolve doc path) as [v|].
  - split; [intros _; now exists v|intros _].
    destruct v as [|[|]| | | |]; reflexivity.
  - split; [discriminate|intros [v Hv]; discriminate].
Qed.

Section ExistsCase.

Context {R : GoRuntime}.

(** C3 (as amended).  An [exists] assertion passes exactly when its
    normalized path resolves to a value of the response envelope.  A JSON
    [null] written at the path is such a value, so the assertion passes on
    it; it fails, with the message "JSON path '<path>' does not exist", only
    when the path is absent. *)
Theorem exists_passes_iff_present :
  forall (resp : Response) (assertion : object) (path : string),
    lookup "type" assertion = Some (JString "exists") ->
    lookup "path" assertion = Some (JString path) ->
    GJSON.plain_path (normalizePath path) = true ->
    exists r,
      executeAssertion resp assertion = Done r
      /\ (Passed r = true <->
          exists v, GJSON.resolve (Some (responseData resp))
                                  (normalizePath path) = Some v)
      /\ (GJSON.resolve (Some (responseData resp)) (normalizePath path)
          = Some JNull -> Passed r = true)
      /\ (Passed r = false ->
          Message r = "JSON path '" ++ normalizePath path ++ "' does not exist").
Proof.
  intros resp assertion path Hty Hpath _.
  unfold executeAssertion. rewrite Hty. cbn [as_string].
  change ("exists" =? "status_code") with false.
  change ("exists" =? "exists") with true. cbv iota.
  rewrite Hpath. cbn [as_string]. unfold normalizePath.
  destruct (array_rooted path);
    (eexists; split; [reflexivity|]; cbn [Passed Message];
     split; [apply Exists_Get|];
     split; [intro Hnull; apply Exists_Get; eexists; exact Hnull|];
     intro Hp; now rewrite Hp).
Qed.

End ExistsCase.

(** Witness of C3: the path [[0].name] on a body whose first element has a
    name. *)
Lemma exists_passes_iff_present_witness :
  on_every_runtime (fun R =>
    exists r,
      executeAssertion (first_name (JString "Ann")) (exists_assertion "[0].name")
      = Done r
      /\ (Passed r = true <->
          exists v, GJSON.resolve
                      (Some (responseData (first_name (JString "Ann"))))
                      (normalizePath "[0].name") = Some v)
      /\ (GJSON.resolve (Some (responseData (first_name (JString "Ann"))))
                        (normalizePath "[0].name")
          = Some JNull -> Passed r = true)
      /\ (Passed r = false ->
          Message r = "JSON path '" ++ normalizePath "[0].name" ++
                      "' does not exist")).
Proof.
  intro R.
  apply (@exists_passes_iff_present R (first_name (JString "Ann"))
           (exists_assertion "[0].name") "[0].name"); reflexivity.
Defined.

(** C3, counterexample to the claim as stated: the path [[0].name] resolves
    to an explicit [null], and the assertion passes. *)
Lemma exists_explicit_null_counterexample :
  on_every_runtime (fun R =>
    GJSON.resolve (Some (responseData (first_name JNull))) "body.0.name"
    = Some JNull
    /\ executeAssertion (first_name JNull) (exists_assertion "[0].name")
       = Done (mkAssertionResult "exists" "body.0.name" "exists"
                 go_nil go_nil true "")).
Proof. intro R. split; reflexivity. Qed.

Example exists_absent_fails :
  on_every_runtime (fun R =>
    executeAssertion (first_name JNull) (exists_assertion "[0].id")
    = Done (mkAssertionResult "exists" "body.0.id" "exists" go_nil go_nil false
              "JSON path 'body.0.id' does not exist")).
Proof. intro R. reflexivity. Qed.

(** ** The [contains] matcher of [json_path] *)

Section ContainsMatcher.

Context {R : GoRuntime}.

(** The [contains] matcher passes exactly when the string form of the
    resolved value is the expected string. *)
Lemma contains_passes_iff_equal :
  forall (resp : Response) (assertion : object) (path expected : string),
    lookup "type" assertion = Some (JString "json_path") ->
    lookup "path" assertion = Some (JString path) ->
    lookup "matcher" assertion = Some (JString "contains") ->
    lookup "expected" assertion = Some (JString expected) ->
    exists r,
      executeAssertion resp assertion = Done r
      /\ (Passed r = true <->
          GJSON.String_
            (GJSON.Get (match Body resp with
                        | JNull => None
                        | _ => Some (Body resp)
                        end) path) = expected).
Proof.
  intros resp assertion path expected Hty Hpath Hm He.
  unfold executeAssertion. rewrite Hty. cbn [as_string].
  change ("json_path" =? "status_code") with false.
  change ("json_path" =? "exists") with false.
  change ("json_path" =? "equals") with false.
  change ("json_path" =? "json_path") with true. cbv iota.
  rewrite Hpath, Hm. cbn [as_string].
  change ("contains" =? "exists") with false.
  change ("contains" =? "equals") with false.
  change ("contains" =? "contains") with true. cbv iota.
  rewrite He. cbn [as_string].
  eexists. split; [reflexivity|]. cbn [Passed].
  apply String.eqb_eq.
Qed.

End ContainsMatcher.

(** C4, the code at the failing input: the resolved string [hello world]
    contains the expected [hello], and the assertion fails. *)
Theorem contains_substring_fails :
  on_every_runtime (fun R =>
    GoStrings.Contains "hello world" "hello" = true
    /\ executeAssertion (body_name (JString "hello world"))
                        (contains_assertion "name" "hello")
       = Done (mkAssertionResult "json_path" "name" "contains"
                 (AJSON (JString "hello")) (AJSON (JString "hello world"))
                 false "Expected to contain 'hello', got 'hello world'")).
Proof. intro R. split; reflexivity. Qed.

Example contains_equal_passes :
  on_every_runtime (fun R =>
    executeAssertion (body_name (JString "hello"))
                     (contains_assertion "name" "hello")
    = Done (mkAssertionResult "json_path" "name" "contains"
              (AJSON (JString "hello")) (AJSON (JString "hello")) true "")).
Proof. intro R. reflexivity. Qed.

(** ** The aggregation of [ExecuteTest] *)

Section Aggregation.

Context {R : GoRuntime}.

Lemma header_values_strings :
  forall h : list (string * string),
    header_values (map (fun kv => (fst kv, JString (snd kv))) h) = Done h.
Proof.
  induction h as [|[k v] h IH]; cbn; [reflexivity|]. now rewrite IH.
Qed.

Lemma ExecuteTest_unfold :
  forall client testSpec,
    ExecuteTest client testSpec
    = let resp := client (request_of testSpec) in
      if (400 <=? StatusCode resp)%Z then
        Done (TestRunner.failed testSpec
                ("HTTP request failed with status " ++
                 GoStrings.fmt_d (StatusCode resp)) "")
      else
        let text := json_Marshal (responseData resp) in
        let responseText := if (0 <? String.length text)%nat then text
                            else "{}" in
        match Models.Assertions testSpec with
        | Some l =>
            run_assertions resp (map Models.AssertionSpec_json l)
              (mkTestResult (Models.Name testSpec) "PASSED" "" responseText [])
        | None =>
            Done (TestRunner.failed testSpec "No assertions found" responseText)
        end.
Proof.
  intros client [name description service [method url headers body] assertions].
  unfold ExecuteTest, request_of. cbn.
  destruct headers as [h|]; cbn.
  - rewrite header_values_strings. cbn.
    destruct body, assertions; reflexivity.
  - destruct body, assertions; reflexivity.
Qed.

Lemma run_assertions_evaluate_all :
  forall resp (l : list Models.AssertionSpec) evaluated result,
    evaluate_all resp (map serialized l) = Done evaluated ->
    run_assertions resp (map Models.AssertionSpec_json l) result
    = Done (fold_left record evaluated result).
Proof.
  intros resp l. induction l as [|a l IH]; intros evaluated result Hev.
  - cbn in Hev. injection Hev as <-. reflexivity.
  - cbn [map evaluate_all] in Hev. cbn [map].
    rewrite (AssertionSpec_json_serialized a). cbn [run_assertions].
    destruct (skipped (serialized a)).
    + now apply IH.
    + destruct (executeAssertion resp (serialized a)) as [ar|msg];
        cbn [bind] in Hev |- *; [|discriminate].
      destruct (evaluate_all resp (map serialized l)) as [rs|msg];
        cbn [bind] in Hev; [|discriminate].
      injection Hev as <-. cbn [fold_left].
      now apply IH.
Qed.

Lemma fold_record_results :
  forall evaluated result,
    AssertionResults (fold_left record evaluated result)
    = (AssertionResults result ++ evaluated)%list.
Proof.
  induction evaluated as [|ar l IH]; intro result; cbn [fold_left].
  - now rewrite app_nil_r.
  - rewrite IH. unfold record. destruct (Passed ar); cbn;
      now rewrite <- app_assoc.
Qed.

Lemma fold_record_all_passed :
  forall evaluated result,
    forallb Passed evaluated = true ->
    Status (fold_left record evaluated result) = Status result
    /\ ErrorMessage (fold_left record evaluated result) = ErrorMessage result.
Proof.
  induction evaluated as [|ar l IH]; intros result Hall; cbn [fold_left].
  - split; reflexivity.
  - cbn in Hall. apply andb_true_iff in Hall. destruct Hall as [Har Hl].
    destruct (IH (record result ar) Hl) as [H1 H2]. rewrite H1, H2.
    unfold record. rewrite Har. split; reflexivity.
Qed.

(** After a failing result, the status is FAILED and the message is that of
    the last failing result. *)
Lemma fold_record_last_failing :
  forall evaluated result ar,
    last_failing evaluated = Some ar ->
    Status (fold_left record evaluated result) = "FAILED"
    /\ ErrorMessage (fold_left record evaluated result) = Message ar.
Proof.
  intros evaluated. induction evaluated as [|x l IH] using rev_ind;
    intros result ar Hlast.
  - discriminate.
  - unfold last_failing in Hlast. rewrite rev_app_distr in Hlast.
    cbn in Hlast. rewrite fold_left_app. cbn [fold_left].
    destruct (Passed x) eqn:Hx; cbn in Hlast.
    + unfold record at 1 3. rewrite Hx. cbn [Status ErrorMessage].
      now apply IH.
    + injection Hlast as <-. unfold record at 1 3. rewrite Hx. split; reflexivity.
Qed.

Lemma last_failing_none :
  forall l, last_failing l = None <-> forallb Passed l = true.
Proof.
  intro l. unfold last_failing. split.
  - intro Hnone. apply forallb_forall. intros ar Hin.
    apply in_rev in Hin.
    pose proof (find_none _ _ Hnone ar Hin) as Hp.
    now apply negb_false_iff in Hp.
  - intro Hall. destruct (find _ (rev l)) as [ar|] eqn:Hf; [|reflexivity].
    apply find_some in Hf. destruct Hf as [Hin Hp].
    apply in_rev in Hin. rewrite forallb_forall in Hall.
    rewrite (Hall ar Hin) in Hp. discriminate.
Qed.

(** C5.  When the request was answered with a status below 400 and the
    assertions are evaluated, the test's status is FAILED exactly when at
    least one evaluated (non-skipped) assertion failed, it is PASSED
    otherwise, and the recorded error message is the message of the last
    failing assertion in declaration order. *)
Theorem last_failure_is_reported :
  forall (client : Request -> Response) (testSpec : Models.TestSpec)
         (assertions : list Models.AssertionSpec)
         (evaluated : list AssertionResult),
    (StatusCode (client (request_of testSpec)) < 400)%Z ->
    Models.Assertions testSpec = Some assertions ->
    evaluate_all (client (request_of testSpec)) (map serialized assertions)
    = Done evaluated ->
    exists result,
      ExecuteTest client testSpec = Done result
      /\ AssertionResults result = evaluated
      /\ (Status result = "FAILED" <->
          exists ar, In ar evaluated /\ Passed ar = false)
      /\ (Status result = "PASSED" <->
          forall ar, In ar evaluated -> Passed ar = true)
      /\ match last_failing evaluated with
         | Some ar => ErrorMessage result = Message ar
         | None => ErrorMessage result = ""
         end.
Proof.
  intros client testSpec assertions evaluated Hstatus Hassert Hev.
  rewrite ExecuteTest_unfold. cbv zeta.
  destruct (Z.leb_spec 400 (StatusCode (client (request_of testSpec))))
    as [Hge|_]; [lia|].
  rewrite Hassert.
  rewrite (run_assertions_evaluate_all _ _ _ _ Hev).
  eexists. split; [reflexivity|].
  split; [now rewrite fold_record_results|].
  destruct (last_failing evaluated) as [ar|] eqn:Hlast.
  - destruct (fold_record_last_failing evaluated
                (mkTestResult (Models.Name testSpec) "PASSED" ""
                   (if (0 <? String.length
                               (json_Marshal
                                  (responseData (client (request_of testSpec)))))%nat
                    then json_Marshal
                           (responseData (client (request_of testSpec)))
                    else "{}") []) ar Hlast) as [Hs Hm].
    rewrite Hs, Hm.
    assert (Hin : In ar evaluated /\ Passed ar = false).
    { unfold last_failing in Hlast. apply find_some in Hlast.
      destruct Hlast as [Hin Hp]. split; [now apply in_rev|].
      now apply negb_true_iff. }
    split; [split; [intros _; now exists ar|reflexivity]|].
    split; [|reflexivity].
    split; [discriminate|]. intro Hall. destruct Hin as [Hin Hp].
    rewrite (Hall ar Hin) in Hp. discriminate.
  - pose proof (proj1 (last_failing_none evaluated) Hlast) as Hall.
    match goal with
    | |- context [fold_left record evaluated ?r0] =>
        destruct (fold_record_all_passed evaluated r0 Hall) as [Hs Hm]
    end.
    rewrite Hs, Hm. cbn [Status ErrorMessage].
    rewrite forallb_forall in Hall.
    split; [split; [discriminate|]|].
    + intros [ar [Hin Hp]]. rewrite (Hall ar Hin) in Hp. discriminate.
    + split; [|reflexivity]. split; [intros _; exact Hall|reflexivity].
Qed.

(** C10.  When the request was answered with a status below 400, a
    specification whose assertion slice is nil (encoded as JSON [null])
    yields FAILED with the message "No assertions found", and a
    specification with an empty assertion list yields PASSED with no
    assertion evaluated. *)
Theorem nil_assertions_fail_empty_pass :
  forall (client : Request -> Response) (testSpec : Models.TestSpec),
    (StatusCode (client (request_of testSpec)) < 400)%Z ->
    (Models.Assertions testSpec = None ->
     lookup "assertions" (Models.TestSpec_json testSpec) = Some JNull
     /\ exists result,
         ExecuteTest client testSpec = Done result
         /\ Status result = "FAILED"
         /\ ErrorMessage result = "No assertions found"
         /\ AssertionResults result = [])
    /\ (Models.Assertions testSpec = Some [] ->
        lookup "assertions" (Models.TestSpec_json testSpec) = Some (JArray [])
        /\ exists result,
            ExecuteTest client testSpec = Done result
            /\ Status result = "PASSED"
            /\ ErrorMessage result = ""
            /\ AssertionResults result = []).
Proof.
  intros client testSpec Hstatus.
  rewrite ExecuteTest_unfold. cbv zeta.
  destruct (Z.leb_spec 400 (StatusCode (client (request_of testSpec))))
    as [Hge|_]; [lia|].
  split; intro Hassert; rewrite Hassert.
  - split; [unfold Models.TestSpec_json; cbn; now rewrite Hassert|].
    eexists. split; [reflexivity|]. cbn. repeat split; reflexivity.
  - split; [unfold Models.TestSpec_json; cbn; now rewrite Hassert|].
    eexists. split; [reflexivity|]. cbn. repeat split; reflexivity.
Qed.

End Aggregation.

(** Witness of C5: two failing assertions around a skipped one; the message
    of the second failure is the one reported. *)
Lemma last_failure_is_reported_witness :
  on_every_runtime (fun R =>
    exists result,
      ExecuteTest empty_body_client (get_spec (Some three_exists)) = Done result
      /\ Status result = "FAILED"
      /\ List.length (AssertionResults result) = 2%nat
      /\ ErrorMessage result = "JSON path 'body.b' does not exist").
Proof.
  intro R.
  destruct (@last_failure_is_reported R empty_body_client
              (get_spec (Some three_exists)) three_exists
              [mkAssertionResult "exists" "body.a" "exists" go_nil go_nil false
                 "JSON path 'body.a' does not exist";
               mkAssertionResult "exists" "body.b" "exists" go_nil go_nil false
                 "JSON path 'body.b' does not exist"]
              eq_refl eq_refl eq_refl)
    as [result [Hrun [Hres [Hfailed [_ Hmsg]]]]].
  exists result. split; [exact Hrun|].
  split; [apply Hfailed; eexists; split; [left; reflexivity|reflexivity]|].
  split; [now rewrite Hres|exact Hmsg].
Defined.

(** Witness of C10: a nil and an empty assertion list on the same
    request. *)
Lemma nil_assertions_fail_empty_pass_witness :
  on_every_runtime (fun R =>
    (exists result,
        ExecuteTest empty_body_client (get_spec None) = Done result
        /\ Status result = "FAILED"
        /\ ErrorMessage result = "No assertions found"
        /\ AssertionResults result = [])
    /\ (exists result,
        ExecuteTest empty_body_client (get_spec (Some [])) = Done result
        /\ Status result = "PASSED"
        /\ ErrorMessage result = ""
        /\ AssertionResults result = [])).
Proof.
  intro R. split.
  - exact (proj2 (proj1 (@nil_assertions_fail_empty_pass R empty_body_client
                           (get_spec None) eq_refl) eq_refl)).
  - exact (proj2 (proj2 (@nil_assertions_fail_empty_pass R empty_body_client
                           (get_spec (Some [])) eq_refl) eq_refl)).
Defined.

Example failed_request_skips_assertions :
  on_every_runtime (fun R =>
    ExecuteTest (fun _ => mkResponse 500 [] JNull) (get_spec (Some []))
    = Done (mkTestResult "Test Get User" "FAILED"
              "HTTP request failed with status 500" "" [])).
Proof. intro R. reflexivity. Qed.

(** An assertion of type [json_path] with a path and without a matcher makes
    the executor panic. *)
Example json_path_without_matcher_panics :
  on_every_runtime (fun R =>
    ExecuteTest empty_body_client
      (get_spec (Some [Models.mkAssertionSpec "json_path" "id" "" JNull]))
    = Panic "interface conversion: interface {} is not string").
Proof. intro R. reflexivity. Qed.

(** * Properties of the run orchestrator *)

Section Orchestrator.

Context {R : GoRuntime}.
Variable unmarshal_TestSpec : string -> string + Models.TestSpec.
Variable client : string -> Request -> Response.

#[local] Abbreviation verdict := (Services.verdict unmarshal_TestSpec client).
#[local] Abbreviation passed := (Services.passed unmarshal_TestSpec client).
#[local] Abbreviation failed := (Services.failed unmarshal_TestSpec client).
#[local] Abbreviation run_cases := (Services.run_cases unmarshal_TestSpec client).

Lemma count_cons :
  forall f a l, count f (a :: l) = ((if f a then 1 else 0) + count f l)%Z.
Proof.
  intros f a l. unfold count. cbn [filter].
  destruct (f a); cbn [List.length]; lia.
Qed.

(** The loop adds the number of passed and of failed cases to its
    counters, when no case panics. *)
Lemma run_cases_counts :
  forall testCases p f rows,
    (forall tc, In tc testCases -> exists b, verdict tc = Done b) ->
    exists rows',
      run_cases testCases p f rows
      = (rows', Done ((p + count passed testCases)%Z,
                      (f + count failed testCases)%Z))
      /\ List.length rows' = (List.length rows + List.length testCases)%nat.
Proof.
  induction testCases as [|tc l IH]; intros p f rows Hall.
  - exists rows. cbn. unfold count. cbn.
    rewrite !Z.add_0_r, Nat.add_0_r. split; reflexivity.
  - assert (Hl : forall tc', In tc' l -> exists b, verdict tc' = Done b)
      by (intros tc' Hin; apply Hall; now right).
    destruct (Hall tc (or_introl eq_refl)) as [b Hb].
    rewrite !count_cons. unfold Services.passed at 1, Services.failed at 1.
    rewrite Hb. unfold Services.verdict in Hb. cbn [Services.run_cases].
    destruct (unmarshal_TestSpec (Models.TestSpecText tc)) as [err|testSpec].
    + injection Hb as <-.
      destruct (IH p (f + 1)%Z
                  (rows ++ [Services.recordTestResult (Models.ID tc) "failed"
                              err ""])%list Hl) as [rows' [Hrun Hlen]].
      exists rows'. rewrite Hrun, Hlen, length_app. cbn [List.length].
      rewrite Z.add_0_l, Z.add_assoc, <- Nat.add_assoc. split; reflexivity.
    + destruct (ExecuteTest (client (Models.BaseURL tc)) testSpec)
        as [result|msg]; [|discriminate].
      injection Hb as <-.
      destruct (TestRunner.Status result =? "FAILED"); cbn [negb].
      * match goal with
        | |- context [Services.run_cases _ _ l p (f + 1)%Z ?rs] =>
            destruct (IH p (f + 1)%Z rs Hl) as [rows' [Hrun Hlen]]
        end.
        exists rows'. rewrite Hrun, Hlen, length_app. cbn [List.length].
        rewrite Z.add_0_l, Z.add_assoc, <- Nat.add_assoc. split; reflexivity.
      * match goal with
        | |- context [Services.run_cases _ _ l (p + 1)%Z f ?rs] =>
            destruct (IH (p + 1)%Z f rs Hl) as [rows' [Hrun Hlen]]
        end.
        exists rows'. rewrite Hrun, Hlen, length_app. cbn [List.length].
        rewrite Z.add_0_l, Z.add_assoc, <- Nat.add_assoc. split; reflexivity.
Qed.

Lemma count_failed_zero :
  forall l,
    (forall tc, In tc l -> exists b, verdict tc = Done b) ->
    (count failed l = 0%Z <-> forall tc, In tc l -> passed tc = true).
Proof.
  induction l as [|a l IH]; intro Hall.
  - split; [intros _ tc []|reflexivity].
  - assert (Hl : forall tc, In tc l -> exists b, verdict tc = Done b)
      by (intros tc Hin; apply Hall; now right).
    rewrite count_cons.
    assert (Hnn : (0 <= count failed l)%Z) by (unfold count; lia).
    destruct (Hall a (or_introl eq_refl)) as [b Hb].
    unfold Services.failed at 1. rewrite Hb. split.
    + intros Hz tc [<-|Hin].
      * unfold Services.passed. rewrite Hb. destruct b; [reflexivity|lia].
      * apply (proj1 (IH Hl)); [destruct b; lia|exact Hin].
    + intro Hp. pose proof (Hp a (or_introl eq_refl)) as Ha.
      unfold Services.passed in Ha. rewrite Hb in Ha.
      destruct b; [|discriminate].
      rewrite (proj2 (IH Hl)); [reflexivity|].
      intros tc Hin. apply Hp. now right.
Qed.

(** C8.  When a non-empty batch runs to completion (no test panics; the
    time limit is not modelled), the stored run is [completed] if every test
    passed and [failed] if at least one failed, a test case whose
    specification does not parse counting as failed; the total is the number
    of test cases supplied, and the passed and failed counts are the numbers
    of passed and failed test cases; one result row is stored per test
    case. *)
Theorem run_counts_are_exact :
  forall (name : string) (testCases : list Models.TestCase),
    testCases <> [] ->
    (forall tc, In tc testCases -> exists b, verdict tc = Done b) ->
    let store := Services.completed_run unmarshal_TestSpec client name testCases in
    let run := Services.Run store in
    Models.TotalTests run = Z.of_nat (List.length testCases)
    /\ Models.PassedTests run = count passed testCases
    /\ Models.FailedTests run = count failed testCases
    /\ (Models.PassedTests run + Models.FailedTests run
        = Models.TotalTests run)%Z
    /\ ((forall tc, In tc testCases -> passed tc = true) ->
        Models.Status run = "completed")
    /\ ((exists tc, In tc testCases /\ failed tc = true) ->
        Models.Status run = "failed")
    /\ (Models.Status run = "completed" \/ Models.Status run = "failed")
    /\ List.length (Services.Rows store) = List.length testCases
    /\ (forall tc, In tc testCases ->
        (exists err, unmarshal_TestSpec (Models.TestSpecText tc) = inl err) ->
        failed tc = true).
Proof.
  intros name testCases Hne Hall store run.
  destruct (run_cases_counts testCases 0%Z 0%Z [] Hall) as [rows [Hrun Hlen]].
  assert (Hstore :
    store = Services.mkStore
              (Services.Updates
                 (Models.mkTestRun name "running"
                    (Z.of_nat (List.length testCases)) 0 0)
                 (if (0 <? count failed testCases)%Z then "failed"
                  else "completed")
                 (count passed testCases) (count failed testCases)) rows).
  { subst store. unfold Services.completed_run, Services.executeTests,
      Services.StartTestRun. cbn [Services.Run Services.Rows].
    destruct testCases as [|tc l]; [contradiction|].
    rewrite Hrun. reflexivity. }
  assert (Hsum : (count passed testCases + count failed testCases
                  = Z.of_nat (List.length testCases))%Z).
  { clear - Hall. induction testCases as [|a l IH]; [reflexivity|].
    rewrite !count_cons. cbn [List.length]. rewrite Nat2Z.inj_succ.
    assert (Hl : forall tc, In tc l -> exists b, verdict tc = Done b)
      by (intros tc Hin; apply Hall; now right).
    specialize (IH Hl). destruct (Hall a (or_introl eq_refl)) as [b Hb].
    unfold Services.passed at 1, Services.failed at 1. rewrite Hb.
    destruct b; lia. }
  subst run. rewrite Hstore. cbn.
  split; [reflexivity|]. split; [reflexivity|]. split; [reflexivity|].
  split; [exact Hsum|].
  split; [|split; [|split; [|split]]].
  - intro Hp. rewrite (proj2 (count_failed_zero testCases Hall) Hp). reflexivity.
  - intros [tc [Hin Hf]].
    destruct (Z.ltb_spec 0 (count failed testCases)) as [_|Hle]; [reflexivity|].
    assert (Hnn : (0 <= count failed testCases)%Z) by (unfold count; lia).
    assert (Hz : count failed testCases = 0%Z) by lia.
    pose proof (proj1 (count_failed_zero testCases Hall) Hz tc Hin) as Hp.
    unfold Services.passed in Hp. unfold Services.failed in Hf.
    destruct (verdict tc) as [[|]|]; discriminate.
  - destruct (0 <? count failed testCases)%Z; [now right|now left].
  - rewrite Hlen. reflexivity.
  - intros tc _ [err Herr]. unfold Services.failed, Services.verdict.
    now rewrite Herr.
Qed.

End Orchestrator.

(** Witness of C8: three test cases, the second with a specification that
    does not parse. *)
Lemma run_counts_are_exact_witness :
  on_every_runtime (fun R =>
    let run := Services.Run
                 (Services.completed_run decode_ok (fun _ => empty_body_client)
                    "nightly" three_cases) in
    Models.TotalTests run = 3%Z
    /\ Models.PassedTests run = 2%Z
    /\ Models.FailedTests run = 1%Z
    /\ Models.Status run = "failed").
Proof.
  intro R.
  assert (Hne : three_cases <> []) by discriminate.
  assert (Hall : forall tc, In tc three_cases ->
            exists b, Services.verdict decode_ok (fun _ => empty_body_client) tc
                      = Done b).
  { intros tc [<-|[<-|[<-|[]]]]; eexists; reflexivity. }
  destruct (@run_counts_are_exact R decode_ok (fun _ => empty_body_client)
              "nightly" three_cases Hne Hall)
    as [Htotal [Hpassed [Hfailed [_ [_ [Hstatus _]]]]]].
  split; [exact Htotal|]. split; [exact Hpassed|]. split; [exact Hfailed|].
  apply Hstatus.
  exists (Models.mkTestCase "2" "s" "second" "{" "http://svc").
  split; [right; left; reflexivity|reflexivity].
Defined.

(** A batch in which a test panics is stored as failed with zero counts. *)
Example panicking_batch_is_failed :
  on_every_runtime (fun R =>
    Services.Run
      (Services.completed_run
         (fun _ => inr (get_spec
                          (Some [Models.mkAssertionSpec "json_path" "id" ""
                                   JNull])))
         (fun _ => empty_body_client) "nightly" three_cases)
    = Models.mkTestRun "nightly" "failed" 3 0 0).
Proof. intro R. reflexivity. Qed.

(** * Properties of the curl command parser *)

Import CurlParser.

Example tokens_quoted :
  FindAllTokens "curl -H 'Accept: text/plain' http://x/y"
  = ["curl"; "-H"; "'Accept: text/plain'"; "http://x/y"].
Proof. reflexivity. Qed.

Example tokens_unclosed_quote : FindAllTokens "curl 'a b" = ["curl"; "'a"; "b"].
Proof. reflexivity. Qed.

Example normalize_continuation :
  normalize ("curl \" ++ str newline ++ "   -X   POST  http://x/y")
  = "curl -X POST http://x/y".
Proof. reflexivity. Qed.

Example names_from_placeholders :
  names_from "http://x/users/{id}/posts/{post}" None = ["id"; "post"].
Proof. reflexivity. Qed.

Example parse_basic_auth :
  on_every_runtime (fun R =>
    ParseCurlCommand "curl -u bob:secret https://x/y"
    = Done (inr (mkCurlRequest "GET" "https://x/y"
                   [("Authorization", "Basic bob:secret")] "" [] [] "Fetch"
                   "curl -u bob:secret https://x/y"))).
Proof. intro R. reflexivity. Qed.

Example parse_post_with_header :
  on_every_runtime (fun R =>
    ParseCurlCommand
      "curl -X POST https://x/y -H 'Content-Type: application/json' -d '{a:1}'"
    = Done (inr (mkCurlRequest "POST" "https://x/y"
                   [("Content-Type", "application/json")] "{a:1}" [] []
                   "Submit"
                   "curl -X POST https://x/y -H 'Content-Type: application/json' -d '{a:1}'"))).
Proof. intro R. reflexivity. Qed.

Example parse_data_defaults_to_post :
  on_every_runtime (fun R =>
    exists r,
      ParseCurlCommand "curl -d a=1 localhost:8080/items" = Done (inr r)
      /\ Method r = "POST" /\ URL r = "http://localhost:8080/items").
Proof. intro R. eexists. split; [reflexivity|]. split; reflexivity. Qed.

(** ** Data flags and the method *)

(** A data or form flag replaces the method by POST exactly when the
    method held at that point is GET, whatever set it. *)
Lemma walk_data_flag :
  forall t a rest result token data,
    stripQuotes t = Done token ->
    data_flag token = true ->
    stripQuotes a = Done data ->
    exists result',
      walk (t :: a :: rest) result = walk rest result'
      /\ Method result'
         = (if Method result =? "GET" then "POST" else Method result).
Proof.
  intros t a rest result token data Ht Hflag Ha.
  cbn [walk]. rewrite Ht. cbn [bind].
  unfold data_flag in Hflag.
  repeat (apply orb_true_iff in Hflag; destruct Hflag as [Hflag|Hflag]);
    apply String.eqb_eq in Hflag; subst token; cbn; rewrite Ha; cbn [bind];
    try (eexists; split; [reflexivity|];
         destruct (Method result =? "GET"); reflexivity).
  all: destruct (Method result =? "GET") eqn:Hm;
    destruct (GoStrings.SplitN2 data "=") as [|key [|value [|]]];
    cbn [Body with_Method];
    try destruct (Body result =? "");
    eexists; (split; [reflexivity|]); cbn; try rewrite Hm; reflexivity.
Qed.

(** Past the last method flag the method is kept, except that GET becomes
    POST at a data or form flag. *)
Lemma walk_keeps_method :
  forall n tokens result,
    (List.length tokens <= n)%nat ->
    no_method_flag tokens ->
    method_kept (walk tokens result) (Method result).
Proof.
  induction n as [|n IH]; intros tokens result Hlen Hno.
  - destruct tokens; [now left|cbn in Hlen; inversion Hlen].
  - destruct tokens as [|t rest]; [now left|].
    assert (Hrest : forall r, method_kept (walk rest r) (Method r)).
    { intro r. apply IH.
      - cbn in Hlen. apply le_S_n in Hlen. exact Hlen.
      - intros x s Hx. apply Hno. now right. }
    assert (Hrest' : forall a rest' r, rest = a :: rest' ->
               method_kept (walk rest' r) (Method r)).
    { intros a rest' r ->. apply IH.
      - cbn in Hlen. apply le_S_n in Hlen.
        apply Nat.le_trans with (2 := Hlen). apply Nat.le_succ_diag_r.
      - intros x s Hx. apply Hno. right. now right. }
    assert (Hpost : forall a rest' r, rest = a :: rest' ->
               Method r = (if Method result =? "GET" then "POST"
                           else Method result) ->
               method_kept (walk rest' r) (Method result)).
    { intros a rest' r Hr Hm. pose proof (Hrest' a rest' r Hr) as Hk.
      destruct (walk rest' r) as [[e|r']|msg]; cbn [method_kept] in *;
        try exact I.
      rewrite Hm in Hk. destruct (Method result =? "GET") eqn:Hg.
      - apply String.eqb_eq in Hg. right. split; [exact Hg|].
        destruct Hk as [Hk|[Hk _]]; [exact Hk|discriminate].
      - destruct Hk as [Hk|[Hk _]]; [now left|].
        rewrite Hk in Hg. discriminate. }
    cbn [walk].
    destruct (stripQuotes t) as [token|msg] eqn:Htoken; [|exact I].
    pose proof (Hno t token (or_introl eq_refl) Htoken) as Hflag.
    unfold method_flag in Hflag. cbn [bind].
    next_condition; [apply Hrest|].
    rewrite Hflag. cbv iota.
    next_condition.
    { destruct rest as [|a rest']; [exact I|].
      destruct (stripQuotes a) as [s|msg]; [|exact I]. cbn [bind].
      destruct (GoStrings.SplitN2 s ":") as [|key [|value [|]]]; try exact I.
      exact (Hrest' a rest' (with_Headers result _) eq_refl). }
    next_condition; [apply Hrest|].
    next_condition.
    { destruct rest as [|a rest']; [exact I|].
      destruct (stripQuotes a) as [s|msg]; [|exact I]. cbn [bind].
      apply (Hpost a rest' _ eq_refl).
      destruct (Method result =? "GET"); reflexivity. }
    next_condition.
    { destruct rest as [|a rest']; [exact I|].
      destruct (stripQuotes a) as [s|msg]; [|exact I]. cbn [bind].
      destruct (GoStrings.SplitN2 s "=") as [|key [|value [|]]];
        try (apply (Hpost a rest' _ eq_refl);
             destruct (Method result =? "GET"); reflexivity).
      match goal with
      | |- method_kept (if ?b then _ else _) _ => destruct b
      end; apply (Hpost a rest' _ eq_refl);
        destruct (Method result =? "GET"); reflexivity. }
    next_condition.
    { destruct rest as [|a rest']; [exact I|].
      destruct (stripQuotes a) as [s|msg]; [|exact I]. cbn [bind].
      destruct (GoStrings.SplitN2 s ":") as [|key [|value [|]]];
        first [exact (Hrest' a rest' result eq_refl)
              |exact (Hrest' a rest' (with_Headers result _) eq_refl)]. }
    next_condition.
    { destruct rest as [|a rest']; [exact I|].
      destruct (stripQuotes a) as [s|msg]; [|exact I]. cbn [bind].
      exact (Hrest' a rest' (with_Headers result _) eq_refl). }
    next_condition; [apply Hrest|].
    next_condition; [apply Hrest|].
    next_condition; [apply Hrest|].
    next_condition; [apply Hrest|].
    next_condition; [exact (Hrest (with_URL result _))|].
    next_condition; [exact (Hrest (with_URL result _))|].
    apply Hrest.
Qed.

Lemma finish_keeps_method :
  forall (R : GoRuntime) result r,
    finish result = Done (inr r) -> Method r = Method result.
Proof.
  intros R result r. unfold finish.
  destruct (GoStrings.Contains (URL result) "?").
  - destruct (url_Parse (URL result)) as [err|u]; [discriminate|].
    intro Hr. injection Hr as <-. reflexivity.
  - intro Hr. injection Hr as <-. reflexivity.
Qed.

Section DataFlags.

Context {R : GoRuntime}.

(** C6 (as amended).  A data or form flag sets the method to POST exactly
    when the method held at that point is GET, be it the default or the
    argument of an earlier [-X]/[--request]; it never overrides a method
    other than GET.  So after the last method flag, with argument [m], a
    command parses with the method [m] in upper case, or with POST when that
    is GET and a data or form flag follows; the method of the parsed command
    is the one the token loop ends with. *)
Theorem data_flag_posts_over_get_only :
  (forall t a rest result token data,
      stripQuotes t = Done token ->
      data_flag token = true ->
      stripQuotes a = Done data ->
      exists result',
        walk (t :: a :: rest) result = walk rest result'
        /\ Method result'
           = (if Method result =? "GET" then "POST" else Method result))
  /\ (forall t a rest result token m r,
      stripQuotes t = Done token ->
      method_flag token = true ->
      stripQuotes a = Done m ->
      no_method_flag rest ->
      walk (t :: a :: rest) result = Done (inr r) ->
      (GoStrings.ToUpper m <> "GET" -> Method r = GoStrings.ToUpper m)
      /\ (Method r = GoStrings.ToUpper m
          \/ (GoStrings.ToUpper m = "GET" /\ Method r = "POST")))
  /\ (forall curlCmd r,
      ParseCurlCommand curlCmd = Done (inr r) ->
      exists r0,
        walk (FindAllTokens (normalize curlCmd))
             (mkCurlRequest "GET" "" [] "" [] [] "" curlCmd) = Done (inr r0)
        /\ Method r = Method r0).
Proof.
  split; [exact walk_data_flag|]. split.
  - intros t a rest result token m r Ht Hflag Ha Hno Hwalk.
    assert (Hstep : walk (t :: a :: rest) result
                    = walk rest (with_Method result (GoStrings.ToUpper m))).
    { cbn [walk]. rewrite Ht. cbn [bind]. unfold method_flag in Hflag.
      destruct (token =? "curl") eqn:Hc.
      - apply String.eqb_eq in Hc. subst token. discriminate.
      - rewrite Hflag, Ha. reflexivity. }
    rewrite Hstep in Hwalk.
    pose proof (walk_keeps_method (List.length rest) rest
                  (with_Method result (GoStrings.ToUpper m))
                  (Nat.le_refl _) Hno) as Hk.
    rewrite Hwalk in Hk. cbn [method_kept Method with_Method] in Hk.
    split; [|exact Hk].
    intro Hne. destruct Hk as [Hk|[Hk _]]; [exact Hk|contradiction].
  - intros curlCmd r. unfold ParseCurlCommand.
    destruct (curlCmd =? ""); [discriminate|]. cbv zeta.
    destruct (FindAllTokens (normalize curlCmd)) as [|t rest]; [discriminate|].
    destruct (walk (t :: rest) (mkCurlRequest "GET" "" [] "" [] [] "" curlCmd))
      as [[e|r0]|msg]; cbn [bind]; try discriminate.
    destruct (URL r0 =? ""); [discriminate|].
    intro Hfin. exists r0. split; [reflexivity|].
    exact (finish_keeps_method R r0 r Hfin).
Qed.

End DataFlags.

Lemma no_method_flag_plain :
  forall tokens,
    forallb (fun t => match stripQuotes t with
                      | Done s => negb (method_flag s)
                      | Panic _ => true
                      end) tokens = true ->
    no_method_flag tokens.
Proof.
  intros tokens Hall t s Hin Hs. rewrite forallb_forall in Hall.
  specialize (Hall t Hin). rewrite Hs in Hall. now apply negb_true_iff.
Qed.

(** Witness of C6: an explicit PUT followed by a data flag. *)
Lemma data_flag_posts_over_get_only_witness :
  on_every_runtime (fun R =>
    exists r,
      walk ["-X"; "put"; "-d"; "a=1"; "http://x/y"]
           (mkCurlRequest "GET" "" [] "" [] [] "" "") = Done (inr r)
      /\ Method r = "PUT").
Proof.
  intro R. eexists. split; [reflexivity|].
  refine (proj1 (proj1 (proj2 (@data_flag_posts_over_get_only R))
                   "-X" "put" ["-d"; "a=1"; "http://x/y"]
                   (mkCurlRequest "GET" "" [] "" [] [] "" "")
                   "-X" "put" _ eq_refl eq_refl eq_refl
                   (no_method_flag_plain ["-d"; "a=1"; "http://x/y"] eq_refl)
                   eq_refl) _).
  discriminate.
Defined.

(** C6, counterexample to the claim as stated: with an explicit [-X GET]
    before the data flag the command parses with method POST; with the same
    flags in the other order it parses with method GET. *)
Lemma explicit_get_overridden_by_data :
  on_every_runtime (fun R =>
    (exists r,
        ParseCurlCommand "curl -X GET -d a=1 http://localhost:8080/items"
        = Done (inr r) /\ Method r = "POST")
    /\ (exists r,
        ParseCurlCommand "curl -d a=1 -X GET http://localhost:8080/items"
        = Done (inr r) /\ Method r = "GET")
    /\ (exists r,
        ParseCurlCommand "curl -X PUT -d a=1 http://localhost:8080/items"
        = Done (inr r) /\ Method r = "PUT")).
Proof.
  intro R. repeat split; eexists; (split; [reflexivity|reflexivity]).
Qed.

(** ** Commands without a URL *)

Lemma stripQuotes_total :
  forall t, lone_quote t = false -> exists s, stripQuotes t = Done s.
Proof.
  intros t Hq. unfold lone_quote in Hq. unfold stripQuotes.
  destruct (GoStrings.TrimSpace t) as [|c [|c2 s2]].
  - eexists. reflexivity.
  - apply orb_false_iff in Hq. destruct Hq as [H1 H2].
    assert (Hc1 : c <> quote)
      by (intros ->; discriminate).
    assert (Hc2 : c <> dquote)
      by (intros ->; discriminate).
    unfold GoStrings.HasPrefix, str. cbn [String.prefix].
    destruct (ascii_dec quote c) as [E|_]; [now symmetry in E|].
    destruct (ascii_dec dquote c) as [E|_]; [now symmetry in E|].
    eexists. reflexivity.
  - match goal with
    | |- context [if ?b then _ else _] => destruct b
    end; eexists; reflexivity.
Qed.

Lemma walk_without_url :
  forall n tokens result,
    (List.length tokens <= n)%nat ->
    strippable tokens ->
    no_url_token tokens ->
    walk_ends (walk tokens result) (URL result).
Proof.
  induction n as [|n IH]; intros tokens result Hlen Hstrip Hno.
  - destruct tokens; [reflexivity|cbn in Hlen; inversion Hlen].
  - destruct tokens as [|t rest]; [reflexivity|].
    assert (Hrest : forall r, walk_ends (walk rest r) (URL r)).
    { intro r. apply IH.
      - cbn in Hlen. apply le_S_n in Hlen. exact Hlen.
      - intros x Hx. apply Hstrip. now right.
      - intros x s Hx. apply Hno. now right. }
    assert (Harg : forall a rest' (k : string -> CurlRequest),
               rest = a :: rest' ->
               (forall s, URL (k s) = URL result) ->
               walk_ends (s <- stripQuotes a ;; walk rest' (k s)) (URL result)).
    { intros a rest' k -> Hk.
      destruct (stripQuotes_total a (Hstrip a (or_intror (or_introl eq_refl))))
        as [s Hs].
      rewrite Hs. cbn [bind]. rewrite <- (Hk s). apply IH.
      - cbn in Hlen. apply le_S_n in Hlen. apply Nat.le_trans with (2 := Hlen).
        apply Nat.le_succ_diag_r.
      - intros x Hx. apply Hstrip. right. now right.
      - intros x s' Hx. apply Hno. right. now right. }
    destruct (stripQuotes_total t (Hstrip t (or_introl eq_refl)))
      as [token Htoken].
    pose proof (Hno t token (or_introl eq_refl) Htoken) as Hurl.
    cbn [walk]. rewrite Htoken. cbn [bind].
    next_condition; [apply Hrest|].
    next_condition.
    { destruct rest as [|a rest']; [flag_error_now|].
      now apply (Harg a rest' (fun s => with_Method result (GoStrings.ToUpper s))). }
    next_condition.
    { destruct rest as [|a rest']; [flag_error_now|].
      destruct (stripQuotes_total a (Hstrip a (or_intror (or_introl eq_refl))))
        as [s Hs].
      rewrite Hs. cbn [bind].
      assert (Hrest' : forall r, walk_ends (walk rest' r) (URL r)).
      { intro r. apply IH.
        - cbn in Hlen. apply le_S_n in Hlen.
          apply Nat.le_trans with (2 := Hlen). apply Nat.le_succ_diag_r.
        - intros x Hx. apply Hstrip. right. now right.
        - intros x s' Hx. apply Hno. right. now right. }
      destruct (GoStrings.SplitN2 s ":") as [|key [|value [|]]];
        try (cbn [walk_ends error]; right; now exists s).
      continue_with Hrest'. }
    next_condition; [apply Hrest|].
    next_condition.
    { destruct rest as [|a rest']; [flag_error_now|].
      destruct (Method result =? "GET");
        now apply (Harg a rest' (fun s => with_Body _ s)). }
    next_condition.
    { destruct rest as [|a rest']; [flag_error_now|].
      destruct (stripQuotes_total a (Hstrip a (or_intror (or_introl eq_refl))))
        as [s Hs].
      rewrite Hs. cbn [bind].
      assert (Hrest' : forall r, walk_ends (walk rest' r) (URL r)).
      { intro r. apply IH.
        - cbn in Hlen. apply le_S_n in Hlen.
          apply Nat.le_trans with (2 := Hlen). apply Nat.le_succ_diag_r.
        - intros x Hx. apply Hstrip. right. now right.
        - intros x s' Hx. apply Hno. right. now right. }
      destruct (Method result =? "GET");
        (destruct (GoStrings.SplitN2 s "=") as [|key [|value [|]]];
         try continue_with Hrest';
         cbn [Body with_Method];
         destruct (Body result =? ""); continue_with Hrest'). }
    next_condition.
    { destruct rest as [|a rest']; [flag_error_now|].
      destruct (stripQuotes_total a (Hstrip a (or_intror (or_introl eq_refl))))
        as [s Hs].
      rewrite Hs. cbn [bind].
      assert (Hrest' : forall r, walk_ends (walk rest' r) (URL r)).
      { intro r. apply IH.
        - cbn in Hlen. apply le_S_n in Hlen.
          apply Nat.le_trans with (2 := Hlen). apply Nat.le_succ_diag_r.
        - intros x Hx. apply Hstrip. right. now right.
        - intros x s' Hx. apply Hno. right. now right. }
      destruct (GoStrings.SplitN2 s ":") as [|key [|value [|]]];
        continue_with Hrest'. }
    next_condition.
    { destruct rest as [|a rest']; [flag_error_now|].
      now apply (Harg a rest'
                   (fun s => with_Headers result (set (Headers result) "Cookie" s))). }
    next_condition; [apply Hrest|].
    next_condition; [apply Hrest|].
    next_condition; [apply Hrest|].
    next_condition; [apply Hrest|].
    unfold url_like in Hurl.
    apply orb_false_iff in Hurl. destruct Hurl as [Hurl H4].
    apply orb_false_iff in Hurl. destruct Hurl as [Hurl H3].
    apply orb_false_iff in Hurl. destruct Hurl as [H1 H2].
    rewrite H1, H2, H3, H4. cbn [orb]. apply Hrest.
Qed.

Section NoURL.

Context {R : GoRuntime}.

(** C7 (as amended).  The empty command is rejected with its own error.  A
    non-empty command in which no token is an absolute http(s) URL or a bare
    localhost/127.0.0.1 form, and in which no token is a lone quote
    character, is rejected with an error and never parsed into a request:
    "invalid curl command" when it has no token at all, the error of the
    first flag that lacks its argument or of the first header without a
    colon when there is one, and "no URL found in curl command"
    otherwise. *)
Theorem no_url_is_an_error :
  ParseCurlCommand "" = Done (inl "curl command cannot be empty")
  /\ forall curlCmd : string,
      curlCmd <> "" ->
      strippable (FindAllTokens (normalize curlCmd)) ->
      no_url_token (FindAllTokens (normalize curlCmd)) ->
      exists e,
        ParseCurlCommand curlCmd = Done (inl e)
        /\ e <> "curl command cannot be empty"
        /\ (e = "invalid curl command" \/ flag_error e
            \/ e = "no URL found in curl command")
        /\ (FindAllTokens (normalize curlCmd) = [] ->
            e = "invalid curl command")
        /\ (forall r,
              FindAllTokens (normalize curlCmd) <> [] ->
              walk (FindAllTokens (normalize curlCmd))
                   (mkCurlRequest "GET" "" [] "" [] [] "" curlCmd)
              = Done (inr r) ->
              e = "no URL found in curl command")
        /\ (forall e',
              walk (FindAllTokens (normalize curlCmd))
                   (mkCurlRequest "GET" "" [] "" [] [] "" curlCmd)
              = Done (inl e') ->
              FindAllTokens (normalize curlCmd) <> [] /\ e = e').
Proof.
  split; [reflexivity|].
  intros curlCmd Hne Hstrip Hno.
  unfold ParseCurlCommand.
  destruct (curlCmd =? "") eqn:He; [apply String.eqb_eq in He; contradiction|].
  cbv zeta.
  pose proof (walk_without_url
                (List.length (FindAllTokens (normalize curlCmd)))
                (FindAllTokens (normalize curlCmd))
                (mkCurlRequest "GET" "" [] "" [] [] "" curlCmd)
                (Nat.le_refl _) Hstrip Hno) as Hwalk.
  destruct (FindAllTokens (normalize curlCmd)) as [|t rest] eqn:Htok.
  - exists "invalid curl command". split; [reflexivity|].
    split; [discriminate|]. split; [now left|]. split; [reflexivity|].
    split; [intros r Hc; contradiction|]. intros e' Hw. discriminate.
  - destruct (walk (t :: rest) (mkCurlRequest "GET" "" [] "" [] [] "" curlCmd))
      as [[e|r]|msg]; cbn [walk_ends] in Hwalk; [| |contradiction].
    + exists e. cbn [bind]. split; [reflexivity|].
      split.
      { destruct Hwalk as [Hin|[h ->]]; [|discriminate].
        cbn [In] in Hin.
        repeat (destruct Hin as [<-|Hin]; [discriminate|]). contradiction. }
      split; [right; now left|]. split; [discriminate|].
      split; [intros r _ Hc; discriminate|].
      intros e' He'. injection He' as <-. split; [discriminate|reflexivity].
    + cbn [URL] in Hwalk. cbn [bind]. rewrite Hwalk. cbn.
      exists "no URL found in curl command". split; [reflexivity|].
      split; [discriminate|]. split; [right; now right|].
      split; [discriminate|]. split; [reflexivity|]. intros e' Hc. discriminate.
Qed.

End NoURL.

Lemma strippable_plain :
  forall tokens,
    forallb (fun t => negb (lone_quote t)) tokens = true -> strippable tokens.
Proof.
  intros tokens Hall t Hin. rewrite forallb_forall in Hall.
  now apply negb_true_iff, Hall.
Qed.

Lemma no_url_token_plain :
  forall tokens,
    forallb (fun t => match stripQuotes t with
                      | Done s => negb (url_like s)
                      | Panic _ => true
                      end) tokens = true ->
    no_url_token tokens.
Proof.
  intros tokens Hall t s Hin Hs. rewrite forallb_forall in Hall.
  specialize (Hall t Hin). rewrite Hs in Hall. now apply negb_true_iff.
Qed.

(** Witness of C7: a command with a method and a header and no URL. *)
Lemma no_url_is_an_error_witness :
  on_every_runtime (fun R =>
    exists e,
      ParseCurlCommand headers_only = Done (inl e)
      /\ e = "no URL found in curl command").
Proof.
  intro R.
  destruct (proj2 (@no_url_is_an_error R) headers_only
              ltac:(discriminate)
              (strippable_plain (FindAllTokens (normalize headers_only)) eq_refl)
              (no_url_token_plain (FindAllTokens (normalize headers_only))
                 eq_refl))
    as [e [Hrun [_ [_ [_ [Hurl _]]]]]].
  exists e. split; [exact Hrun|].
  eapply Hurl; [discriminate|reflexivity].
Defined.

(** C7, counterexample to the claim as stated: no token of [curl -X] is a
    URL, and the error is that of the flag without its argument. *)
Lemma missing_argument_counterexample :
  on_every_runtime (fun R =>
    FindAllTokens (normalize "curl -X") = ["curl"; "-X"]
    /\ ParseCurlCommand "curl -X"
       = Done (inl "missing method after -X/--request")
    /\ "missing method after -X/--request" <> "no URL found in curl command").
Proof. intro R. split; [reflexivity|]. split; [reflexivity|discriminate]. Qed.

Example blank_command_is_invalid :
  on_every_runtime (fun R =>
    ParseCurlCommand "   " = Done (inl "invalid curl command")).
Proof. intro R. reflexivity. Qed.

Example malformed_header_is_reported :
  on_every_runtime (fun R =>
    ParseCurlCommand "curl -H Accept"
    = Done (inl "invalid header format: Accept")).
Proof. intro R. reflexivity. Qed.

(** A token that is a lone quote character makes [stripQuotes] slice out of
    range. *)
Example lone_quote_panics :
  on_every_runtime (fun R =>
    FindAllTokens (normalize "curl '") = ["curl"; "'"]
    /\ ParseCurlCommand "curl '"
       = Panic "runtime error: slice bounds out of range [1:0]").
Proof. intro R. split; reflexivity. Qed.

(** * Further properties of the assertion evaluator *)

Lemma Value_located : forall v, GJSON.Value (GJSON.located v) = v.
Proof. intros [|[|]| | | |]; reflexivity. Qed.

Lemma Value_Get :
  forall doc path,
    GJSON.Value (GJSON.Get doc path)
    = match GJSON.resolve doc path with Some v => v | None => JNull end.
Proof.
  intros doc path. unfold GJSON.Get.
  destruct (GJSON.resolve doc path) as [v|]; [apply Value_located|reflexivity].
Qed.

Section EvaluatorCases.

Context {R : GoRuntime}.

(** X1.  An assertion whose type is none of the five known ones fails, with
    the message "Unknown assertion type: <type>", whatever the response. *)
Theorem unknown_type_fails :
  forall (resp : Response) (assertion : object) (type : string),
    lookup "type" assertion = Some (JString type) ->
    ~ In type known_types ->
    executeAssertion resp assertion
    = Done (mkAssertionResult type "" "" go_nil go_nil false
              ("Unknown assertion type: " ++ type)).
Proof.
  intros resp assertion type Hty Hunknown.
  unfold executeAssertion. rewrite Hty. cbn [as_string].
  assert (Hne : forall k, In k known_types -> (type =? k) = false).
  { intros k Hk. apply String.eqb_neq. intros ->. contradiction. }
  rewrite !Hne by (cbn; tauto). reflexivity.
Qed.

(** X2.  A [response_time] assertion always passes: with a numeric
    ["expected"] it records the expected value and the message "Response
    time assertion not implemented yet", without one it records nothing. *)
Theorem response_time_always_passes :
  forall (resp : Response) (assertion : object),
    lookup "type" assertion = Some (JString "response_time") ->
    exists r,
      executeAssertion resp assertion = Done r
      /\ Passed r = true
      /\ Actual r = go_nil
      /\ (forall e, lookup "expected" assertion = Some (JNumber e) ->
          Expected r = AInt (go_int e)
          /\ Message r = "Response time assertion not implemented yet")
      /\ (as_float64 (lookup "expected" assertion) = None ->
          Expected r = go_nil /\ Message r = "").
Proof.
  intros resp assertion Hty. unfold executeAssertion. rewrite Hty.
  cbn [as_string].
  change ("response_time" =? "status_code") with false.
  change ("response_time" =? "exists") with false.
  change ("response_time" =? "equals") with false.
  change ("response_time" =? "json_path") with false.
  change ("response_time" =? "response_time") with true. cbv iota.
  destruct (as_float64 (lookup "expected" assertion)) as [e|] eqn:He.
  - eexists. split; [reflexivity|]. cbn. split; [reflexivity|].
    split; [reflexivity|]. split; [|discriminate].
    intros e' He'. rewrite He' in He. cbn in He. injection He as <-.
    split; reflexivity.
  - eexists. split; [reflexivity|]. cbn. split; [reflexivity|].
    split; [reflexivity|]. split; [|intros _; split; reflexivity].
    intros e' He'. rewrite He' in He. discriminate.
Qed.

(** X3.  An [equals] assertion compares the resolved value with ["value"] as
    Go compares two interface values.  With an expected value that is not an
    array or an object it returns, and passes exactly when the resolved value
    has the same dynamic type and is equal: an expected string is matched
    only by that string, never by a number of the same digits.  With an
    expected array and a resolved array, or an expected object and a resolved
    object, the comparison panics. *)
Theorem equals_compares_dynamic_types :
  forall (resp : Response) (assertion : object) (path : string)
         (expected : json),
    lookup "type" assertion = Some (JString "equals") ->
    lookup "path" assertion = Some (JString path) ->
    lookup "value" assertion = Some expected ->
    let actual := match GJSON.resolve (envelope resp) (normalizePath path) with
                  | Some v => v
                  | None => JNull
                  end in
    (scalar expected = true ->
     exists r,
       executeAssertion resp assertion = Done r
       /\ Expected r = AJSON expected /\ Actual r = AJSON actual
       /\ (Passed r = true <-> iface_eq actual expected = Done true)
       /\ (forall s, expected = JString s ->
           (Passed r = true <-> actual = JString s))
       /\ (forall b, expected = JBool b ->
           (Passed r = true <-> actual = JBool b)))
    /\ (scalar expected = false ->
        (scalar actual = true \/
         (exists l m, expected = JArray l /\ actual = JObject m) \/
         (exists l m, expected = JObject m /\ actual = JArray l) ->
         exists r, executeAssertion resp assertion = Done r
                   /\ Passed r = false)
        /\ ((exists l l', expected = JArray l /\ actual = JArray l') \/
            (exists m m', expected = JObject m /\ actual = JObject m') ->
            exists msg, executeAssertion resp assertion = Panic msg)).
Proof.
  intros resp assertion path expected Hty Hpath Hval actual.
  rewrite (equals_unfold resp assertion path Hty Hpath). cbv zeta.
  rewrite Hval. unfold compare. rewrite Value_Get. fold actual.
  split.
  - intro Hs.
    assert (Hdone : exists b, iface_eq actual expected = Done b).
    { destruct actual, expected; try discriminate; eexists; reflexivity. }
    destruct Hdone as [b Hb]. rewrite Hb. cbn [bind].
    eexists. split; [reflexivity|]. cbn [Expected Actual Passed].
    split; [reflexivity|]. split; [reflexivity|].
    split; [split; [intros ->; reflexivity|intro Ht; now injection Ht]|].
    split.
    + intros s ->. destruct actual; cbn in Hb; injection Hb as <-;
        split; try discriminate.
      * intro Heq. apply String.eqb_eq in Heq. now subst.
      * intro Heq. injection Heq as ->. apply String.eqb_refl.
    + intros b' ->. destruct actual; cbn in Hb; injection Hb as <-;
        split; try discriminate.
      * intro Heq. apply Bool.eqb_prop in Heq. now subst.
      * intro Heq. injection Heq as ->. apply Bool.eqb_reflx.
  - intro Hs. split.
    + intros [Ha|[[l [m [-> Ha]]]|[l [m [-> Ha]]]]].
      * destruct expected; try discriminate; destruct actual; try discriminate;
          cbn [iface_eq bind]; eexists; (split; [reflexivity|reflexivity]).
      * rewrite Ha. cbn [iface_eq bind]. eexists. split; reflexivity.
      * rewrite Ha. cbn [iface_eq bind]. eexists. split; reflexivity.
    + intros [[l [l' [-> Ha]]]|[m [m' [-> Ha]]]]; rewrite Ha;
        cbn [iface_eq bind]; eexists; reflexivity.
Qed.

(** X4.  An [equals] assertion whose ["value"] is [null] passes exactly when
    the path is absent or holds an explicit [null]: the two cannot be told
    apart by it. *)
Theorem equals_null_matches_absent :
  forall (resp : Response) (assertion : object) (path : string),
    lookup "type" assertion = Some (JString "equals") ->
    lookup "path" assertion = Some (JString path) ->
    lookup "value" assertion = Some JNull ->
    exists r,
      executeAssertion resp assertion = Done r
      /\ (Passed r = true <->
          GJSON.resolve (envelope resp) (normalizePath path) = None
          \/ GJSON.resolve (envelope resp) (normalizePath path) = Some JNull).
Proof.
  intros resp assertion path Hty Hpath Hval.
  rewrite (equals_unfold resp assertion path Hty Hpath). cbv zeta.
  rewrite Hval. unfold compare. rewrite Value_Get.
  destruct (GJSON.resolve (envelope resp) (normalizePath path)) as [v|].
  - destruct v; cbn [iface_eq bind]; eexists; (split; [reflexivity|]);
      cbn [Passed]; split; try discriminate;
      try (intros [Hc|Hc]; discriminate); try (intros _; now right);
      reflexivity.
  - cbn [iface_eq bind]. eexists. split; [reflexivity|]. cbn [Passed].
    split; [intros _; now left|reflexivity].
Qed.


End EvaluatorCases.

Lemma failed_assertion_message :
  forall (R : GoRuntime) (resp : Response) (assertion : object)
         (r : AssertionResult),
    executeAssertion resp assertion = Done r ->
    Passed r = false ->
    Message r <> "".
Proof.
  intros R resp assertion r Hrun Hfail.
  unfold executeAssertion, compare in Hrun.
  repeat (cbn [bind as_string as_float64] in Hrun;
          match type of Hrun with
          | context [match ?x with _ => _ end] => destruct x eqn:?
          | context [bind ?m _] => destruct m eqn:?
          end);
    cbn [bind] in Hrun; try discriminate;
    injection Hrun as <-; cbn in Hfail |- *; try discriminate.
Qed.

(** X6.  No assertion fails silently: a failed assertion result always
    carries a message, and a passed one carries none unless it is the
    [response_time] placeholder. *)
Theorem failure_has_message :
  forall (R : GoRuntime) (resp : Response) (assertion : object)
         (r : AssertionResult),
    executeAssertion resp assertion = Done r ->
    (Passed r = false -> Message r <> "")
    /\ (Passed r = true -> Type_ r <> "response_time" -> Message r = "").
Proof.
  intros R resp assertion r Hrun. split.
  - now apply (failed_assertion_message R resp assertion).
  - intros Hpass Htype. unfold executeAssertion, compare in Hrun.
    repeat (cbn [bind as_string as_float64] in Hrun;
            match type of Hrun with
            | context [match ?x with _ => _ end] => destruct x eqn:?
            | context [bind ?m _] => destruct m eqn:?
            end);
      cbn [bind] in Hrun; try discriminate;
      injection Hrun as <-; cbn in Hpass, Htype |- *; try discriminate;
      try reflexivity.
    all: match goal with
         | H : (?s =? "response_time") = true |- _ =>
             apply String.eqb_eq in H; contradiction
         end.
Qed.

(** * Further properties of [ExecuteTest] *)

Section ExecutorProperties.

Context {R : GoRuntime}.

Lemma run_assertions_inv :
  forall resp (l : list Models.AssertionSpec) result final,
    run_assertions resp (map Models.AssertionSpec_json l) result = Done final ->
    exists evaluated,
      evaluate_all resp (map serialized l) = Done evaluated
      /\ final = fold_left record evaluated result.
Proof.
  intros resp l. induction l as [|a l IH]; intros result final Hrun.
  - cbn in Hrun. injection Hrun as <-. exists []. split; reflexivity.
  - cbn [map] in Hrun. rewrite (AssertionSpec_json_serialized a) in Hrun.
    cbn [run_assertions] in Hrun. cbn [map evaluate_all].
    destruct (skipped (serialized a)).
    + now apply IH.
    + destruct (executeAssertion resp (serialized a)) as [ar|msg];
        cbn [bind] in Hrun |- *; [|discriminate].
      destruct (IH _ _ Hrun) as [evaluated [Hev Hfinal]].
      exists (ar :: evaluated). rewrite Hev. split; [reflexivity|exact Hfinal].
Qed.

Lemma evaluate_all_members :
  forall resp l evaluated,
    evaluate_all resp l = Done evaluated ->
    forall ar,
      In ar evaluated <->
      exists a, In a l /\ skipped a = false
                /\ executeAssertion resp a = Done ar.
Proof.
  intros resp l. induction l as [|a l IH]; intros evaluated Hev ar.
  - cbn in Hev. injection Hev as <-. split; [intros []|intros [a [[] _]]].
  - cbn [evaluate_all] in Hev. destruct (skipped a) eqn:Hskip.
    + rewrite (IH _ Hev ar). split.
      * intros [x [Hin Hx]]. exists x. split; [now right|exact Hx].
      * intros [x [[<-|Hin] [Hs Hx]]].
        -- rewrite Hskip in Hs. discriminate.
        -- exists x. now split.
    + destruct (executeAssertion resp a) as [r|msg] eqn:Hexec;
        cbn [bind] in Hev; [|discriminate].
      destruct (evaluate_all resp l) as [rs|msg]; cbn [bind] in Hev;
        [|discriminate].
      injection Hev as <-. cbn [In]. rewrite (IH rs eq_refl ar). split.
      * intros [<-|[x [Hin Hx]]].
        -- exists a. split; [now left|]. now split.
        -- exists x. split; [now right|exact Hx].
      * intros [x [[<-|Hin] [Hs Hx]]].
        -- left. rewrite Hexec in Hx. now injection Hx.
        -- right. exists x. now split.
Qed.

Lemma evaluate_all_length :
  forall resp l evaluated,
    evaluate_all resp l = Done evaluated ->
    (List.length evaluated <= List.length l)%nat.
Proof.
  intros resp l. induction l as [|a l IH]; intros evaluated Hev.
  - cbn in Hev. injection Hev as <-. apply Nat.le_refl.
  - cbn [evaluate_all] in Hev. destruct (skipped a).
    + cbn [List.length]. apply Nat.le_trans with (1 := IH _ Hev).
      apply Nat.le_succ_diag_r.
    + destruct (executeAssertion resp a) as [r|msg]; cbn [bind] in Hev;
        [|discriminate].
      destruct (evaluate_all resp l) as [rs|msg]; cbn [bind] in Hev;
        [|discriminate].
      injection Hev as <-. cbn [List.length]. apply le_n_S. now apply IH.
Qed.

Lemma evaluate_all_total :
  forall resp l,
    (forall a, In a l -> skipped a = false ->
               exists ar, executeAssertion resp a = Done ar) ->
    exists evaluated, evaluate_all resp l = Done evaluated.
Proof.
  intros resp l. induction l as [|a l IH]; intro Hall.
  - exists []. reflexivity.
  - destruct IH as [rs Hrs]; [intros x Hx; apply Hall; now right|].
    cbn [evaluate_all]. destruct (skipped a) eqn:Hskip.
    + now exists rs.
    + destruct (Hall a (or_introl eq_refl) Hskip) as [ar Har].
      rewrite Har, Hrs. cbn [bind]. now exists (ar :: rs).
Qed.

Lemma fold_record_keeps :
  forall evaluated result,
    TestName (fold_left record evaluated result) = TestName result
    /\ ResponseData (fold_left record evaluated result) = ResponseData result.
Proof.
  induction evaluated as [|ar l IH]; intro result; cbn [fold_left].
  - split; reflexivity.
  - destruct (IH (record result ar)) as [H1 H2]. rewrite H1, H2.
    unfold record. destruct (Passed ar); split; reflexivity.
Qed.

(** X7.  A response with status 400 or above short-circuits the test: it is
    FAILED with the message "HTTP request failed with status <code>", no
    response data is recorded and no assertion is evaluated, whatever the
    assertions are. *)
Theorem failed_request_short_circuits :
  forall (client : Request -> Response) (testSpec : Models.TestSpec),
    (400 <= StatusCode (client (request_of testSpec)))%Z ->
    ExecuteTest client testSpec
    = Done (mkTestResult (Models.Name testSpec) "FAILED"
              ("HTTP request failed with status " ++
               GoStrings.fmt_d (StatusCode (client (request_of testSpec))))
              "" []).
Proof.
  intros client testSpec Hstatus. rewrite ExecuteTest_unfold. cbv zeta.
  destruct (Z.leb_spec 400 (StatusCode (client (request_of testSpec))))
    as [_|Hlt]; [reflexivity|].
  exfalso. apply (Z.lt_irrefl 400). now apply Z.le_lt_trans with (2 := Hlt).
Qed.

(** X8.  Every result [ExecuteTest] returns names the test, is PASSED or
    FAILED, has no error message when PASSED and a non-empty one when
    FAILED, holds at most one assertion result per assertion, and, when the
    status of the response was below 400, carries non-empty response
    data. *)
Theorem result_invariants :
  forall (client : Request -> Response) (testSpec : Models.TestSpec)
         (result : TestResult),
    ExecuteTest client testSpec = Done result ->
    TestName result = Models.Name testSpec
    /\ (Status result = "PASSED" \/ Status result = "FAILED")
    /\ (Status result = "PASSED" -> ErrorMessage result = "")
    /\ (Status result = "FAILED" -> ErrorMessage result <> "")
    /\ (List.length (AssertionResults result)
        <= match Models.Assertions testSpec with
           | Some l => List.length l
           | None => 0
           end)%nat
    /\ ((StatusCode (client (request_of testSpec)) < 400)%Z ->
        ResponseData result <> "").
Proof.
  intros client testSpec result. rewrite ExecuteTest_unfold. cbv zeta.
  destruct (Z.leb_spec 400 (StatusCode (client (request_of testSpec))))
    as [Hge|Hlt].
  - intro Hrun. injection Hrun as <-. cbn.
    split; [reflexivity|]. split; [now right|]. split; [discriminate|].
    split; [intros _; discriminate|]. split; [apply Nat.le_0_l|].
    intro Hlt. exfalso. apply (Z.lt_irrefl 400).
    now apply Z.le_lt_trans with (2 := Hlt).
  - assert (Htext : forall text : string,
              (if (0 <? String.length text)%nat then text else "{}") <> "").
    { intros [|c text]; cbn; discriminate. }
    destruct (Models.Assertions testSpec) as [l|].
    + intro Hrun. apply run_assertions_inv in Hrun.
      destruct Hrun as [evaluated [Hev ->]].
      destruct (fold_record_keeps evaluated
                  (mkTestResult (Models.Name testSpec) "PASSED" ""
                     (if (0 <? String.length
                                 (json_Marshal
                                    (responseData
                                       (client (request_of testSpec)))))%nat
                      then json_Marshal
                             (responseData (client (request_of testSpec)))
                      else "{}") [])) as [Hname Hdata].
      rewrite Hname, Hdata, fold_record_results. cbn [TestName ResponseData
        AssertionResults app].
      split; [reflexivity|].
      assert (Hlen : (List.length evaluated <= List.length l)%nat).
      { pose proof (evaluate_all_length _ _ _ Hev) as Hl.
        now rewrite length_map in Hl. }
      destruct (last_failing evaluated) as [ar|] eqn:Hlast.
      * match goal with
        | |- context [fold_left record evaluated ?r0] =>
            destruct (fold_record_last_failing evaluated r0 ar Hlast)
              as [Hs Hm]
        end.
        rewrite Hs, Hm.
        split; [now right|]. split; [discriminate|]. split.
        { intros _. unfold last_failing in Hlast. apply find_some in Hlast.
          destruct Hlast as [Hin Hp]. apply in_rev in Hin.
          apply negb_true_iff in Hp.
          apply (proj1 (evaluate_all_members _ _ _ Hev ar)) in Hin.
          destruct Hin as [a [_ [_ Hexec]]].
          exact (failed_assertion_message R _ _ _ Hexec Hp). }
        split; [exact Hlen|]. intros _. apply Htext.
      * pose proof (proj1 (last_failing_none evaluated) Hlast) as Hall.
        match goal with
        | |- context [fold_left record evaluated ?r0] =>
            destruct (fold_record_all_passed evaluated r0 Hall) as [Hs Hm]
        end.
        rewrite Hs, Hm. cbn [Status ErrorMessage].
        split; [now left|]. split; [reflexivity|]. split; [discriminate|].
        split; [exact Hlen|]. intros _. apply Htext.
    + intro Hrun. injection Hrun as <-. cbn [TestRunner.failed TestName Status
        ErrorMessage AssertionResults ResponseData List.length].
      split; [reflexivity|]. split; [now right|]. split; [discriminate|].
      split; [intros _; discriminate|]. split; [apply Nat.le_refl|].
      intros _. apply Htext.
Qed.

End ExecutorProperties.

Lemma serialized_lookups :
  forall a : Models.AssertionSpec,
    lookup "type" (serialized a) = Some (JString (Models.Type_ a))
    /\ lookup "value" (serialized a) = None
    /\ lookup "path" (serialized a)
       = (if Models.Path a =? "" then None else Some (JString (Models.Path a)))
    /\ lookup "matcher" (serialized a)
       = (if Models.Matcher a =? "" then None
          else Some (JString (Models.Matcher a)))
    /\ lookup "expected" (serialized a) = Some (Models.Expected a).
Proof.
  intro a. unfold serialized, Models.AssertionSpec_json, Models.omitempty.
  destruct (Models.Path a =? ""); destruct (Models.Matcher a =? ""); cbn;
    repeat split; reflexivity.
Qed.

Lemma skipped_serialized :
  forall a, skipped (serialized a) = header_path a.
Proof.
  intro a. unfold skipped, header_path.
  destruct (serialized_lookups a) as [_ [_ [Hpath _]]]. rewrite Hpath.
  destruct (Models.Path a =? "") eqn:He; [|reflexivity].
  apply String.eqb_eq in He. rewrite He. reflexivity.
Qed.

Section TypedSpecifications.

Context {R : GoRuntime}.

Lemma never_compared_passes :
  forall resp a,
    never_compared a = true ->
    exists ar,
      executeAssertion resp (serialized a) = Done ar /\ Passed ar = true.
Proof.
  intros resp a Hn.
  destruct (serialized_lookups a) as [Htype [Hvalue [Hpath [_ Hexp]]]].
  unfold never_compared in Hn.
  apply orb_true_iff in Hn. destruct Hn as [Hn|Hn];
    [apply orb_true_iff in Hn; destruct Hn as [Hn|Hn]|];
    apply String.eqb_eq in Hn.
  - rewrite Hn in Htype.
    rewrite (status_code_without_value resp _ Htype) by (now rewrite Hvalue).
    eexists. split; reflexivity.
  - rewrite Hn in Htype.
    destruct (equals_without_value resp _ Htype Hvalue) as [r [Hr [Hp _]]].
    now exists r.
  - unfold executeAssertion. rewrite Htype, Hn. cbn [as_string].
    change ("response_time" =? "status_code") with false.
    change ("response_time" =? "exists") with false.
    change ("response_time" =? "equals") with false.
    change ("response_time" =? "json_path") with false.
    change ("response_time" =? "response_time") with true. cbv iota.
    destruct (as_float64 (lookup "expected" (serialized a)));
      eexists; split; reflexivity.
Qed.

Lemma panic_free_returns :
  forall resp a,
    panic_free a = true ->
    exists ar, executeAssertion resp (serialized a) = Done ar.
Proof.
  intros resp a Hfree.
  destruct (serialized_lookups a) as [Htype [Hvalue [Hpath [Hmatcher Hexp]]]].
  unfold executeAssertion. rewrite Htype. cbn [as_string].
  destruct (Models.Type_ a =? "status_code").
  { rewrite Hvalue. eexists. reflexivity. }
  destruct (Models.Type_ a =? "exists").
  { destruct (as_string (lookup "path" (serialized a))) as [p|];
      [destruct (array_rooted p)|]; eexists; reflexivity. }
  destruct (Models.Type_ a =? "equals").
  { rewrite Hvalue.
    destruct (as_string (lookup "path" (serialized a))) as [p|];
      [destruct (array_rooted p)|]; eexists; reflexivity. }
  destruct (Models.Type_ a =? "json_path") eqn:Hjp.
  { unfold panic_free in Hfree. rewrite Hjp in Hfree. cbn [negb orb] in Hfree.
    rewrite Hpath.
    destruct (Models.Path a =? ""); cbn [as_string];
      [eexists; reflexivity|]. cbn [orb] in Hfree.
    apply orb_true_iff in Hfree.
    destruct Hfree as [Hm|Hm]; apply String.eqb_eq in Hm;
      rewrite Hm in Hmatcher;
      [change ("exists" =? "") with false in Hmatcher
      |change ("contains" =? "") with false in Hmatcher];
      cbv iota in Hmatcher; rewrite Hmatcher; cbn [as_string].
    - change ("exists" =? "exists") with true. cbv iota.
      eexists. reflexivity.
    - change ("contains" =? "exists") with false.
      change ("contains" =? "equals") with false.
      change ("contains" =? "contains") with true. cbv iota.
      destruct (as_string (lookup "expected" (serialized a)));
        eexists; reflexivity. }
  destruct (Models.Type_ a =? "response_time").
  { destruct (as_float64 (lookup "expected" (serialized a)));
      eexists; reflexivity. }
  eexists. reflexivity.
Qed.

Lemma evaluate_all_each :
  forall resp l evaluated,
    evaluate_all resp l = Done evaluated ->
    forall a, In a l -> skipped a = false ->
              exists ar, executeAssertion resp a = Done ar.
Proof.
  intros resp l. induction l as [|x l IH]; intros evaluated Hev a Hin Hskip.
  - destruct Hin.
  - cbn [evaluate_all] in Hev. destruct Hin as [<-|Hin].
    + rewrite Hskip in Hev.
      destruct (executeAssertion resp x) as [ar|msg]; [now exists ar|].
      discriminate.
    + destruct (skipped x); [now apply (IH _ Hev)|].
      destruct (executeAssertion resp x) as [ar|msg]; cbn [bind] in Hev;
        [|discriminate].
      destruct (evaluate_all resp l) as [rs|msg]; cbn [bind] in Hev;
        [|discriminate].
      now apply (IH rs eq_refl).
Qed.

Lemma fold_record_status :
  forall evaluated result,
    Status (fold_left record evaluated result)
    = (if forallb Passed evaluated then Status result else "FAILED").
Proof.
  intros evaluated result.
  destruct (forallb Passed evaluated) eqn:Hall.
  - now destruct (fold_record_all_passed evaluated result Hall).
  - destruct (last_failing evaluated) as [ar|] eqn:Hlast.
    + now destruct (fold_record_last_failing evaluated result ar Hlast).
    + apply last_failing_none in Hlast. rewrite Hlast in Hall. discriminate.
Qed.

Lemma run_assertions_header_free :
  forall resp (l : list Models.AssertionSpec) result,
    run_assertions resp
      (map Models.AssertionSpec_json (filter (fun a => negb (header_path a)) l))
      result
    = run_assertions resp (map Models.AssertionSpec_json l) result.
Proof.
  intros resp l. induction l as [|a l IH]; intro result; [reflexivity|].
  cbn [filter map]. rewrite (AssertionSpec_json_serialized a).
  cbn [run_assertions]. rewrite skipped_serialized.
  destruct (header_path a) eqn:Hh; cbn [negb].
  - apply IH.
  - cbn [map]. rewrite (AssertionSpec_json_serialized a).
    cbn [run_assertions]. rewrite skipped_serialized, Hh.
    destruct (executeAssertion resp (serialized a)) as [ar|msg];
      cbn [bind]; [apply IH|reflexivity].
Qed.

(** X9.  Through the typed interface the executor compares nothing for
    [status_code], [equals] and [response_time] assertions: a specification
    made of such assertions only is PASSED, without an error message, on
    every response with a status below 400. *)
Theorem uncompared_specification_passes :
  forall (client : Request -> Response) (testSpec : Models.TestSpec)
         (assertions : list Models.AssertionSpec),
    (StatusCode (client (request_of testSpec)) < 400)%Z ->
    Models.Assertions testSpec = Some assertions ->
    forallb never_compared assertions = true ->
    exists result,
      ExecuteTest client testSpec = Done result
      /\ Status result = "PASSED"
      /\ ErrorMessage result = ""
      /\ forallb Passed (AssertionResults result) = true.
Proof.
  intros client testSpec assertions Hstatus Hassert Hall.
  rewrite ExecuteTest_unfold. cbv zeta.
  destruct (Z.leb_spec 400 (StatusCode (client (request_of testSpec))))
    as [Hge|_];
    [exfalso; apply (Z.lt_irrefl 400);
     now apply Z.le_lt_trans with (2 := Hstatus)|].
  rewrite Hassert.
  destruct (evaluate_all_total (client (request_of testSpec))
              (map serialized assertions)) as [evaluated Hev].
  { intros a Hin _. apply in_map_iff in Hin. destruct Hin as [x [<- Hx]].
    rewrite forallb_forall in Hall.
    destruct (never_compared_passes (client (request_of testSpec)) x
                (Hall x Hx)) as [ar [Har _]].
    now exists ar. }
  rewrite (run_assertions_evaluate_all _ _ _ _ Hev).
  assert (Hpassed : forallb Passed evaluated = true).
  { apply forallb_forall. intros ar Hin.
    apply (proj1 (evaluate_all_members _ _ _ Hev ar)) in Hin.
    destruct Hin as [a [Hin [_ Hexec]]].
    apply in_map_iff in Hin. destruct Hin as [x [<- Hx]].
    rewrite forallb_forall in Hall.
    destruct (never_compared_passes (client (request_of testSpec)) x
                (Hall x Hx)) as [ar' [Har' Hp]].
    rewrite Har' in Hexec. now injection Hexec as <-. }
  eexists. split; [reflexivity|].
  match goal with
  | |- context [fold_left record evaluated ?r0] =>
      destruct (fold_record_all_passed evaluated r0 Hpassed) as [Hs Hm]
  end.
  rewrite Hs, Hm, fold_record_results. cbn. now repeat split.
Qed.

(** X10.  [ExecuteTest] returns a result, without a panic, for every
    specification whose assertions are of a type other than [json_path], or
    are [json_path] assertions without a path or with the matcher [exists]
    or [contains]. *)
Theorem panic_free_specification_returns :
  forall (client : Request -> Response) (testSpec : Models.TestSpec),
    match Models.Assertions testSpec with
    | Some assertions => forallb panic_free assertions = true
    | None => True
    end ->
    exists result, ExecuteTest client testSpec = Done result.
Proof.
  intros client testSpec Hfree. rewrite ExecuteTest_unfold. cbv zeta.
  destruct (400 <=? StatusCode (client (request_of testSpec)))%Z;
    [eexists; reflexivity|].
  destruct (Models.Assertions testSpec) as [assertions|];
    [|eexists; reflexivity].
  destruct (evaluate_all_total (client (request_of testSpec))
              (map serialized assertions)) as [evaluated Hev].
  { intros a Hin _. apply in_map_iff in Hin. destruct Hin as [x [<- Hx]].
    rewrite forallb_forall in Hfree. now apply panic_free_returns, Hfree. }
  rewrite (run_assertions_evaluate_all _ _ _ _ Hev). eexists. reflexivity.
Qed.

(** X11.  Header-path assertions have no effect on a test: removing the
    assertions whose path is [headers] or [headers.Content-Type] from a
    specification leaves the outcome of [ExecuteTest] unchanged. *)
Theorem header_assertions_have_no_effect :
  forall (client : Request -> Response) (testSpec : Models.TestSpec)
         (assertions : list Models.AssertionSpec),
    ExecuteTest client
      (with_assertions testSpec
         (filter (fun a => negb (header_path a)) assertions))
    = ExecuteTest client (with_assertions testSpec assertions).
Proof.
  intros client testSpec assertions. rewrite !ExecuteTest_unfold.
  unfold with_assertions, request_of. cbn [Models.Request Models.Assertions
    Models.Name]. cbv zeta.
  destruct (400 <=? StatusCode _)%Z; [reflexivity|].
  apply run_assertions_header_free.
Qed.

(** X12.  The order of the assertions does not affect the verdict: two
    assertion lists with the same members give the same status, and if the
    test returns a result with one it returns a result with the other. *)
Theorem status_independent_of_order :
  forall (client : Request -> Response) (testSpec : Models.TestSpec)
         (l l' : list Models.AssertionSpec) (result : TestResult),
    (forall a, In a l <-> In a l') ->
    ExecuteTest client (with_assertions testSpec l) = Done result ->
    exists result',
      ExecuteTest client (with_assertions testSpec l') = Done result'
      /\ Status result' = Status result.
Proof.
  intros client testSpec l l' result Hsame.
  rewrite !ExecuteTest_unfold.
  unfold with_assertions, request_of. cbn [Models.Request Models.Assertions
    Models.Name]. cbv zeta.
  destruct (400 <=? StatusCode _)%Z.
  { intro Hrun. exists result. now split. }
  intro Hrun. apply run_assertions_inv in Hrun.
  destruct Hrun as [evaluated [Hev ->]].
  match type of Hev with
  | evaluate_all ?resp _ = _ =>
      destruct (evaluate_all_total resp (map serialized l')) as [evaluated' Hev']
  end.
  { intros a Hin Hskip. apply in_map_iff in Hin. destruct Hin as [x [<- Hx]].
    apply (evaluate_all_each _ _ _ Hev); [|exact Hskip].
    apply in_map. now apply Hsame. }
  rewrite (run_assertions_evaluate_all _ _ _ _ Hev').
  eexists. split; [reflexivity|]. rewrite !fold_record_status.
  assert (Heq : forallb Passed evaluated' = forallb Passed evaluated).
  { apply eq_true_iff_eq. rewrite !forallb_forall.
    split; intros Hall ar Hin.
    - apply (proj1 (evaluate_all_members _ _ _ Hev ar)) in Hin.
      destruct Hin as [a [Hin Ha]]. apply Hall.
      apply (proj2 (evaluate_all_members _ _ _ Hev' ar)).
      exists a. split; [|exact Ha].
      apply in_map_iff in Hin. destruct Hin as [x [<- Hx]].
      apply in_map. now apply Hsame.
    - apply (proj1 (evaluate_all_members _ _ _ Hev' ar)) in Hin.
      destruct Hin as [a [Hin Ha]]. apply Hall.
      apply (proj2 (evaluate_all_members _ _ _ Hev ar)).
      exists a. split; [|exact Ha].
      apply in_map_iff in Hin. destruct Hin as [x [<- Hx]].
      apply in_map. now apply Hsame. }
  now rewrite Heq.
Qed.

End TypedSpecifications.

(** * Further properties of the run orchestrator *)

Section OrchestratorRows.

Context {R : GoRuntime}.
Variable unmarshal_TestSpec : string -> string + Models.TestSpec.
Variable client : string -> Request -> Response.

#[local] Abbreviation verdict := (Services.verdict unmarshal_TestSpec client).
#[local] Abbreviation run_cases := (Services.run_cases unmarshal_TestSpec client).

Lemma rows_with_app :
  forall status rows rows',
    rows_with status (rows ++ rows')
    = (rows_with status rows + rows_with status rows')%Z.
Proof.
  intros status rows rows'. unfold rows_with.
  now rewrite filter_app, length_app, Nat2Z.inj_add.
Qed.

Lemma run_cases_panics :
  forall testCases p f rows,
    (exists tc msg, In tc testCases /\ verdict tc = Panic msg) ->
    exists rows' msg, run_cases testCases p f rows = (rows', Panic msg).
Proof.
  induction testCases as [|tc l IH]; intros p f rows [x [msg [Hin Hx]]].
  - destruct Hin.
  - cbn [Services.run_cases]. unfold Services.verdict in Hx.
    destruct Hin as [<-|Hin].
    + destruct (unmarshal_TestSpec (Models.TestSpecText tc)) as [err|spec];
        [discriminate|].
      destruct (ExecuteTest (client (Models.BaseURL tc)) spec) as [r|m];
        [discriminate|].
      now exists rows, m.
    + assert (Hl : exists tc' msg', In tc' l /\ verdict tc' = Panic msg')
        by (exists x, msg; now split).
      destruct (unmarshal_TestSpec (Models.TestSpecText tc)) as [err|spec];
        [now apply IH|].
      destruct (ExecuteTest (client (Models.BaseURL tc)) spec) as [r|m];
        [|now exists rows, m].
      destruct (TestRunner.Status r =? "FAILED"); now apply IH.
Qed.

Lemma run_cases_rows :
  forall testCases p f rows rows' p' f',
    run_cases testCases p f rows = (rows', Done (p', f')) ->
    map Services.TestCaseID rows'
    = (map Services.TestCaseID rows ++ map Models.ID testCases)%list
    /\ (p' + rows_with "passed" rows = p + rows_with "passed" rows')%Z
    /\ (f' + rows_with "failed" rows = f + rows_with "failed" rows')%Z
    /\ (Forall (fun row => Services.RowResponseData row <> ""
                           /\ (Services.RowStatus row = "passed"
                               \/ Services.RowStatus row = "failed")) rows ->
        Forall (fun row => Services.RowResponseData row <> ""
                           /\ (Services.RowStatus row = "passed"
                               \/ Services.RowStatus row = "failed")) rows').
Proof.
  induction testCases as [|tc l IH]; intros p f rows rows' p' f' Hrun.
  - cbn in Hrun. injection Hrun as <- <- <-. cbn [map].
    rewrite app_nil_r. repeat split; auto.
  - cbn [Services.run_cases] in Hrun.
    assert (Hstep : forall status message data q g,
              run_cases l q g
                (rows ++ [Services.recordTestResult (Models.ID tc) status
                            message data])%list
              = (rows', Done (p', f')) ->
              (status = "passed" /\ q = (p + 1)%Z /\ g = f) \/
              (status = "failed" /\ q = p /\ g = (f + 1)%Z) ->
              map Services.TestCaseID rows'
              = (map Services.TestCaseID rows ++ map Models.ID (tc :: l))%list
              /\ (p' + rows_with "passed" rows
                  = p + rows_with "passed" rows')%Z
              /\ (f' + rows_with "failed" rows
                  = f + rows_with "failed" rows')%Z
              /\ (Forall (fun row => Services.RowResponseData row <> ""
                            /\ (Services.RowStatus row = "passed"
                                \/ Services.RowStatus row = "failed")) rows ->
                  Forall (fun row => Services.RowResponseData row <> ""
                            /\ (Services.RowStatus row = "passed"
                                \/ Services.RowStatus row = "failed")) rows')).
    { intros status message data q g Hl Hcase.
      destruct (IH _ _ _ _ _ _ Hl) as [Hids [Hp [Hf Hok]]].
      rewrite map_app, <- app_assoc in Hids. cbn [map app] in Hids.
      rewrite !rows_with_app in Hp, Hf.
      split; [exact Hids|].
      assert (Hone : forall s,
                rows_with s [Services.recordTestResult (Models.ID tc) status
                               message data]
                = if status =? s then 1%Z else 0%Z).
      { intro s. unfold rows_with. cbn. now destruct (status =? s). }
      rewrite !Hone in Hp, Hf.
      split; [|split].
      - clear - Hp Hcase.
        destruct Hcase as [[-> [-> ->]]|[-> [-> ->]]]; cbn in Hp; lia.
      - clear - Hf Hcase.
        destruct Hcase as [[-> [-> ->]]|[-> [-> ->]]]; cbn in Hf; lia.
      - intro Hrows. apply Hok. apply Forall_app. split; [exact Hrows|].
        constructor; [|constructor]. cbn. split.
        + destruct data; cbn; discriminate.
        + destruct Hcase as [[-> _]|[-> _]]; [now left|now right]. }
    destruct (unmarshal_TestSpec (Models.TestSpecText tc)) as [err|spec].
    + apply (Hstep _ _ _ _ _ Hrun). now right.
    + destruct (ExecuteTest (client (Models.BaseURL tc)) spec) as [r|m];
        [|discriminate].
      destruct (TestRunner.Status r =? "FAILED").
      * apply (Hstep _ _ _ _ _ Hrun). now right.
      * apply (Hstep _ _ _ _ _ Hrun). now left.
Qed.

(** X13.  A batch that is empty, or in which some test panics, is stored as
    failed with zero passed and failed counts, while the total keeps the
    number of test cases found. *)
Theorem empty_or_panicking_run_fails :
  forall (name : string) (testCases : list Models.TestCase),
    testCases = [] \/
    (exists tc msg, In tc testCases /\ verdict tc = Panic msg) ->
    Services.Run
      (Services.completed_run unmarshal_TestSpec client name testCases)
    = Models.mkTestRun name "failed" (Z.of_nat (List.length testCases)) 0 0.
Proof.
  intros name testCases [->|Hpanic]; [reflexivity|].
  unfold Services.completed_run, Services.executeTests, Services.StartTestRun.
  cbn [Services.Run Services.Rows].
  destruct testCases as [|tc l]; [reflexivity|].
  destruct (run_cases_panics (tc :: l) 0%Z 0%Z [] Hpanic) as [rows [msg Hrun]].
  rewrite Hrun. reflexivity.
Qed.

(** X14.  When no test panics, the stored result rows follow the test cases
    one to one and in the order supplied, every row is passed or failed and
    holds non-empty response data, and the passed and failed counts of the
    run are the numbers of rows stored with each status. *)
Theorem rows_follow_test_cases :
  forall (name : string) (testCases : list Models.TestCase),
    testCases <> [] ->
    (forall tc, In tc testCases -> exists b, verdict tc = Done b) ->
    let store := Services.completed_run unmarshal_TestSpec client name
                   testCases in
    map Services.TestCaseID (Services.Rows store) = map Models.ID testCases
    /\ Models.PassedTests (Services.Run store)
       = rows_with "passed" (Services.Rows store)
    /\ Models.FailedTests (Services.Run store)
       = rows_with "failed" (Services.Rows store)
    /\ Forall (fun row => Services.RowResponseData row <> ""
                          /\ (Services.RowStatus row = "passed"
                              \/ Services.RowStatus row = "failed"))
              (Services.Rows store).
Proof.
  intros name testCases Hne Hall store.
  destruct (run_cases_counts unmarshal_TestSpec client testCases 0%Z 0%Z []
              Hall) as [rows [Hrun _]].
  destruct (run_cases_rows _ _ _ _ _ _ _ Hrun) as [Hids [Hp [Hf Hok]]].
  subst store.
  unfold Services.completed_run, Services.executeTests, Services.StartTestRun.
  cbn [Services.Run Services.Rows].
  destruct testCases as [|tc l]; [contradiction|].
  rewrite Hrun. cbn [Services.Run Services.Rows Services.Updates
    Models.PassedTests Models.FailedTests].
  split; [exact Hids|].
  unfold rows_with in Hp at 1. unfold rows_with in Hf at 1.
  cbn [filter List.length Z.of_nat] in Hp, Hf.
  rewrite Z.add_0_r, Z.add_0_l in Hp, Hf.
  split; [exact Hp|]. split; [exact Hf|]. apply Hok. constructor.
Qed.

End OrchestratorRows.

(** * Further properties of the curl command parser *)

Lemma set_keys :
  forall m k v k',
    In k' (keys (set m k v)) <-> k' = k \/ In k' (keys m).
Proof.
  unfold keys. induction m as [|[a b] m IH]; intros k v k'; cbn.
  - intuition congruence.
  - destruct (String.eqb_spec a k) as [->|Hne]; cbn; [intuition congruence|].
    rewrite IH. intuition congruence.
Qed.

Lemma set_NoDup :
  forall m k v, NoDup (keys m) -> NoDup (keys (set m k v)).
Proof.
  unfold keys. induction m as [|[a b] m IH]; intros k v Hm; cbn.
  - constructor; [intros []|constructor].
  - inversion Hm as [|x l Hnotin Hnodup]; subst.
    destruct (String.eqb_spec a k) as [->|Hne]; cbn.
    + now constructor.
    + constructor; [|now apply IH].
      intro Hin. apply (set_keys m k v a) in Hin.
      destruct Hin as [Heq|Hin]; [now subst|contradiction].
Qed.

Lemma get_set_same : forall m k v, get (set m k v) k = Some v.
Proof.
  induction m as [|[a b] m IH]; intros k v; cbn.
  - now rewrite String.eqb_refl.
  - destruct (String.eqb_spec a k) as [->|Hne]; cbn.
    + now rewrite String.eqb_refl.
    + destruct (String.eqb_spec a k); [contradiction|apply IH].
Qed.

Lemma get_set_other :
  forall m k v k', k' <> k -> get (set m k v) k' = get m k'.
Proof.
  induction m as [|[a b] m IH]; intros k v k' Hne; cbn.
  - destruct (String.eqb_spec k k'); [now subst|reflexivity].
  - destruct (String.eqb_spec a k) as [->|Hak]; cbn.
    + destruct (String.eqb_spec k k'); [now subst|reflexivity].
    + destruct (String.eqb_spec a k'); [reflexivity|now apply IH].
Qed.

Lemma set_values :
  forall m k v k' v',
    In (k', v') (set m k v) -> (k' = k /\ v' = v) \/ In (k', v') m.
Proof.
  induction m as [|[a b] m IH]; intros k v k' v'; cbn.
  - intros [Heq|[]]. injection Heq as <- <-. now left.
  - destruct (String.eqb_spec a k) as [->|Hne]; cbn.
    + intros [Heq|Hin]; [injection Heq as <- <-; now left|right; now right].
    + intros [Heq|Hin]; [right; now left|].
      destruct (IH _ _ _ _ Hin) as [H|H]; [now left|right; now right].
Qed.

(** A property of the request that every assignment of the token loop
    keeps holds of the request the loop ends with. *)
Lemma walk_preserves :
  forall P : CurlRequest -> Prop,
    (forall r m, P r -> P (with_Method r m)) ->
    (forall r k v, P r -> P (with_Headers r (set (Headers r) k v))) ->
    (forall r b, P r -> P (with_Body r b)) ->
    (forall r t, P r ->
       GoStrings.HasPrefix t "http://" || GoStrings.HasPrefix t "https://"
       = true -> P (with_URL r t)) ->
    (forall r t, P r -> P (with_URL r ("http://" ++ t))) ->
    forall n tokens result,
      (List.length tokens <= n)%nat ->
      P result ->
      walk_result P (walk tokens result).
Proof.
  intros P Hm Hh Hb Hu Hl.
  induction n as [|n IH]; intros tokens result Hlen HP.
  - destruct tokens; [exact HP|cbn in Hlen; inversion Hlen].
  - destruct tokens as [|t rest]; [exact HP|].
    assert (Hrest : forall r, P r -> walk_result P (walk rest r)).
    { intros r Hr. apply IH; [|exact Hr].
      cbn in Hlen. now apply le_S_n in Hlen. }
    assert (Hrest' : forall a rest' r, rest = a :: rest' -> P r ->
               walk_result P (walk rest' r)).
    { intros a rest' r -> Hr. apply IH; [|exact Hr].
      cbn in Hlen. apply le_S_n in Hlen.
      apply Nat.le_trans with (2 := Hlen). apply Nat.le_succ_diag_r. }
    cbn [walk].
    destruct (stripQuotes t) as [token|msg]; [|exact I]. cbn [bind].
    next_case; [now apply Hrest|].
    next_case.
    { destruct rest as [|a rest']; [exact I|].
      destruct (stripQuotes a) as [s|msg]; [|exact I]. cbn [bind].
      apply (Hrest' a rest' _ eq_refl). now apply Hm. }
    next_case.
    { destruct rest as [|a rest']; [exact I|].
      destruct (stripQuotes a) as [s|msg]; [|exact I]. cbn [bind].
      destruct (GoStrings.SplitN2 s ":") as [|key [|value [|]]]; try exact I.
      apply (Hrest' a rest' _ eq_refl). now apply Hh. }
    next_case; [now apply Hrest|].
    next_case.
    { destruct rest as [|a rest']; [exact I|].
      destruct (stripQuotes a) as [s|msg]; [|exact I]. cbn [bind].
      apply (Hrest' a rest' _ eq_refl). apply Hb.
      destruct (Method result =? "GET"); [now apply Hm|exact HP]. }
    next_case.
    { destruct rest as [|a rest']; [exact I|].
      destruct (stripQuotes a) as [s|msg]; [|exact I]. cbn [bind].
      assert (HP' : P (if Method result =? "GET"
                       then with_Method result "POST" else result))
        by (destruct (Method result =? "GET"); [now apply Hm|exact HP]).
      destruct (GoStrings.SplitN2 s "=") as [|key [|value [|]]];
        try (apply (Hrest' a rest' _ eq_refl); exact HP').
      match goal with
      | |- walk_result _ (if ?b then _ else _) => destruct b
      end; apply (Hrest' a rest' _ eq_refl); now apply Hb. }
    next_case.
    { destruct rest as [|a rest']; [exact I|].
      destruct (stripQuotes a) as [s|msg]; [|exact I]. cbn [bind].
      destruct (GoStrings.SplitN2 s ":") as [|key [|value [|]]];
        try (apply (Hrest' a rest' _ eq_refl); exact HP).
      apply (Hrest' a rest' _ eq_refl). now apply Hh. }
    next_case.
    { destruct rest as [|a rest']; [exact I|].
      destruct (stripQuotes a) as [s|msg]; [|exact I]. cbn [bind].
      apply (Hrest' a rest' _ eq_refl). now apply Hh. }
    next_case; [now apply Hrest|].
    next_case; [now apply Hrest|].
    next_case; [now apply Hrest|].
    next_case; [now apply Hrest|].
    next_case; [apply Hrest; now apply Hu|].
    next_case; [apply Hrest; now apply Hl|].
    now apply Hrest.
Qed.

(** The token loop returns when no token is a lone quote character. *)
Lemma walk_returns :
  forall n tokens result,
    (List.length tokens <= n)%nat ->
    strippable tokens ->
    returns (walk tokens result).
Proof.
  induction n as [|n IH]; intros tokens result Hlen Hstrip.
  - destruct tokens; [exact I|cbn in Hlen; inversion Hlen].
  - destruct tokens as [|t rest]; [exact I|].
    assert (Hrest : forall r, returns (walk rest r)).
    { intro r. apply IH.
      - cbn in Hlen. now apply le_S_n in Hlen.
      - intros x Hx. apply Hstrip. now right. }
    assert (Harg : forall a rest' (k : string -> outcome (string + CurlRequest)),
               rest = a :: rest' ->
               (forall s, (forall r, returns (walk rest' r)) -> returns (k s)) ->
               returns (s <- stripQuotes a ;; k s)).
    { intros a rest' k -> Hk.
      destruct (stripQuotes_total a (Hstrip a (or_intror (or_introl eq_refl))))
        as [s Hs].
      rewrite Hs. cbn [bind]. apply Hk. intro r. apply IH.
      - cbn in Hlen. apply le_S_n in Hlen.
        apply Nat.le_trans with (2 := Hlen). apply Nat.le_succ_diag_r.
      - intros x Hx. apply Hstrip. right. now right. }
    destruct (stripQuotes_total t (Hstrip t (or_introl eq_refl)))
      as [token Htoken].
    cbn [walk]. rewrite Htoken. cbn [bind].
    next_case; [apply Hrest|].
    next_case.
    { destruct rest as [|a rest']; [exact I|].
      apply (Harg a rest' _ eq_refl). intros s Hk. apply Hk. }
    next_case.
    { destruct rest as [|a rest']; [exact I|].
      apply (Harg a rest' _ eq_refl). intros s Hk.
      destruct (GoStrings.SplitN2 s ":") as [|key [|value [|]]];
        first [exact I|apply Hk]. }
    next_case; [apply Hrest|].
    next_case.
    { destruct rest as [|a rest']; [exact I|].
      apply (Harg a rest' _ eq_refl). intros s Hk. apply Hk. }
    next_case.
    { destruct rest as [|a rest']; [exact I|].
      apply (Harg a rest' _ eq_refl). intros s Hk.
      destruct (GoStrings.SplitN2 s "=") as [|key [|value [|]]];
        try apply Hk.
      match goal with
      | |- returns (if ?b then _ else _) => destruct b
      end; apply Hk. }
    next_case.
    { destruct rest as [|a rest']; [exact I|].
      apply (Harg a rest' _ eq_refl). intros s Hk.
      destruct (GoStrings.SplitN2 s ":") as [|key [|value [|]]]; apply Hk. }
    next_case.
    { destruct rest as [|a rest']; [exact I|].
      apply (Harg a rest' _ eq_refl). intros s Hk. apply Hk. }
    next_case; [apply Hrest|].
    next_case; [apply Hrest|].
    next_case; [apply Hrest|].
    next_case; [apply Hrest|].
    next_case; [apply Hrest|].
    next_case; [apply Hrest|].
    apply Hrest.
Qed.

Lemma lone_quote_panics_stripQuotes :
  forall t, lone_quote t = true ->
    stripQuotes t = Panic "runtime error: slice bounds out of range [1:0]".
Proof.
  intros t Hq. unfold lone_quote in Hq. unfold stripQuotes.
  apply orb_true_iff in Hq.
  destruct Hq as [Hq|Hq]; apply String.eqb_eq in Hq; rewrite Hq; reflexivity.
Qed.

Section ParserSafety.

Context {R : GoRuntime}.

(** X15.  Parsing panics only through [stripQuotes], and [stripQuotes]
    panics exactly on a token that is a single quote character once trimmed:
    a command none of whose tokens is a lone quote character is parsed into
    a request or an error. *)
Theorem parse_panics_only_on_lone_quote :
  (forall t, (exists msg, stripQuotes t = Panic msg) <-> lone_quote t = true)
  /\ (forall curlCmd,
        strippable (FindAllTokens (normalize curlCmd)) ->
        exists parsed, ParseCurlCommand curlCmd = Done parsed).
Proof.
  split.
  - intro t. split.
    + intros [msg Hmsg]. destruct (lone_quote t) eqn:Hq; [reflexivity|].
      destruct (stripQuotes_total t Hq) as [s Hs]. rewrite Hs in Hmsg.
      discriminate.
    + intro Hq. eexists. now apply lone_quote_panics_stripQuotes.
  - intros curlCmd Hstrip. unfold ParseCurlCommand.
    destruct (curlCmd =? ""); [eexists; reflexivity|]. cbv zeta.
    pose proof (walk_returns (List.length (FindAllTokens (normalize curlCmd)))
                  (FindAllTokens (normalize curlCmd))
                  (mkCurlRequest "GET" "" [] "" [] [] "" curlCmd)
                  (Nat.le_refl _) Hstrip) as Hwalk.
    destruct (FindAllTokens (normalize curlCmd)) as [|t rest];
      [eexists; reflexivity|].
    destruct (walk (t :: rest) (mkCurlRequest "GET" "" [] "" [] [] "" curlCmd))
      as [[e|r]|msg]; cbn [returns] in Hwalk; [| |contradiction];
      cbn [bind].
    + eexists. reflexivity.
    + destruct (URL r =? ""); [eexists; reflexivity|].
      unfold finish.
      destruct (GoStrings.Contains (URL r) "?");
        [destruct (url_Parse (URL r))|]; eexists; reflexivity.
Qed.

End ParserSafety.

Lemma fold_set_keys :
  forall (names : list string) (m : map_string) k,
    In k (keys (fold_left (fun m name => set m name "") names m))
    <-> In k names \/ In k (keys m).
Proof.
  induction names as [|n names IH]; intros m k; cbn [fold_left].
  - cbn. tauto.
  - rewrite IH, set_keys. cbn. intuition congruence.
Qed.

Lemma fold_set_NoDup :
  forall (names : list string) (m : map_string),
    NoDup (keys m) ->
    NoDup (keys (fold_left (fun m name => set m name "") names m)).
Proof.
  induction names as [|n names IH]; intros m Hm; cbn [fold_left];
    [exact Hm|]. apply IH. now apply set_NoDup.
Qed.

Lemma fold_set_values :
  forall (names : list string) (m : map_string) k v,
    In (k, v) (fold_left (fun m name => set m name "") names m) ->
    v = "" \/ In (k, v) m.
Proof.
  induction names as [|n names IH]; intros m k v; cbn [fold_left].
  - now right.
  - intro Hin. destruct (IH _ _ _ Hin) as [H|H]; [now left|].
    destruct (set_values _ _ _ _ _ H) as [[_ Hv]|Hm]; [now left|now right].
Qed.

Lemma fold_query_NoDup :
  forall (query : list (string * list string)) (m : map_string),
    NoDup (keys m) ->
    NoDup (keys (fold_left (fun m kv => set m (fst kv) (hd "" (snd kv)))
                           query m)).
Proof.
  induction query as [|kv query IH]; intros m Hm; cbn [fold_left];
    [exact Hm|]. apply IH. now apply set_NoDup.
Qed.

Lemma has_byte_append :
  forall c s t, has_byte c (s ++ t) = has_byte c s || has_byte c t.
Proof.
  intros c s t. induction s as [|x s IH]; cbn; [reflexivity|].
  now rewrite IH, orb_assoc.
Qed.

(** The names between braces are non-empty and hold no closing brace. *)
Lemma names_from_well_formed :
  forall s state,
    match state with
    | None => True
    | Some acc =>
        has_byte rbrace acc = false
        /\ (acc = "" -> GoStrings.HasPrefix s (str rbrace) = false)
    end ->
    forall name, In name (names_from s state) ->
                 name <> "" /\ has_byte rbrace name = false.
Proof.
  induction s as [|c s IH]; intros state Hstate name Hin.
  - destruct Hin.
  - cbn [names_from] in Hin. destruct state as [acc|].
    + destruct Hstate as [Hacc Hfirst].
      destruct (Ascii.eqb_spec c rbrace) as [->|Hc].
      * destruct Hin as [<-|Hin].
        -- split; [|exact Hacc]. intros ->.
           specialize (Hfirst eq_refl).
           unfold GoStrings.HasPrefix, str in Hfirst.
           cbn [String.prefix] in Hfirst.
           destruct (ascii_dec rbrace rbrace); [|contradiction].
           destruct s; discriminate.
        -- now apply (IH None I).
      * apply (IH (Some (acc ++ str c))); [|exact Hin]. split.
        -- rewrite has_byte_append, Hacc. cbn.
           apply Ascii.eqb_neq in Hc. change "}"%char with rbrace.
           now rewrite Hc.
        -- intro Hempty. destruct acc; discriminate.
    + destruct (Ascii.eqb c lbrace && has_byte rbrace s &&
                negb (GoStrings.HasPrefix s (str rbrace))) eqn:Hopen.
      * apply (IH (Some "")); [|exact Hin]. split; [reflexivity|].
        intros _. apply andb_true_iff in Hopen. destruct Hopen as [_ Hn].
        now apply negb_true_iff.
      * now apply (IH None I).
Qed.

Lemma classifyRequest_label :
  forall r, In (classifyRequest r) request_types.
Proof.
  intro r. unfold classifyRequest, request_types.
  repeat match goal with
         | |- context [if ?b then _ else _] => destruct b
         end; cbn; tauto.
Qed.

Lemma absolute_http : forall t, absolute ("http://" ++ t) = true.
Proof. intro t. destruct t; reflexivity. Qed.

Section ParsedRequests.

Context {R : GoRuntime}.

Lemma parse_inv :
  forall curlCmd r,
    ParseCurlCommand curlCmd = Done (inr r) ->
    exists r0,
      walk (FindAllTokens (normalize curlCmd))
           (mkCurlRequest "GET" "" [] "" [] [] "" curlCmd) = Done (inr r0)
      /\ URL r0 <> ""
      /\ finish r0 = Done (inr r).
Proof.
  intros curlCmd r. unfold ParseCurlCommand.
  destruct (curlCmd =? ""); [discriminate|]. cbv zeta.
  destruct (FindAllTokens (normalize curlCmd)) as [|t rest]; [discriminate|].
  destruct (walk (t :: rest) (mkCurlRequest "GET" "" [] "" [] [] "" curlCmd))
    as [[e|r0]|msg]; cbn [bind]; try discriminate.
  destruct (String.eqb_spec (URL r0) ""); [discriminate|].
  intro Hfin. exists r0. now repeat split.
Qed.

Lemma finish_spec :
  forall r0 r,
    finish r0 = Done (inr r) ->
    Method r = Method r0 /\ Headers r = Headers r0 /\ Body r = Body r0
    /\ RawCommand r = RawCommand r0
    /\ RequestType r = classifyRequest r
    /\ PathVariables r
       = fold_left (fun m name => set m name "") (names_from (URL r) None)
                   (PathVariables r0)
    /\ ((GoStrings.Contains (URL r0) "?" = false
         /\ URL r = URL r0 /\ QueryParams r = QueryParams r0)
        \/ (exists u,
              GoStrings.Contains (URL r0) "?" = true
              /\ url_Parse (URL r0) = inr u
              /\ URL r = Scheme u ++ "://" ++ Host u ++ UPath u
              /\ QueryParams r
                 = fold_left (fun m kv => set m (fst kv) (hd "" (snd kv)))
                             (url_Query u) (QueryParams r0))).
Proof.
  intros r0 r. unfold finish.
  destruct (GoStrings.Contains (URL r0) "?") eqn:Hq.
  - destruct (url_Parse (URL r0)) as [err|u] eqn:Hu; [discriminate|].
    intro Hr. injection Hr as <-. cbn.
    repeat (split; [reflexivity|]). right. exists u. now repeat split.
  - intro Hr. injection Hr as <-. cbn.
    repeat (split; [reflexivity|]). left. now repeat split.
Qed.

(** X16.  The header, query-parameter and path-variable maps of a parsed
    command have distinct keys: a repeated header, credential or cookie
    replaces the earlier value instead of adding a second entry. *)
Theorem parsed_maps_have_distinct_keys :
  forall curlCmd r,
    ParseCurlCommand curlCmd = Done (inr r) ->
    NoDup (keys (Headers r))
    /\ NoDup (keys (QueryParams r))
    /\ NoDup (keys (PathVariables r)).
Proof.
  intros curlCmd r Hparse.
  destruct (parse_inv curlCmd r Hparse) as [r0 [Hwalk [_ Hfin]]].
  pose proof (walk_preserves
                (fun x => NoDup (keys (Headers x)) /\ QueryParams x = []
                          /\ PathVariables x = [])
                ltac:(intros x m Hx; exact Hx)
                ltac:(intros x k v [H1 H2]; split;
                      [now apply set_NoDup|exact H2])
                ltac:(intros x b Hx; exact Hx)
                ltac:(intros x t Hx _; exact Hx)
                ltac:(intros x t Hx; exact Hx)
                (List.length (FindAllTokens (normalize curlCmd)))
                (FindAllTokens (normalize curlCmd))
                (mkCurlRequest "GET" "" [] "" [] [] "" curlCmd)
                (Nat.le_refl _)
                ltac:(cbn; repeat split; constructor)) as Hinv.
  rewrite Hwalk in Hinv. cbn [walk_result] in Hinv.
  destruct Hinv as [Hh [Hq Hp]].
  destruct (finish_spec r0 r Hfin)
    as [_ [Hheaders [_ [_ [_ [Hvars Hquery]]]]]].
  rewrite Hheaders, Hvars. split; [exact Hh|]. split.
  - destruct Hquery as [[_ [_ ->]]|[u [_ [_ [_ ->]]]]].
    + rewrite Hq. constructor.
    + apply fold_query_NoDup. rewrite Hq. constructor.
  - apply fold_set_NoDup. rewrite Hp. constructor.
Qed.

(** X17.  The path variables of a parsed command are exactly the names
    between braces in its URL, each non-empty and without a closing brace,
    and each with the empty value. *)
Theorem path_variables_are_placeholders :
  forall curlCmd r,
    ParseCurlCommand curlCmd = Done (inr r) ->
    (forall name, In name (keys (PathVariables r))
                  <-> In name (names_from (URL r) None))
    /\ (forall name value, In (name, value) (PathVariables r) ->
          value = "" /\ name <> "" /\ has_byte rbrace name = false).
Proof.
  intros curlCmd r Hparse.
  destruct (parse_inv curlCmd r Hparse) as [r0 [Hwalk [_ Hfin]]].
  pose proof (walk_preserves
                (fun x => PathVariables x = [])
                ltac:(intros x m Hx; exact Hx)
                ltac:(intros x k v Hx; exact Hx)
                ltac:(intros x b Hx; exact Hx)
                ltac:(intros x t Hx _; exact Hx)
                ltac:(intros x t Hx; exact Hx)
                (List.length (FindAllTokens (normalize curlCmd)))
                (FindAllTokens (normalize curlCmd))
                (mkCurlRequest "GET" "" [] "" [] [] "" curlCmd)
                (Nat.le_refl _) eq_refl) as Hinv.
  rewrite Hwalk in Hinv. cbn [walk_result] in Hinv.
  destruct (finish_spec r0 r Hfin) as [_ [_ [_ [_ [_ [Hvars _]]]]]].
  rewrite Hinv in Hvars. split.
  - intro name. rewrite Hvars, fold_set_keys. cbn. tauto.
  - intros name value Hin.
    assert (Hkey : In name (names_from (URL r) None)).
    { assert (Hk : In name (keys (PathVariables r)))
        by (unfold keys; apply in_map_iff; now exists (name, value)).
      rewrite Hvars, fold_set_keys in Hk. destruct Hk as [Hk|[]]. exact Hk. }
    rewrite Hvars in Hin.
    destruct (fold_set_values _ _ _ _ Hin) as [Hv|[]].
    split; [exact Hv|].
    exact (names_from_well_formed (URL r) None I name Hkey).
Qed.

(** X18.  A parsed command keeps the raw text it was parsed from, its
    request type is the label [classifyRequest] gives to its final method
    and URL, one of the eleven labels, and its URL starts with [http://] or
    [https://] unless it was rebuilt by [url.Parse] from a URL with a query
    string. *)
Theorem parsed_request_is_consistent :
  forall curlCmd r,
    ParseCurlCommand curlCmd = Done (inr r) ->
    RawCommand r = curlCmd
    /\ RequestType r = classifyRequest r
    /\ In (RequestType r) request_types
    /\ (absolute (URL r) = true
        \/ exists original u,
             GoStrings.Contains original "?" = true
             /\ absolute original = true
             /\ url_Parse original = inr u
             /\ URL r = Scheme u ++ "://" ++ Host u ++ UPath u).
Proof.
  intros curlCmd r Hparse.
  destruct (parse_inv curlCmd r Hparse) as [r0 [Hwalk [Hurl Hfin]]].
  pose proof (walk_preserves
                (fun x => RawCommand x = curlCmd
                          /\ (URL x = "" \/ absolute (URL x) = true))
                ltac:(intros x m Hx; exact Hx)
                ltac:(intros x k v Hx; exact Hx)
                ltac:(intros x b Hx; exact Hx)
                ltac:(intros x t [Hx _] Ht; split; [exact Hx|now right])
                ltac:(intros x t [Hx _]; split;
                      [exact Hx|right; apply absolute_http])
                (List.length (FindAllTokens (normalize curlCmd)))
                (FindAllTokens (normalize curlCmd))
                (mkCurlRequest "GET" "" [] "" [] [] "" curlCmd)
                (Nat.le_refl _)
                ltac:(split; [reflexivity|now left])) as Hinv.
  rewrite Hwalk in Hinv. cbn [walk_result] in Hinv.
  destruct Hinv as [Hraw [Hempty|Habs]]; [contradiction|].
  destruct (finish_spec r0 r Hfin) as [_ [_ [_ [Hr [Htype [_ Hquery]]]]]].
  split; [now rewrite Hr|]. split; [exact Htype|].
  split; [rewrite Htype; apply classifyRequest_label|].
  destruct Hquery as [[_ [-> _]]|[u [Hq [Hu [-> _]]]]]; [now left|].
  right. now exists (URL r0), u.
Qed.

End ParsedRequests.

(** X19.  Headers are last-write-wins.  A header flag whose argument has a
    colon binds the trimmed name to the trimmed value, and a credentials
    flag whose argument has a colon binds [Authorization] to [Basic]
    followed by the credentials as written; either replaces an earlier
    binding of that name and leaves the other headers, the method, the body
    and the URL as they were. *)
Theorem header_flags_bind_last :
  forall t a rest result token argument name value,
    stripQuotes t = Done token ->
    stripQuotes a = Done argument ->
    GoStrings.SplitN2 argument ":" = [name; value] ->
    (token = "-H" \/ token = "--header" \/ token = "-u" \/ token = "--user") ->
    let key := if (token =? "-H") || (token =? "--header")
               then GoStrings.TrimSpace name else "Authorization" in
    let bound := if (token =? "-H") || (token =? "--header")
                 then GoStrings.TrimSpace value else "Basic " ++ argument in
    exists result',
      walk (t :: a :: rest) result = walk rest result'
      /\ get (Headers result') key = Some bound
      /\ (forall other, other <> key ->
            get (Headers result') other = get (Headers result) other)
      /\ Method result' = Method result /\ Body result' = Body result
      /\ URL result' = URL result.
Proof.
  intros t a rest result token argument name value Ht Ha Hsplit Htoken
    key bound.
  cbn [walk]. rewrite Ht. cbn [bind].
  destruct Htoken as [ -> | [ -> | [ -> | -> ] ] ]; subst key bound; cbn;
    rewrite Ha; cbn [bind]; rewrite Hsplit;
    (eexists; split; [reflexivity|]); cbn [Headers with_Headers Method Body URL];
    (split; [apply get_set_same|]);
    (split; [intros other Ho; now apply get_set_other|]);
    repeat split; reflexivity.
Qed.

Lemma has_byte_space_free :
  forall w c, space_free w = true -> regexp_space c = true ->
              has_byte c w = false.
Proof.
  intros w c Hw Hc. unfold space_free in Hw.
  repeat (apply andb_true_iff in Hw; destruct Hw as [Hw ?]).
  unfold regexp_space in Hc.
  repeat (apply orb_true_iff in Hc; destruct Hc as [Hc|Hc]);
    apply Nat.eqb_eq in Hc;
    rewrite <- (ascii_nat_embedding c), Hc;
    now apply negb_true_iff.
Qed.

Lemma space_free_cons :
  forall c w, space_free (String c w) = true ->
              regexp_space c = false /\ space_free w = true.
Proof.
  intros c w Hw. split.
  - destruct (regexp_space c) eqn:Hc; [|reflexivity].
    pose proof (has_byte_space_free _ c Hw Hc) as Hb. cbn in Hb.
    now rewrite Ascii.eqb_refl in Hb.
  - unfold space_free in *. cbn [has_byte] in Hw.
    rewrite !negb_orb in Hw.
    repeat (apply andb_true_iff in Hw; destruct Hw as [Hw ?]).
    repeat (apply andb_true_iff; split);
      repeat match goal with
             | H : _ && _ = true |- _ =>
                 apply andb_true_iff in H; destruct H
             end; assumption.
Qed.

Lemma append_empty_r : forall s : string, s ++ "" = s.
Proof. induction s as [|c s IH]; cbn; [reflexivity|now rewrite IH]. Qed.

Lemma tokens_word_end :
  forall w acc,
    space_free w = true -> tokens_from w (InWord acc) = [acc ++ w].
Proof.
  induction w as [|c w IH]; intros acc Hw.
  - cbn. now rewrite append_empty_r.
  - destruct (space_free_cons c w Hw) as [Hc Hw'].
    cbn [tokens_from]. rewrite Hc, (IH _ Hw').
    unfold str. now rewrite append_assoc.
Qed.

Lemma tokens_word_space :
  forall w acc rest,
    space_free w = true ->
    tokens_from (w ++ String " " rest) (InWord acc)
    = (acc ++ w) :: tokens_from rest Outside.
Proof.
  induction w as [|c w IH]; intros acc rest Hw.
  - cbn. now rewrite append_empty_r.
  - destruct (space_free_cons c w Hw) as [Hc Hw'].
    change (String c w ++ String " " rest)
      with (String c (w ++ String " " rest)).
    cbn [tokens_from]. rewrite Hc, (IH _ _ Hw').
    unfold str. now rewrite append_assoc.
Qed.

Lemma tokens_word_start :
  forall c w,
    word (String c w) = true ->
    regexp_space c = false
    /\ (Ascii.eqb c quote || Ascii.eqb c dquote) = false
    /\ space_free w = true.
Proof.
  intros c w Hw. cbn [word] in Hw.
  apply andb_true_iff in Hw. destruct Hw as [Hw Hs].
  apply andb_true_iff in Hw. destruct Hw as [Hq Hd].
  destruct (space_free_cons c w Hs) as [Hc Hw'].
  split; [exact Hc|]. split; [|exact Hw'].
  apply negb_true_iff in Hq, Hd. now rewrite Hq, Hd.
Qed.

(** X20.  Tokenizing is the inverse of joining words with single spaces:
    for words without white space that do not begin with a quote
    character, the tokens of the joined text are the words. *)
Theorem tokens_of_joined_words :
  forall words : list string,
    forallb word words = true ->
    FindAllTokens (GoStrings.Join words " ") = words.
Proof.
  unfold FindAllTokens, GoStrings.Join.
  induction words as [|w words IH]; intro Hall; [reflexivity|].
  cbn [forallb] in Hall. apply andb_true_iff in Hall.
  destruct Hall as [Hw Hall]. specialize (IH Hall).
  destruct w as [|c w]; [discriminate|].
  destruct (tokens_word_start c w Hw) as [Hc [Hq Hs]].
  destruct words as [|w' words].
  - cbn [String.concat tokens_from]. rewrite Hc, Hq. cbn [andb].
    now rewrite (tokens_word_end w (str c) Hs).
  - change (String.concat " " (String c w :: w' :: words))
      with (String c (w ++ String " " (String.concat " " (w' :: words)))).
    cbn [tokens_from]. rewrite Hc, Hq. cbn [andb].
    rewrite (tokens_word_space w (str c) _ Hs). now rewrite IH.
Qed.

(** * Properties of [CleanTestSpec] *)

Lemma lookup_assign_same :
  forall m k v, lookup k (TestService.assign m k v) = Some v.
Proof.
  induction m as [|[a b] m IH]; intros k v; cbn.
  - now rewrite String.eqb_refl.
  - destruct (String.eqb_spec a k) as [->|Hne]; cbn.
    + now rewrite String.eqb_refl.
    + destruct (String.eqb_spec a k); [contradiction|apply IH].
Qed.

Lemma lookup_assign_other :
  forall m k v k', k' <> k ->
    lookup k' (TestService.assign m k v) = lookup k' m.
Proof.
  induction m as [|[a b] m IH]; intros k v k' Hne; cbn.
  - destruct (String.eqb_spec k k'); [now subst|reflexivity].
  - destruct (String.eqb_spec a k) as [->|Hak]; cbn.
    + destruct (String.eqb_spec k k'); [now subst|reflexivity].
    + destruct (String.eqb_spec a k'); [reflexivity|now apply IH].
Qed.

Lemma assign_assign :
  forall m k v v',
    TestService.assign (TestService.assign m k v) k v'
    = TestService.assign m k v'.
Proof.
  induction m as [|[a b] m IH]; intros k v v'; cbn.
  - now rewrite String.eqb_refl.
  - destruct (String.eqb_spec a k) as [->|Hne]; cbn.
    + now rewrite String.eqb_refl.
    + destruct (String.eqb_spec a k); [contradiction|]. now rewrite IH.
Qed.

Lemma cleanedAssertions_idempotent :
  forall l,
    TestService.cleanedAssertions (TestService.cleanedAssertions l)
    = TestService.cleanedAssertions l.
Proof.
  intro l. unfold TestService.cleanedAssertions.
  induction l as [|a l IH]; [reflexivity|]. cbn [filter].
  destruct (TestService.header_assertion a) eqn:Ha; cbn [negb filter].
  - exact IH.
  - rewrite Ha. cbn [negb]. now rewrite IH.
Qed.

(** X21.  [CleanTestSpec] drops exactly the assertions the executor skips:
    the cleaned list holds the assertions that are not header-path
    assertions, in their order, cleaning it again changes nothing, and the
    executor's loop gives the same outcome on the cleaned list as on the
    original one. *)
Theorem cleaning_preserves_the_outcome :
  forall (R : GoRuntime) (assertions : list json),
    (forall a, In a (TestService.cleanedAssertions assertions)
               <-> In a assertions /\ TestService.header_assertion a = false)
    /\ TestService.cleanedAssertions (TestService.cleanedAssertions assertions)
       = TestService.cleanedAssertions assertions
    /\ (forall resp result,
          run_assertions resp (TestService.cleanedAssertions assertions) result
          = run_assertions resp assertions result).
Proof.
  intros R assertions. split; [|split].
  - intro a. unfold TestService.cleanedAssertions. rewrite filter_In.
    now rewrite negb_true_iff.
  - apply cleanedAssertions_idempotent.
  - intro resp. unfold TestService.cleanedAssertions.
    induction assertions as [|a l IH]; intro result; [reflexivity|].
    cbn [filter].
    destruct a as [| | | | |m]; cbn [TestService.header_assertion negb];
      cbn [run_assertions]; try apply IH.
    change (match as_string (lookup "path" m) with
            | Some path => (path =? "headers.Content-Type") || (path =? "headers")
            | None => false
            end) with (skipped m).
    destruct (skipped m) eqn:Hs; cbn [negb].
    + apply IH.
    + cbn [run_assertions]. rewrite Hs.
      destruct (executeAssertion resp m); cbn [bind]; [apply IH|reflexivity].
Qed.

(** X22.  In the cleaned specification the other keys are untouched, and
    the assertion list is the cleaned list when some assertion remains; but
    when the list was empty or held header-path assertions only, the
    ["assertions"] key is set to a nil slice, encoded as [null] rather than
    as an empty list.  Cleaning is idempotent.  The text is returned
    unchanged, with an error, when it does not decode into a map, and
    unchanged, without one, when it has no assertion list. *)
Theorem cleaned_specification :
  forall (R : GoRuntime) (testSpec : object) (assertions : list json),
    lookup "assertions" testSpec = Some (JArray assertions) ->
    (forall k, k <> "assertions" ->
       lookup k (TestService.cleaned testSpec) = lookup k testSpec)
    /\ (TestService.cleanedAssertions assertions <> [] ->
        lookup "assertions" (TestService.cleaned testSpec)
        = Some (JArray (TestService.cleanedAssertions assertions)))
    /\ ((forall a, In a assertions -> TestService.header_assertion a = true) ->
        lookup "assertions" (TestService.cleaned testSpec) = Some JNull)
    /\ TestService.cleaned (TestService.cleaned testSpec)
       = TestService.cleaned testSpec
    /\ (forall text,
          json_Unmarshal text = Some (JObject testSpec) ->
          TestService.CleanTestSpec text
          = (json_Marshal (JObject (TestService.cleaned testSpec)), false))
    /\ (forall text,
          snd (TestService.CleanTestSpec text) = true ->
          fst (TestService.CleanTestSpec text) = text).
Proof.
  intros R testSpec assertions Hl.
  assert (Hclean : TestService.cleaned testSpec
                   = TestService.assign testSpec "assertions"
                       (match TestService.cleanedAssertions assertions with
                        | [] => JNull
                        | kept => JArray kept
                        end)).
  { unfold TestService.cleaned. now rewrite Hl. }
  split; [|split; [|split; [|split; [|split]]]].
  - intros k Hk. rewrite Hclean. now apply lookup_assign_other.
  - intro Hne. rewrite Hclean, lookup_assign_same.
    destruct (TestService.cleanedAssertions assertions);
      [contradiction|reflexivity].
  - intro Hall. rewrite Hclean, lookup_assign_same.
    destruct (TestService.cleanedAssertions assertions) as [|a kept] eqn:Hk;
      [reflexivity|].
    assert (Hin : In a (TestService.cleanedAssertions assertions))
      by (rewrite Hk; now left).
    unfold TestService.cleanedAssertions in Hin. apply filter_In in Hin.
    destruct Hin as [Hin Hh]. rewrite (Hall a Hin) in Hh. discriminate.
  - rewrite Hclean at 1. unfold TestService.cleaned at 1.
    rewrite Hclean, lookup_assign_same.
    destruct (TestService.cleanedAssertions assertions) as [|a kept] eqn:Hk.
    + reflexivity.
    + rewrite <- Hk, cleanedAssertions_idempotent, Hk.
      now rewrite assign_assign.
  - intros text Htext. unfold TestService.CleanTestSpec.
    now rewrite Htext, Hl.
  - intro text. unfold TestService.CleanTestSpec.
    destruct (json_Unmarshal text) as [[| | | | |m]|]; try reflexivity.
    destruct (lookup "assertions" m) as [[| | | | |]|]; cbn; try reflexivity.
    discriminate.
Qed.

(** * Properties of the assertion generator *)

Lemma seen_spec :
  forall (a : string) seen,
    existsb (String.eqb a) seen = true <-> In a seen.
Proof.
  intros a seen. rewrite existsb_exists. split.
  - intros [x [Hin Hx]]. apply String.eqb_eq in Hx. now subst.
  - intro Hin. exists a. split; [exact Hin|apply String.eqb_refl].
Qed.

Lemma unique_from_spec :
  forall l seen,
    (forall x, In x (Generator.unique_from l seen)
               <-> In x l /\ ~ In x seen)
    /\ NoDup (Generator.unique_from l seen).
Proof.
  induction l as [|a l IH]; intro seen; cbn [Generator.unique_from].
  - split; [intro x; cbn; tauto|constructor].
  - destruct (existsb (String.eqb a) seen) eqn:Hs.
    + apply seen_spec in Hs. destruct (IH seen) as [Hin Hnd].
      split; [|exact Hnd]. intro x. rewrite Hin. cbn.
      split; [tauto|]. intros [[<-|Hx] Hn]; [contradiction|tauto].
    + assert (Hn : ~ In a seen).
      { intro Hin. apply seen_spec in Hin. rewrite Hin in Hs. discriminate. }
      destruct (IH (a :: seen)) as [Hin Hnd]. split.
      * intro x. cbn [In]. rewrite Hin. cbn [In]. split.
        -- intros [<-|[Hx Hnx]]; [tauto|]. tauto.
        -- intros [[<-|Hx] Hnx]; [now left|].
           destruct (String.eqb_spec a x) as [->|Hax]; [now left|].
           right. split; [exact Hx|]. intros [Heq|Hsx]; contradiction.
      * constructor; [|exact Hnd]. rewrite Hin. cbn. tauto.
Qed.

Lemma unique_from_NoDup_input :
  forall l seen,
    NoDup l -> (forall x, In x l -> ~ In x seen) ->
    Generator.unique_from l seen = l.
Proof.
  induction l as [|a l IH]; intros seen Hnd Hseen; [reflexivity|].
  cbn [Generator.unique_from]. inversion Hnd as [|x l' Hnotin Hnd']; subst.
  destruct (existsb (String.eqb a) seen) eqn:Hs.
  - apply seen_spec in Hs. exfalso. now apply (Hseen a (or_introl eq_refl)).
  - f_equal. apply IH; [exact Hnd'|].
    intros x Hx [<-|Hin]; [contradiction|].
    now apply (Hseen x (or_intror Hx)).
Qed.

(** X23.  The duplicate removal at the end of the generator keeps exactly
    the formatted assertions that occur, each once, is the identity on a
    list without duplicates, and so changes nothing when applied twice. *)
Theorem uniqueAssertions_removes_duplicates :
  forall formatted : list string,
    NoDup (Generator.uniqueAssertions formatted)
    /\ (forall x, In x (Generator.uniqueAssertions formatted)
                  <-> In x formatted)
    /\ (NoDup formatted -> Generator.uniqueAssertions formatted = formatted)
    /\ Generator.uniqueAssertions (Generator.uniqueAssertions formatted)
       = Generator.uniqueAssertions formatted.
Proof.
  intro formatted. unfold Generator.uniqueAssertions.
  destruct (unique_from_spec formatted []) as [Hin Hnd].
  split; [exact Hnd|]. split; [|split].
  - intro x. rewrite Hin. cbn. tauto.
  - intro Hf. apply unique_from_NoDup_input; [exact Hf|]. intros x _ [].
  - apply unique_from_NoDup_input; [exact Hnd|]. intros x _ [].
Qed.

(** * The generator against the executor *)

Lemma decimal_of_uint_acc :
  forall d acc,
    GJSON.decimal (NilEmpty.string_of_uint d) (Pos.to_nat acc)
    = Pos.to_nat (Pos.of_uint_acc d acc).
Proof.
  induction d; intro acc;
    cbn [NilEmpty.string_of_uint GJSON.decimal Pos.of_uint_acc];
    [reflexivity|..]; rewrite <- IHd; f_equal;
    match goal with |- context [nat_of_ascii ?c - 48] =>
      let k := eval vm_compute in (nat_of_ascii c - 48) in
      change (nat_of_ascii c - 48) with k
    end; lia.
Qed.

Lemma decimal_of_uint :
  forall d,
    GJSON.decimal (NilEmpty.string_of_uint d) 0 = N.to_nat (Pos.of_uint d).
Proof.
  induction d; cbn [NilEmpty.string_of_uint GJSON.decimal Pos.of_uint];
    [reflexivity|exact IHd|..];
    match goal with |- context [nat_of_ascii ?c - 48] =>
      let k := eval vm_compute in (10 * 0 + (nat_of_ascii c - 48)) in
      change (10 * 0 + (nat_of_ascii c - 48)) with (Pos.to_nat (Pos.of_nat k))
    end; apply decimal_of_uint_acc.
Qed.

Lemma all_digits_of_uint :
  forall d, GJSON.all_digits (NilEmpty.string_of_uint d) = true.
Proof. induction d; cbn; auto. Qed.

(** The text of a non-negative index is a non-empty run of digits that
    reads back as the index. *)
Lemma fmt_d_index :
  forall i, (0 <= i)%Z ->
    GoStrings.fmt_d i <> ""
    /\ GJSON.all_digits (GoStrings.fmt_d i) = true
    /\ GJSON.decimal (GoStrings.fmt_d i) 0 = Z.to_nat i.
Proof.
  intros [|p|p] Hi; [repeat split; discriminate| |lia].
  unfold GoStrings.fmt_d. cbn [Z.to_int NilZero.string_of_int].
  assert (Hs : NilZero.string_of_uint (Pos.to_uint p)
               = NilEmpty.string_of_uint (Pos.to_uint p)).
  { unfold NilZero.string_of_uint.
    destruct (Pos.to_uint p) eqn:Hp; try reflexivity.
    now apply Unsigned.to_uint_nonnil in Hp. }
  rewrite Hs. split; [|split].
  - destruct (Pos.to_uint p) eqn:Hp; try discriminate.
    all: now apply Unsigned.to_uint_nonnil in Hp.
  - apply all_digits_of_uint.
  - rewrite decimal_of_uint, DecimalPos.Unsigned.of_to. reflexivity.
Qed.

Lemma digits_exclude :
  forall c s,
    GJSON.is_digit c = false -> GJSON.all_digits s = true ->
    CurlParser.has_byte c s = false.
Proof.
  intros c s Hc. induction s as [|a s IH]; cbn; intro Hs; [reflexivity|].
  apply andb_true_iff in Hs. destruct Hs as [Ha Hs].
  destruct (Ascii.eqb_spec a c) as [->|Hne]; [congruence|]. now apply IH.
Qed.

Lemma plain_exclude :
  forall c s,
    GJSON.plain_byte c = false -> GJSON.plain_part s = true ->
    CurlParser.has_byte c s = false.
Proof.
  intros c s Hc. induction s as [|a s IH]; cbn [GJSON.plain_part CurlParser.has_byte];
    intro Hs; [reflexivity|].
  apply andb_true_iff in Hs. destruct Hs as [Ha Hs].
  destruct (Ascii.eqb_spec a c) as [->|Hne]; [congruence|]. now apply IH.
Qed.

Lemma digits_plain :
  forall s, GJSON.all_digits s = true -> GJSON.plain_part s = true.
Proof.
  induction s as [|a s IH]; cbn [GJSON.all_digits GJSON.plain_part];
    intro Hs; [reflexivity|].
  apply andb_true_iff in Hs. destruct Hs as [Ha Hs].
  rewrite (IH Hs), andb_true_r. unfold GJSON.plain_byte. now rewrite Ha.
Qed.

Lemma split_dots_plain :
  forall s cur,
    CurlParser.has_byte "." s = false -> GJSON.split_dots s cur = [cur ++ s].
Proof.
  induction s as [|a s IH]; intros cur Hs; cbn [GJSON.split_dots].
  - now rewrite append_empty_r.
  - cbn [CurlParser.has_byte] in Hs. apply orb_false_iff in Hs.
    destruct Hs as [Ha Hs]. rewrite Ha, (IH _ Hs), append_assoc. reflexivity.
Qed.

Lemma split_dots_app :
  forall s t cur,
    GJSON.split_dots (s ++ String "." t) cur
    = (GJSON.split_dots s cur ++ GJSON.split_dots t "")%list.
Proof.
  induction s as [|a s IH]; intros t cur.
  - reflexivity.
  - cbn [append GJSON.split_dots].
    destruct (Ascii.eqb a "."); [cbn; f_equal|]; apply IH.
Qed.

Lemma descend_app :
  forall ps qs v,
    GJSON.descend v (ps ++ qs)%list
    = match GJSON.descend v ps with
      | Some v' => GJSON.descend v' qs
      | None => None
      end.
Proof.
  induction ps as [|p ps IH]; intros qs v; [reflexivity|].
  cbn [app GJSON.descend]. destruct (GJSON.child v p); [apply IH|reflexivity].
Qed.

Lemma resolve_step :
  forall doc path part v x,
    GJSON.resolve doc path = Some v ->
    GJSON.plain_part part = true ->
    GJSON.child v part = Some x ->
    GJSON.resolve doc (path ++ String "." part) = Some x.
Proof.
  intros [root|] path part v x Hres Hpart Hchild; [|discriminate].
  unfold GJSON.resolve in *.
  rewrite split_dots_app, descend_app, Hres.
  rewrite split_dots_plain by (now apply plain_exclude).
  cbn [append GJSON.descend]. now rewrite Hchild.
Qed.

Lemma plain_bracket_free :
  forall s, GJSON.plain_part s = true -> bracket_free s = true.
Proof.
  intros s Hs. unfold bracket_free.
  now rewrite !plain_exclude.
Qed.

Lemma fullPath_field :
  forall path k,
    GJSON.plain_part k = true ->
    fullPath (path ++ "." ++ k) = fullPath path ++ String "." k.
Proof.
  intros path k Hk. unfold fullPath.
  rewrite dotPath_app, (dotPath_app "." k), append_assoc.
  rewrite (dotPath_bracket_free k) by (now apply plain_bracket_free).
  reflexivity.
Qed.

Lemma fullPath_index :
  forall path d,
    GJSON.all_digits d = true ->
    fullPath (path ++ "[" ++ d ++ "]") = fullPath path ++ String "." d.
Proof.
  intros path d Hd. unfold fullPath.
  rewrite dotPath_app, (dotPath_app "[" (d ++ "]")), (dotPath_app d "]").
  rewrite (dotPath_bracket_free d)
    by (now apply plain_bracket_free, digits_plain).
  change (dotPath "[") with ".". change (dotPath "]") with "".
  now rewrite append_empty_r, append_assoc.
Qed.

Lemma existsb_eqb_In :
  forall (k : string) l, In k l -> existsb (String.eqb k) l = true.
Proof.
  intros k l Hin. apply existsb_exists. exists k.
  split; [exact Hin|apply String.eqb_refl].
Qed.

Lemma lookup_distinct :
  forall m k v,
    distinct (map fst m) = true -> In (k, v) m -> lookup k m = Some v.
Proof.
  induction m as [|[a b] m IH]; intros k v Hd Hin; [contradiction|].
  cbn [map fst distinct] in Hd. apply andb_true_iff in Hd.
  destruct Hd as [Ha Hd]. cbn [lookup]. destruct Hin as [Heq|Hin].
  - injection Heq as -> ->. now rewrite String.eqb_refl.
  - destruct (String.eqb_spec a k) as [->|Hne]; [|now apply IH].
    rewrite (existsb_eqb_In k (map fst m)) in Ha; [discriminate|].
    change k with (fst (k, v)). now apply in_map.
Qed.

Lemma indexed_spec :
  forall l k i x,
    In (i, x) (Generator.indexed k l) ->
    (k <= i)%Z /\ nth_error l (Z.to_nat (i - k)) = Some x.
Proof.
  induction l as [|a l IH]; intros k i x Hin; [contradiction|].
  cbn [Generator.indexed] in Hin. destruct Hin as [Heq|Hin].
  - injection Heq as -> ->. split; [lia|]. now rewrite Z.sub_diag.
  - apply IH in Hin. destruct Hin as [Hle Hnth]. split; [lia|].
    replace (Z.to_nat (i - k)) with (S (Z.to_nat (i - (k + 1)))) by lia.
    exact Hnth.
Qed.

Lemma firstn_members :
  forall (A : Type) n (l : list A) x, In x (firstn n l) -> In x l.
Proof.
  intros A n. induction n as [|n IH]; intros [|a l] x Hin;
    try contradiction.
  cbn [firstn] in Hin. destruct Hin as [->|Hin]; [now left|].
  right. now apply IH.
Qed.

Lemma array_rooted_app :
  forall path rest, array_rooted path = true -> array_rooted (path ++ rest) = true.
Proof.
  intros [|c path] rest H; [discriminate|]. exact H.
Qed.

Lemma array_rooted_nonempty :
  forall path, array_rooted path = true -> (path =? "") = false.
Proof. intros [|c path] H; [discriminate|reflexivity]. Qed.

Section GeneratedAssertions.

Variable resp : Response.
Variable maxArraySize : Z.
Variable includeNulls : bool.

Lemma level_holds :
  forall nested : json -> string -> list Generator.Assertion,
    (forall x p a,
        array_rooted p = true ->
        GJSON.resolve (envelope resp) (fullPath p) = Some x ->
        well_formed x = true ->
        In a (nested x p) -> holds_in resp a) ->
    forall v path a,
      array_rooted path = true \/ path = "" /\ (exists l, v = JArray l) ->
      GJSON.resolve (envelope resp) (fullPath path) = Some v ->
      well_formed v = true ->
      In a (Generator.level nested maxArraySize includeNulls v path) ->
      holds_in resp a.
Proof.
  intros nested Hnested v path a Hanchor Hres Hwf Hin.
  assert (Hself : array_rooted path = true ->
                  holds_in resp (Generator.exists_at path)).
  { intro Hroot. split; [exact Hroot|]. exists v. split; [exact Hres|].
    left. split; reflexivity. }
  assert (Hleaf : scalar v = true -> (path =? "") = false ->
                  holds_in resp (Generator.equals_at path v)).
  { intros Hs Hne. destruct Hanchor as [Hroot|[-> _]]; [|discriminate].
    split; [exact Hroot|]. exists v. split; [exact Hres|].
    right. repeat split; assumption. }
  assert (Hleaf' : forall l, In a l ->
            l = (if path =? "" then [] else [Generator.equals_at path v]) ->
            scalar v = true -> holds_in resp a).
  { intros l Hl -> Hs. destruct (path =? "") eqn:Hp; [contradiction|].
    destruct Hl as [<-|[]]. now apply Hleaf. }
  destruct v as [|b|f|s|l|m]; cbn [Generator.level] in Hin.
  - destruct (includeNulls && negb (path =? "")) eqn:Hc; [|contradiction].
    destruct Hin as [<-|[]]. apply Hleaf; [reflexivity|].
    apply andb_true_iff in Hc. now apply negb_true_iff.
  - now apply (Hleaf' _ Hin).
  - now apply (Hleaf' _ Hin).
  - now apply (Hleaf' _ Hin).
  - apply in_app_or in Hin. destruct Hin as [Hin|Hin].
    + destruct (path =? "") eqn:Hp; [contradiction|]. destruct Hin as [<-|[]].
      destruct Hanchor as [Hroot|[-> _]]; [now apply Hself|discriminate].
    + apply in_flat_map in Hin. destruct Hin as [[i x] [Hix Hin]].
      apply firstn_members, indexed_spec in Hix.
      destruct Hix as [Hi Hnth]. rewrite Z.sub_0_r in Hnth.
      destruct (fmt_d_index i Hi) as [Hne [Hdigits Hdec]].
      cbn [fst snd] in Hin.
      assert (Hroot : array_rooted (path ++ "[" ++ GoStrings.fmt_d i ++ "]")
                      = true).
      { destruct Hanchor as [Hroot|[-> _]];
          [now apply array_rooted_app|reflexivity]. }
      assert (Hx : GJSON.resolve (envelope resp)
                     (fullPath (path ++ "[" ++ GoStrings.fmt_d i ++ "]"))
                   = Some x).
      { rewrite fullPath_index by exact Hdigits.
        apply (resolve_step _ _ _ (JArray l));
          [exact Hres|now apply digits_plain|].
        cbn [GJSON.child]. rewrite Hdigits, Hdec.
        destruct (GoStrings.fmt_d i =? "") eqn:He;
          [now apply String.eqb_eq in He|exact Hnth]. }
      assert (Hwfx : well_formed x = true).
      { cbn [well_formed] in Hwf. rewrite forallb_forall in Hwf.
        apply Hwf. now apply nth_error_In in Hnth. }
      destruct Hin as [<-|Hin].
      * split; [exact Hroot|]. exists x. split; [exact Hx|].
        left. split; reflexivity.
      * now apply (Hnested x _ a Hroot Hx Hwfx).
  - destruct Hanchor as [Hroot|[_ [l Hl]]]; [|discriminate].
    rewrite (array_rooted_nonempty _ Hroot) in Hin.
    apply in_app_or in Hin. destruct Hin as [[<-|[]]|Hin]; [now apply Hself|].
    apply in_flat_map in Hin. destruct Hin as [[k x] [Hkx Hin]].
    cbn [fst snd] in Hin. cbn [well_formed] in Hwf.
    apply andb_true_iff in Hwf. destruct Hwf as [Hd Hall].
    rewrite forallb_forall in Hall. pose proof (Hall _ Hkx) as Hk.
    cbn [fst snd] in Hk. apply andb_true_iff in Hk. destruct Hk as [Hk Hwfx].
    apply andb_true_iff in Hk. destruct Hk as [_ Hplain].
    assert (Hroot' : array_rooted (path ++ "." ++ k) = true)
      by now apply array_rooted_app.
    assert (Hx : GJSON.resolve (envelope resp) (fullPath (path ++ "." ++ k))
                 = Some x).
    { rewrite fullPath_field by exact Hplain.
      apply (resolve_step _ _ _ (JObject m)); [exact Hres|exact Hplain|].
      cbn [GJSON.child]. now apply lookup_distinct. }
    destruct Hin as [<-|Hin].
    + split; [exact Hroot'|]. exists x. split; [exact Hx|].
      left. split; reflexivity.
    + now apply (Hnested x _ a Hroot' Hx Hwfx).
Qed.

Lemma generate_holds :
  forall depth v path a,
    array_rooted path = true \/ path = "" /\ (exists l, v = JArray l) ->
    GJSON.resolve (envelope resp) (fullPath path) = Some v ->
    well_formed v = true ->
    In a (Generator.generate depth maxArraySize includeNulls v path) ->
    holds_in resp a.
Proof.
  induction depth as [|d IH]; intros v path a Hanchor Hres Hwf Hin.
  - apply (level_holds (fun _ _ => [])) with (v := v) (path := path);
      try assumption.
    intros x p a' _ _ _ [].
  - apply (level_holds
             (fun value currentPath =>
                Generator.generate d maxArraySize includeNulls value
                                   currentPath))
      with (v := v) (path := path); try assumption.
    intros x p a' Hroot Hx Hwfx Hin'. apply (IH x p a'); auto.
Qed.

End GeneratedAssertions.

Lemma iface_eq_refl :
  forall v, scalar v = true -> well_formed v = true -> iface_eq v v = Done true.
Proof.
  intros [|b|f|s|l|m] Hs Hwf; try discriminate; cbn [iface_eq].
  - reflexivity.
  - now rewrite Bool.eqb_reflx.
  - cbn [well_formed] in Hwf. now rewrite Hwf.
  - now rewrite String.eqb_refl.
Qed.

Lemma holds_in_passes :
  forall (R : GoRuntime) resp a m,
    holds_in resp a -> written a m ->
    exists r,
      executeAssertion resp m = Done r /\ Passed r = true /\ Message r = "".
Proof.
  intros R resp a m [Hroot [v [Hres Hcase]]] [Hty [Hpa Hval]].
  assert (Hex : GJSON.Exists (GJSON.located v) = true)
    by (destruct v as [|[|]| | | |]; reflexivity).
  destruct Hcase as [[Ht Hv]|[Ht [Hv [Hs Hwf]]]]; rewrite Ht in Hty.
  - rewrite (exists_unfold R resp m _ Hty Hpa). cbv zeta.
    unfold normalizePath. rewrite Hroot. unfold GJSON.Get.
    rewrite Hres, Hex. eexists. repeat split.
  - rewrite (equals_unfold resp m _ Hty Hpa). cbv zeta.
    unfold normalizePath. rewrite Hroot.
    destruct Hval as [Hval|[_ Hval]]; rewrite Hval.
    + unfold compare, GJSON.Get. rewrite Hres, Value_located, Hv.
      rewrite (iface_eq_refl v Hs Hwf). cbn [bind].
      eexists. repeat split.
    + eexists. repeat split.
Qed.

(** X24.  Round trip between the generator and the executor, for a list
    body.  Every assertion the generator derives from a response body that
    is a JSON array passes when the executor evaluates it against a response
    with that body, whatever the depth and array limits of the generator:
    the generated paths begin with an index, which the executor resolves
    under ["body"]. *)
Theorem generated_assertions_pass_on_list_body :
  forall (R : GoRuntime) (ag : Generator.AssertionGenerator)
         (resp : Response) (elements : list json)
         (a : Generator.Assertion) (m : object),
    TestRunner.Body resp = JArray elements ->
    well_formed (TestRunner.Body resp) = true ->
    In a (Generator.GenerateAssertions ag (TestRunner.Body resp) "") ->
    written a m ->
    exists r,
      executeAssertion resp m = Done r /\ Passed r = true /\ Message r = "".
Proof.
  intros R ag resp elements a m Hbody Hwf Hin Hw.
  apply (holds_in_passes R resp a m); [|exact Hw].
  unfold Generator.GenerateAssertions in Hin.
  refine (generate_holds resp _ _ _ _ _ _ _ _ _ Hin).
  - right. split; [reflexivity|]. now exists elements.
  - reflexivity.
  - exact Hwf.
Qed.

Lemma plain_key_not_array_rooted :
  forall key, GJSON.plain_part key = true -> array_rooted key = false.
Proof.
  intros [|c key] Hk; [reflexivity|].
  cbn [GJSON.plain_part] in Hk. apply andb_true_iff in Hk.
  destruct Hk as [Hc _].
  destruct c as [[|] [|] [|] [|] [|] [|] [|] [|]];
    try reflexivity; discriminate Hc.
Qed.

Lemma plain_key_missing :
  forall (R : GoRuntime) resp key m,
    key <> "" -> GJSON.plain_part key = true -> envelope_key key = false ->
    written (Generator.exists_at key) m ->
    executeAssertion resp m
    = Done (mkAssertionResult "exists" key "exists" go_nil go_nil false
              ("JSON path '" ++ key ++ "' does not exist")).
Proof.
  intros R resp key m Hne Hplain Henv [Hty [Hpa _]].
  cbn [Generator.exists_at Generator.Type_ Generator.Path] in Hty, Hpa.
  rewrite (exists_unfold R resp m key Hty Hpa). cbv zeta.
  unfold normalizePath. rewrite (plain_key_not_array_rooted key Hplain).
  assert (Hres : GJSON.resolve (envelope resp) key = None).
  { unfold envelope, GJSON.resolve.
    rewrite split_dots_plain by (now apply plain_exclude).
    cbn [append GJSON.descend GJSON.child responseData lookup].
    unfold envelope_key in Henv.
    apply orb_false_iff in Henv. destruct Henv as [Henv Hs].
    apply orb_false_iff in Henv. destruct Henv as [Hb Hh].
    rewrite (String.eqb_sym "body"), Hb, (String.eqb_sym "headers"), Hh,
      (String.eqb_sym "status_code"), Hs. reflexivity. }
  unfold GJSON.Get. rewrite Hres. reflexivity.
Qed.

(** X25.  The generator and the executor disagree on object bodies.  For
    every non-empty key made of letters, digits, [_] and [-] of a response
    body that is a JSON object the generator emits an [exists] assertion
    whose path is the key alone; the executor resolves
    such a path in the map of status code, headers and body and not in the
    body, so, unless the key is one of ["body"], ["headers"] and
    ["status_code"], the assertion fails against the very response it was
    generated from. *)
Theorem object_body_assertions_fail :
  forall (R : GoRuntime) (ag : Generator.AssertionGenerator)
         (resp : Response) (body : object) (key : string) (x : json)
         (m : object),
    TestRunner.Body resp = JObject body ->
    In (key, x) body ->
    key <> "" -> GJSON.plain_part key = true -> envelope_key key = false ->
    written (Generator.exists_at key) m ->
    In (Generator.exists_at key)
       (Generator.GenerateAssertions ag (TestRunner.Body resp) "")
    /\ executeAssertion resp m
       = Done (mkAssertionResult "exists" key "exists" go_nil go_nil false
                 ("JSON path '" ++ key ++ "' does not exist")).
Proof.
  intros R ag resp body key x m Hbody Hin Hne Hplain Henv Hw.
  split; [|now apply plain_key_missing].
  rewrite Hbody. unfold Generator.GenerateAssertions.
  assert (Hlevel : forall nested,
            In (Generator.exists_at key)
               (Generator.level nested (Generator.MaxArraySize ag)
                  (Generator.IncludeNulls ag) (JObject body) "")).
  { intro nested. cbn [Generator.level]. cbn [String.eqb app].
    apply in_flat_map. exists (key, x). split; [exact Hin|]. now left. }
  destruct (Z.to_nat (Generator.MaxDepth ag)); apply Hlevel.
Qed.

(** X26.  The three common assertions the generator's [main] appends to
    every output ([exists] of ["data"], ["message"] and ["status"]) fail on
    every response: none of them names a key of the map the executor
    resolves paths in. *)
Theorem common_assertions_always_fail :
  forall (R : GoRuntime) (resp : Response) (a : Generator.Assertion)
         (m : object),
    In a Generator.GenerateCommonAssertions ->
    written a m ->
    executeAssertion resp m
    = Done (mkAssertionResult "exists" (Generator.Path a) "exists"
              go_nil go_nil false
              ("JSON path '" ++ Generator.Path a ++ "' does not exist")).
Proof.
  intros R resp a m Hin Hw.
  destruct Hin as [<-|[<-|[<-|[]]]];
    (apply plain_key_missing; [discriminate|reflexivity|reflexivity|exact Hw]).
Qed.

(** * Quoted tokens *)

Lemma length_append :
  forall a b, String.length (a ++ b) = String.length a + String.length b.
Proof.
  induction a as [|c a IH]; intro b; cbn; [reflexivity|]. now rewrite IH.
Qed.

Lemma length_drop :
  forall m s, String.length (GoStrings.drop m s) = String.length s - m.
Proof.
  induction m as [|m IH]; intros [|c s]; cbn [GoStrings.drop String.length];
    try reflexivity.
  apply IH.
Qed.

Lemma drop_append :
  forall m a b,
    m <= String.length a ->
    GoStrings.drop m (a ++ b) = GoStrings.drop m a ++ b.
Proof.
  induction m as [|m IH]; intros a b Hm; [reflexivity|].
  destruct a as [|c a]; cbn [String.length] in Hm; [lia|].
  cbn [append GoStrings.drop]. apply IH. lia.
Qed.

Lemma substring_prefix :
  forall a b, substring 0 (String.length a) (a ++ b) = a.
Proof.
  induction a as [|c a IH]; intro b; cbn [String.length append substring].
  - destruct b; reflexivity.
  - now rewrite IH.
Qed.

Lemma substring_last :
  forall a c,
    substring (String.length a) 1 (a ++ String c "") = String c "".
Proof.
  induction a as [|x a IH]; intro c; [reflexivity|].
  cbn [String.length append substring]. apply IH.
Qed.

Lemma space_width_quoted_head :
  forall q rest,
    q = CurlParser.quote \/ q = CurlParser.dquote ->
    GoStrings.space_width (String q rest) = 0.
Proof.
  intros q rest [->| ->]; destruct rest as [|c1 [|c2 r]]; reflexivity.
Qed.

Lemma space_width_bound : forall s, GoStrings.space_width s <= 3.
Proof.
  intros [|c [|c1 [|c2 r]]]; cbn [GoStrings.space_width]; cbv zeta;
    repeat match goal with
           | |- context [if ?b then _ else _] => destruct b
           end; lia.
Qed.

Lemma space_width_quoted_end :
  forall pre q,
    q = CurlParser.quote \/ q = CurlParser.dquote ->
    GoStrings.space_width (pre ++ String q "")
    <> String.length (pre ++ String q "").
Proof.
  intros pre q Hq.
  destruct pre as [|a [|b [|c pre]]].
  - cbn [append]. rewrite (space_width_quoted_head q "" Hq). discriminate.
  - cbn [append String.length]. cbn [GoStrings.space_width]. cbv zeta.
    destruct ((9 <=? nat_of_ascii a) && (nat_of_ascii a <=? 13)
              || (nat_of_ascii a =? 32))%nat; [discriminate|].
    assert (Hn : ((nat_of_ascii q =? 133) || (nat_of_ascii q =? 160))%nat
                 = false) by (destruct Hq as [->| ->]; reflexivity).
    rewrite Hn, andb_false_r. discriminate.
  - cbn [append String.length]. cbn [GoStrings.space_width]. cbv zeta.
    destruct ((9 <=? nat_of_ascii a) && (nat_of_ascii a <=? 13)
              || (nat_of_ascii a =? 32))%nat; [discriminate|].
    destruct ((nat_of_ascii a =? 194)
              && ((nat_of_ascii b =? 133) || (nat_of_ascii b =? 160)))%nat;
      [discriminate|].
    assert (H1 : (nat_of_ascii q =? 128)%nat = false)
      by (destruct Hq as [->| ->]; reflexivity).
    assert (H2 : (((128 <=? nat_of_ascii q) && (nat_of_ascii q <=? 138)
                   || (nat_of_ascii q =? 168) || (nat_of_ascii q =? 169)
                   || (nat_of_ascii q =? 175)))%nat = false)
      by (destruct Hq as [->| ->]; reflexivity).
    assert (H3 : (nat_of_ascii q =? 159)%nat = false)
      by (destruct Hq as [->| ->]; reflexivity).
    rewrite H1, H2, H3, !andb_false_r. discriminate.
  - pose proof (space_width_bound
                  (String a (String b (String c pre)) ++ String q "")) as Hb.
    cbn [append String.length] in *. rewrite length_append.
    cbn [String.length]. lia.
Qed.

Lemma space_suffix_quoted :
  forall pre q,
    q = CurlParser.quote \/ q = CurlParser.dquote ->
    GoStrings.space_suffix (pre ++ String q "") = 0.
Proof.
  intros pre q Hq. unfold GoStrings.space_suffix.
  assert (Hk : forall k, 1 <= k ->
            ((k <=? String.length (pre ++ String q ""))
             && (GoStrings.space_width
                   (GoStrings.drop (String.length (pre ++ String q "") - k)
                                   (pre ++ String q "")) =? k))%nat = false).
  { intros k Hk. rewrite length_append. cbn [String.length].
    destruct (Nat.leb_spec k (String.length pre + 1)) as [Hle|Hgt];
      [|reflexivity].
    cbn [andb]. apply Nat.eqb_neq.
    rewrite drop_append by lia.
    pose proof (space_width_quoted_end
                  (GoStrings.drop (String.length pre + 1 - k) pre) q Hq) as Hn.
    rewrite length_append, length_drop in Hn. cbn [String.length] in Hn.
    intro Heq. apply Hn. rewrite Heq. lia. }
  cbv zeta. rewrite (Hk 1), (Hk 2), (Hk 3) by lia. reflexivity.
Qed.

Lemma TrimSpace_quoted :
  forall q s,
    q = CurlParser.quote \/ q = CurlParser.dquote ->
    GoStrings.TrimSpace (String q (s ++ String q ""))
    = String q (s ++ String q "").
Proof.
  intros q s Hq. unfold GoStrings.TrimSpace. cbv zeta.
  assert (Hl : GoStrings.trim_left
                 (String.length (String q (s ++ String q "")))
                 (String q (s ++ String q ""))
               = String q (s ++ String q "")).
  { cbn [String.length GoStrings.trim_left].
    now rewrite (space_width_quoted_head q _ Hq). }
  rewrite Hl. cbn [String.length GoStrings.trim_right].
  change (String q (s ++ String q "")) with (String q s ++ String q "").
  now rewrite (space_suffix_quoted (String q s) q Hq).
Qed.

(** X27.  A token enclosed in a pair of single or of double quotes is
    stripped of exactly that pair, whatever it holds: white space and quote
    characters inside the pair are kept. *)
Theorem stripQuotes_removes_one_pair :
  forall (q : ascii) (s : string),
    q = CurlParser.quote \/ q = CurlParser.dquote ->
    stripQuotes (String q (s ++ String q "")) = Done s.
Proof.
  intros q s Hq. unfold stripQuotes. cbv zeta.
  rewrite (TrimSpace_quoted q s Hq).
  assert (Hsuffix : GoStrings.HasSuffix (String q (s ++ String q ""))
                                        (String q "") = true).
  { unfold GoStrings.HasSuffix. cbv zeta.
    change (String q (s ++ String q "")) with (String q s ++ String q "").
    rewrite length_append. cbn [String.length].
    replace (S (String.length s) + 1 - 1) with (String.length (String q s))
      by (cbn [String.length]; lia).
    rewrite substring_last, String.eqb_refl.
    now destruct (String.length s). }
  assert (Hprefix : GoStrings.HasPrefix (String q (s ++ String q ""))
                                        (String q "") = true).
  { unfold GoStrings.HasPrefix. cbn [String.prefix].
    destruct (ascii_dec q q) as [_|Hne]; [|contradiction].
    now destruct (s ++ String q ""). }
  assert (Hcond : (GoStrings.HasPrefix (String q (s ++ String q ""))
                     (str quote)
                   && GoStrings.HasSuffix (String q (s ++ String q ""))
                        (str quote))
                  || (GoStrings.HasPrefix (String q (s ++ String q ""))
                        (str dquote)
                      && GoStrings.HasSuffix (String q (s ++ String q ""))
                           (str dquote)) = true).
  { unfold str. destruct Hq as [->| ->].
    - now rewrite Hprefix, Hsuffix.
    - rewrite Hprefix, Hsuffix. apply orb_true_r. }
  rewrite Hcond. cbn [String.length].
  rewrite length_append. cbn [String.length].
  replace (S (String.length s + 1) <? 2)%nat with false
    by (symmetry; apply Nat.ltb_ge; lia).
  replace (S (String.length s + 1) - 2) with (String.length s) by lia.
  cbn [substring]. now rewrite substring_prefix.
Qed.

(** * Instances of the properties above *)

(** Witness of X1: the type [header]. *)
Lemma unknown_type_fails_witness :
  on_every_runtime (fun R =>
    executeAssertion (body_name JNull) [("type", JString "header")]
    = Done (mkAssertionResult "header" "" "" go_nil go_nil false
              ("Unknown assertion type: " ++ "header"))).
Proof.
  intro R. apply (@unknown_type_fails R); [reflexivity|].
  cbv. intuition discriminate.
Defined.

(** Witness of X2: an expected time of 500. *)
Lemma response_time_always_passes_witness :
  on_every_runtime (fun R =>
    exists r,
      executeAssertion (body_name JNull)
        [("type", JString "response_time"); ("expected", JNumber 500%float)]
      = Done r
      /\ Passed r = true).
Proof.
  intro R.
  destruct (@response_time_always_passes R (body_name JNull)
              [("type", JString "response_time");
               ("expected", JNumber 500%float)] eq_refl)
    as [r [Hr [Hp _]]].
  exists r. split; [exact Hr|exact Hp].
Defined.

(** Witness of X3: the name [Ann] compared with the string [Ann]. *)
Lemma equals_compares_dynamic_types_witness :
  on_every_runtime (fun R =>
    exists r,
      executeAssertion (body_name (JString "Ann"))
        (equals_assertion "body.name" (JString "Ann")) = Done r
      /\ Passed r = true).
Proof.
  intro R.
  pose proof (@equals_compares_dynamic_types R (body_name (JString "Ann"))
                (equals_assertion "body.name" (JString "Ann")) "body.name"
                (JString "Ann") eq_refl eq_refl eq_refl) as H.
  cbv zeta in H. destruct H as [H _].
  destruct (H eq_refl) as [r [Hr [_ [_ [Hp _]]]]].
  exists r. split; [exact Hr|]. apply Hp. reflexivity.
Defined.

(** Witness of X4: an explicit [null] name. *)
Lemma equals_null_matches_absent_witness :
  on_every_runtime (fun R =>
    exists r,
      executeAssertion (body_name JNull) (equals_assertion "body.name" JNull)
      = Done r
      /\ Passed r = true).
Proof.
  intro R.
  destruct (@equals_null_matches_absent R (body_name JNull)
              (equals_assertion "body.name" JNull) "body.name"
              eq_refl eq_refl eq_refl) as [r [Hr Hp]].
  exists r. split; [exact Hr|]. apply Hp. right. reflexivity.
Defined.


(** Witness of X6: a missing path. *)
Lemma failure_has_message_witness :
  on_every_runtime (fun R =>
    exists r,
      executeAssertion (body_name JNull) (exists_assertion "body.missing")
      = Done r
      /\ Passed r = false /\ Message r <> "").
Proof.
  intro R.
  exists (mkAssertionResult "exists" "body.missing" "exists" go_nil go_nil
            false "JSON path 'body.missing' does not exist").
  split; [reflexivity|]. split; [reflexivity|].
  apply (proj1 (@failure_has_message R (body_name JNull)
                  (exists_assertion "body.missing") _ eq_refl)).
  reflexivity.
Defined.

(** Witness of X7: a response with status 404. *)
Lemma failed_request_short_circuits_witness :
  on_every_runtime (fun R =>
    ExecuteTest not_found_client (get_spec (Some three_exists))
    = Done (mkTestResult "Test Get User" "FAILED"
              ("HTTP request failed with status " ++ GoStrings.fmt_d 404)
              "" [])).
Proof.
  intro R.
  apply (@failed_request_short_circuits R not_found_client
           (get_spec (Some three_exists))).
  discriminate.
Defined.

(** Witness of X8: a specification without an assertion list. *)
Lemma result_invariants_witness :
  on_every_runtime (fun R =>
    exists result,
      ExecuteTest empty_body_client (get_spec None) = Done result
      /\ Status result = "FAILED"
      /\ ErrorMessage result <> ""
      /\ ResponseData result <> "").
Proof.
  intro R. eexists. split; [reflexivity|]. split; [reflexivity|].
  destruct (@result_invariants R empty_body_client (get_spec None) _ eq_refl)
    as [_ [_ [_ [Hfailed [_ Hdata]]]]].
  split; [apply Hfailed; reflexivity|apply Hdata; reflexivity].
Defined.

(** Witness of X9: the typed assertion [{Type: "status_code", Expected: 404}]
    on a response with status 200. *)
Lemma uncompared_specification_passes_witness :
  on_every_runtime (fun R =>
    exists result,
      ExecuteTest empty_body_client
        (get_spec (Some [Models.mkAssertionSpec "status_code" "" ""
                           (JNumber 404%float)])) = Done result
      /\ Status result = "PASSED"
      /\ ErrorMessage result = ""
      /\ forallb Passed (AssertionResults result) = true).
Proof.
  intro R.
  apply (@uncompared_specification_passes R empty_body_client
           (get_spec (Some [Models.mkAssertionSpec "status_code" "" ""
                              (JNumber 404%float)]))
           [Models.mkAssertionSpec "status_code" "" "" (JNumber 404%float)]);
    reflexivity.
Defined.

(** Witness of X10: three [exists] assertions. *)
Lemma panic_free_specification_returns_witness :
  on_every_runtime (fun R =>
    exists result,
      ExecuteTest empty_body_client (get_spec (Some three_exists))
      = Done result).
Proof.
  intro R.
  apply (@panic_free_specification_returns R empty_body_client
           (get_spec (Some three_exists))).
  reflexivity.
Defined.

(** Witness of X12: three [exists] assertions, two of which fail on the
    empty body, and their reversal. *)
Lemma status_independent_of_order_witness :
  on_every_runtime (fun R =>
    exists result',
      ExecuteTest empty_body_client
        (with_assertions (get_spec None) (rev three_exists)) = Done result'
      /\ Status result' = "FAILED").
Proof.
  intro R.
  assert (Hrun : exists result,
            ExecuteTest empty_body_client
              (with_assertions (get_spec None) three_exists) = Done result
            /\ Status result = "FAILED")
    by (eexists; split; reflexivity).
  destruct Hrun as [result [Hrun Hstatus]].
  destruct (@status_independent_of_order R empty_body_client (get_spec None)
              three_exists (rev three_exists) result
              (fun a => in_rev three_exists a) Hrun)
    as [result' [Hrun' Hsame]].
  exists result'. split; [exact Hrun'|]. now rewrite Hsame.
Defined.

(** Witness of X13: an empty batch. *)
Lemma empty_or_panicking_run_fails_witness :
  on_every_runtime (fun R =>
    Services.Run
      (Services.completed_run decode_ok (fun _ => empty_body_client)
         "nightly" [])
    = Models.mkTestRun "nightly" "failed" 0 0 0).
Proof.
  intro R.
  apply (@empty_or_panicking_run_fails R decode_ok
           (fun _ => empty_body_client) "nightly" []).
  left. reflexivity.
Defined.

(** Witness of X14: three test cases, the second with a specification that
    does not parse. *)
Lemma rows_follow_test_cases_witness :
  on_every_runtime (fun R =>
    map Services.TestCaseID
        (Services.Rows
           (Services.completed_run decode_ok (fun _ => empty_body_client)
              "nightly" three_cases))
    = ["1"; "2"; "3"]).
Proof.
  intro R.
  assert (Hne : three_cases <> []) by discriminate.
  assert (Hall : forall tc, In tc three_cases ->
            exists b, Services.verdict decode_ok (fun _ => empty_body_client) tc
                      = Done b).
  { intros tc [<-|[<-|[<-|[]]]]; eexists; reflexivity. }
  pose proof (@rows_follow_test_cases R decode_ok (fun _ => empty_body_client)
                "nightly" three_cases Hne Hall) as H.
  cbv zeta in H. destruct H as [Hrows _]. exact Hrows.
Defined.

(** Witness of X16: a repeated header. *)
Lemma parsed_maps_have_distinct_keys_witness :
  on_every_runtime (fun R =>
    exists r,
      ParseCurlCommand sample_command = Done (inr r)
      /\ NoDup (keys (Headers r))
      /\ NoDup (keys (QueryParams r))
      /\ NoDup (keys (PathVariables r))).
Proof.
  intro R. eexists. split; [reflexivity|].
  apply (@parsed_maps_have_distinct_keys R sample_command _ eq_refl).
Defined.

(** Witness of X17: the path variable [id]. *)
Lemma path_variables_are_placeholders_witness :
  on_every_runtime (fun R =>
    exists r,
      ParseCurlCommand sample_command = Done (inr r)
      /\ forall name value, In (name, value) (PathVariables r) ->
           value = "" /\ name <> "" /\ has_byte rbrace name = false).
Proof.
  intro R. eexists. split; [reflexivity|].
  apply (proj2 (@path_variables_are_placeholders R sample_command _ eq_refl)).
Defined.

(** Witness of X18: a read of a FHIR resource. *)
Lemma parsed_request_is_consistent_witness :
  on_every_runtime (fun R =>
    exists r,
      ParseCurlCommand sample_command = Done (inr r)
      /\ RawCommand r = sample_command
      /\ RequestType r = classifyRequest r).
Proof.
  intro R. eexists. split; [reflexivity|].
  destruct (@parsed_request_is_consistent R sample_command _ eq_refl)
    as [Hraw [Htype _]].
  split; [exact Hraw|exact Htype].
Defined.

(** Witness of X19: a quoted header argument. *)
Lemma header_flags_bind_last_witness :
  on_every_runtime (fun R =>
    exists result',
      walk ["-H"; "'Accept: text/plain'"]
           (mkCurlRequest "GET" "" [("Accept", "a")] "" [] [] "" "")
      = walk [] result'
      /\ get (Headers result') "Accept" = Some "text/plain").
Proof.
  intro R.
  pose proof (header_flags_bind_last "-H" "'Accept: text/plain'" []
                (mkCurlRequest "GET" "" [("Accept", "a")] "" [] [] "" "")
                "-H" "Accept: text/plain" "Accept" " text/plain"
                eq_refl eq_refl eq_refl (or_introl eq_refl)) as H.
  cbv zeta in H. destruct H as [result' [Hwalk [Hget _]]].
  exists result'. split; [exact Hwalk|exact Hget].
Defined.

(** Witness of X20: four words. *)
Lemma tokens_of_joined_words_witness :
  on_every_runtime (fun R =>
    FindAllTokens (GoStrings.Join ["curl"; "-X"; "POST"; "http://x"] " ")
    = ["curl"; "-X"; "POST"; "http://x"]).
Proof.
  intro R.
  apply (tokens_of_joined_words ["curl"; "-X"; "POST"; "http://x"]).
  reflexivity.
Defined.

(** Witness of X22: a specification whose only assertion is a header-path
    one. *)
Lemma cleaned_specification_witness :
  on_every_runtime (fun R =>
    lookup "assertions" (TestService.cleaned header_only_spec) = Some JNull
    /\ lookup "name" (TestService.cleaned header_only_spec)
       = lookup "name" header_only_spec).
Proof.
  intro R.
  destruct (@cleaned_specification R header_only_spec
              [JObject [("type", JString "exists");
                        ("path", JString "headers.Content-Type")]] eq_refl)
    as [Hother [_ [Hnull _]]].
  split.
  - apply Hnull. intros a [<-|[]]. reflexivity.
  - apply Hother. discriminate.
Defined.

(** Witness of X24: the assertion on the [id] of the first element. *)
Lemma generated_assertions_pass_on_list_body_witness :
  on_every_runtime (fun R =>
    exists r,
      executeAssertion list_response
        (Generator.Assertion_json
           (Generator.equals_at "[0].id" (JNumber 1%float))) = Done r
      /\ Passed r = true /\ Message r = "").
Proof.
  intro R.
  apply (@generated_assertions_pass_on_list_body R
           Generator.NewAssertionGenerator list_response
           [JObject [("id", JNumber 1%float);
                     ("tags", JArray [JString "a"; JNull])];
            JString "x"]
           (Generator.equals_at "[0].id" (JNumber 1%float))).
  - reflexivity.
  - reflexivity.
  - do 3 right. left. reflexivity.
  - split; [reflexivity|]. split; [reflexivity|]. left. reflexivity.
Defined.

(** Witness of X25: the key [name] of the body [{"name": "Ann"}]. *)
Lemma object_body_assertions_fail_witness :
  on_every_runtime (fun R =>
    In (Generator.exists_at "name")
       (Generator.GenerateAssertions Generator.NewAssertionGenerator
          (TestRunner.Body (body_name (JString "Ann"))) "")
    /\ executeAssertion (body_name (JString "Ann")) (exists_assertion "name")
       = Done (mkAssertionResult "exists" "name" "exists" go_nil go_nil false
                 ("JSON path '" ++ "name" ++ "' does not exist"))).
Proof.
  intro R.
  apply (@object_body_assertions_fail R Generator.NewAssertionGenerator
           (body_name (JString "Ann")) [("name", JString "Ann")] "name"
           (JString "Ann") (exists_assertion "name")).
  - reflexivity.
  - left. reflexivity.
  - discriminate.
  - reflexivity.
  - reflexivity.
  - split; [reflexivity|]. split; [reflexivity|]. right. split; reflexivity.
Defined.

(** Witness of X26: the common assertion on [data]. *)
Lemma common_assertions_always_fail_witness :
  on_every_runtime (fun R =>
    executeAssertion (body_name (JString "Ann")) (exists_assertion "data")
    = Done (mkAssertionResult "exists" "data" "exists" go_nil go_nil false
              ("JSON path '" ++ "data" ++ "' does not exist"))).
Proof.
  intro R.
  apply (@common_assertions_always_fail R (body_name (JString "Ann"))
           (Generator.exists_at "data") (exists_assertion "data")).
  - left. reflexivity.
  - split; [reflexivity|]. split; [reflexivity|]. right. split; reflexivity.
Defined.

(** Witness of X27: a single-quoted argument that holds a space. *)
Lemma stripQuotes_removes_one_pair_witness :
  on_every_runtime (fun R =>
    stripQuotes (String quote ("a b" ++ String quote "")) = Done "a b").
Proof.
  intro R. apply (stripQuotes_removes_one_pair quote "a b").
  left. reflexivity.
Defined.
